(** * Polars Python layer: Series, construction, selectors and the early DataFrame

    A shallow embedding of the Python sources

    - [polars/internals/series/series.py]   (class [Series])
    - [polars/internals/construction.py]    (the Series constructor interface)
    - [polars/selectors.py]                 (class [_selector_proxy_])
    - [pypolars/frame.py]                   (the early [DataFrame.__getitem__])

    Python objects that are mutated in place and shared by reference (the
    native [PySeries] behind a [Series]) live in an explicit store; every
    method is a computation that threads this store and either returns a
    value or raises a Python exception.  The native kernels themselves (the
    compiled extension module, numpy, pyarrow) are not part of the Python
    sources: they are the fields of the class [PyBackend].

    Part I holds the definitions, Part II the properties. *)

From Stdlib Require Import ZArith Floats.PrimFloat Floats.SpecFloat Floats.FloatOps.
From stdpp Require Import base decidable option list strings.

Open Scope Z_scope.
Set Warnings "-register-all".

(** * Part I: definitions *)

(** ** Python exceptions and the store-and-exception monad *)

Module Py.

(** The exception classes the modelled code raises or catches.  The
    payload is [str(e)]. *)
Inductive exn : Type :=
| ValueError (msg : string)
| TypeError (msg : string)
| ImportError (msg : string)
| IndexError (msg : string)
| AttributeError (msg : string)
| RuntimeError (msg : string)
| NotImplementedError (msg : string)   (* a subclass of RuntimeError *)
| RecursionError (msg : string)        (* a subclass of RuntimeError *)
| ArrowInvalid (msg : string)          (* pa.lib.ArrowInvalid *)
| PolarsError (msg : string).          (* errors of the native kernels *)

#[global] Instance exn_eq_dec : EqDecision exn.
Proof. solve_decision. Defined.

(** [str(e)] *)
Definition str (e : exn) : string :=
  match e with
  | ValueError m | TypeError m | ImportError m | IndexError m
  | AttributeError m | RuntimeError m | NotImplementedError m | RecursionError m | ArrowInvalid m
  | PolarsError m => m
  end.

(** [isinstance(e, RuntimeError)]: what an [except RuntimeError] clause
    catches, subclasses included. *)
Definition isinstance_RuntimeError (e : exn) : bool :=
  match e with
  | RuntimeError _ | NotImplementedError _ | RecursionError _ => true
  | _ => false
  end.

Definition isinstance_ValueError (e : exn) : bool :=
  match e with ValueError _ => true | _ => false end.

Definition isinstance_ArrowInvalid (e : exn) : bool :=
  match e with ArrowInvalid _ => true | _ => false end.

Inductive result (A : Type) : Type :=
| Ok (a : A)
| Raise (e : exn).
Arguments Ok {A} a.
Arguments Raise {A} e.

Definition is_ok {A} (r : result A) : bool :=
  match r with Ok _ => true | Raise _ => false end.

(** Result-level bind, for pure code. *)
Definition rbind {A B} (r : result A) (k : A -> result B) : result B :=
  match r with Ok a => k a | Raise e => Raise e end.

(** [f] applied to the value returned, if any. *)
Definition rmap {A B} (f : A -> B) (r : result A) : result B :=
  match r with Ok a => Ok (f a) | Raise e => Raise e end.

(** A computation over a store [St]: the store after the call, and the
    value returned or the exception raised.  A raised exception keeps the
    store as it was left: Python does not roll back. *)
Definition M (St A : Type) : Type := St -> St * result A.

Definition ret {St A} (a : A) : M St A := fun h => (h, Ok a).

Definition raise {St A} (e : exn) : M St A := fun h => (h, Raise e).

Definition bind {St A B} (m : M St A) (k : A -> M St B) : M St B :=
  fun h => match m h with
           | (h', Ok a) => k a h'
           | (h', Raise e) => (h', Raise e)
           end.

(** a pure, possibly failing, native call *)
Definition lift {St A} (r : result A) : M St A := fun h => (h, r).

(** [try: m  except <class> as e: handler(e)]; [catches e] tells whether
    the except clause matches the exception. *)
Definition try_except {St A} (m : M St A) (catches : exn -> bool)
    (handler : exn -> M St A) : M St A :=
  fun h => match m h with
           | (h', Ok a) => (h', Ok a)
           | (h', Raise e) => if catches e then handler e h' else (h', Raise e)
           end.

(** [if c: raise e] *)
Definition raise_if {St} (c : bool) (e : exn) : M St unit :=
  if c then raise e else ret tt.

End Py.

Export Py.

Declare Scope py_scope.
Delimit Scope py_scope with py.
Notation "x <- m ;; k" := (Py.bind m (fun x => k))
  (at level 100, m at next level, right associativity) : py_scope.
Notation "m ;;; k" := (Py.bind m (fun _ => k))
  (at level 100, right associativity) : py_scope.
Notation "x <~ r ;; k" := (Py.rbind r (fun x => k))
  (at level 100, r at next level, right associativity) : py_scope.
Open Scope py_scope.

(** ** Data types: [polars.datatypes] *)

(** The dtype classes [series.py] imports from [polars.datatypes]. *)
Inductive DataType : Type :=
| Boolean
| Int8 | Int16 | Int32 | Int64
| UInt8 | UInt16 | UInt32 | UInt64
| Float32 | Float64
| Utf8
| Date | Datetime | Duration | Time
| List
| Object.

#[global] Instance DataType_eq_dec : EqDecision DataType.
Proof. solve_decision. Defined.

(** [d in (a, b, ...)] and [d in {a, b, ...}] on dtype classes: classes
    hash and compare by identity, so both are plain membership. *)
Definition dtype_in (d : DataType) (ds : list DataType) : bool :=
  bool_decide (d ∈ ds).

(** ** Python values *)

(** The scalar element types of numpy: [arr.dtype]. *)
Inductive np_dtype : Type :=
| np_int8 | np_int16 | np_int32 | np_int64
| np_uint8 | np_uint16 | np_uint32 | np_uint64
| np_float32 | np_float64
| np_bool
| np_object.

#[global] Instance np_dtype_eq_dec : EqDecision np_dtype.
Proof. solve_decision. Defined.

(** [arr.dtype.kind] *)
Inductive np_kind : Type := kind_i | kind_u | kind_f | kind_b | kind_O.

#[global] Instance np_kind_eq_dec : EqDecision np_kind.
Proof. solve_decision. Defined.

Definition kind (d : np_dtype) : np_kind :=
  match d with
  | np_int8 | np_int16 | np_int32 | np_int64 => kind_i
  | np_uint8 | np_uint16 | np_uint32 | np_uint64 => kind_u
  | np_float32 | np_float64 => kind_f
  | np_bool => kind_b
  | np_object => kind_O
  end.

(** One element of a column or of an array. *)
Inductive scalar : Type :=
| SInt (z : Z)
| SFloat (f : float)
| SBool (b : bool)
| SStr (s : string).

Definition scalar_int (v : scalar) : option Z :=
  match v with SInt z => Some z | _ => None end.

(** A numpy array: its number of dimensions, element type and elements in
    C order. *)
Record ndarray : Type := mk_ndarray {
  ndim : nat;
  nd_dtype : np_dtype;
  nd_data : list scalar;
  C_CONTIGUOUS : bool
}.

(** A [Series] object: a Python wrapper holding a reference [_s] to a
    native [PySeries], which lives in the store. *)
Record Series : Type := wrap { _s : nat }.

#[global] Instance Series_eq_dec : EqDecision Series.
Proof. solve_decision. Defined.

(** The Python objects that reach the modelled methods as [name],
    [values], [other], [item] or [idxs]. *)
Inductive pyobj : Type :=
| PyNone
| PyBool (b : bool)
| PyInt (z : Z)
| PyFloat (f : float)
| PyStr (s : string)
| PyDate (days : Z)                 (* datetime.date *)
| PyDatetime (us : Z)               (* datetime.datetime *)
| PyList (l : list pyobj)
| PyTuple (l : list pyobj)
| PySeriesRef (s : Series)
| PyNdarray (a : ndarray)
| PyArrow (id : nat)                (* pa.Array, pa.ChunkedArray *)
| PyPandas (id : nat)               (* pd.Series, pd.DatetimeIndex *)
| PySlice (start stop step : option Z)
| PyRange (start stop step : Z)
| PySequence (type_name : string) (items : list pyobj)
                                    (* any other Sequence: bytes, a deque, ... *)
| PyOther (type_name : string).     (* an object that is none of the above *)

(** [type(v)] *)
Inductive py_type : Type :=
| ty_NoneType | ty_bool | ty_int | ty_float | ty_str | ty_date | ty_datetime
| ty_list | ty_tuple | ty_Series | ty_ndarray | ty_arrow | ty_pandas
| ty_slice | ty_range
| ty_other (type_name : string).

#[global] Instance py_type_eq_dec : EqDecision py_type.
Proof. solve_decision. Defined.

Definition type_of (v : pyobj) : py_type :=
  match v with
  | PyNone => ty_NoneType
  | PyBool _ => ty_bool
  | PyInt _ => ty_int
  | PyFloat _ => ty_float
  | PyStr _ => ty_str
  | PyDate _ => ty_date
  | PyDatetime _ => ty_datetime
  | PyList _ => ty_list
  | PyTuple _ => ty_tuple
  | PySeriesRef _ => ty_Series
  | PyNdarray _ => ty_ndarray
  | PyArrow _ => ty_arrow
  | PyPandas _ => ty_pandas
  | PySlice _ _ _ => ty_slice
  | PyRange _ _ _ => ty_range
  | PySequence n _ => ty_other n
  | PyOther n => ty_other n
  end.

(** [v is None] *)
Definition is_None (v : pyobj) : bool :=
  match v with PyNone => true | _ => false end.

(** [isinstance(v, str)] *)
Definition isinstance_str (v : pyobj) : bool :=
  match v with PyStr _ => true | _ => false end.

(** [isinstance(v, float)]; [int] and [bool] are not floats. *)
Definition isinstance_float (v : pyobj) : bool :=
  match v with PyFloat _ => true | _ => false end.

(** The elements of [range(start, stop, step)], for a [step] that is
    not 0 ([range] itself refuses 0). *)
Definition range_items (start stop step : Z) : list Z :=
  let n :=
    if bool_decide (0 < step) then (stop - start + step - 1) / step
    else if bool_decide (step < 0) then (start - stop - step - 1) / (- step)
    else 0 in
  (fun k => start + Z.of_nat k * step) <$> seq 0 (Z.to_nat n).

(** [isinstance(v, collections.abc.Sequence)], with the items of [v]:
    [list], [tuple], [str], [range] and the other Sequences; [None] for an
    object that is no Sequence (a Series, a numpy array and a scalar are
    none). *)
Definition sequence_items (v : pyobj) : option (list pyobj) :=
  match v with
  | PyList l | PyTuple l | PySequence _ l => Some l
  | PyStr s => Some ((fun c => PyStr (String c EmptyString)) <$> String.list_ascii_of_string s)
  | PyRange start stop step => Some (PyInt <$> range_items start stop step)
  | _ => None
  end.

(** ** The native column: [PySeries] *)

(** A column as the specification's data model has it: a name, one dtype
    and an ordered sequence of chunks; a null is [None]. *)
Record PySeries : Type := mk_PySeries {
  ps_name : string;
  ps_dtype : DataType;
  ps_chunks : list (list (option scalar))
}.

(** The logical sequence: the chunks, concatenated. *)
Definition ps_values (ps : PySeries) : list (option scalar) :=
  concat (ps_chunks ps).

Definition ps_len (ps : PySeries) : Z := Z.of_nat (length (ps_values ps)).

Definition ps_rename (name : string) (ps : PySeries) : PySeries :=
  {| ps_name := name; ps_dtype := ps_dtype ps; ps_chunks := ps_chunks ps |}.

(** The store: the native columns alive, by address. *)
Definition heap : Type := list PySeries.

(** A native constructor: [constructor(name, values, strict)]. *)
Definition constructor : Type := string -> list pyobj -> bool -> result PySeries.

(** A native kernel bound to a column, as [getattr(obj, fname)] returns it. *)
Definition ffi_func : Type := pyobj -> result PySeries.

(** ** What the Python layer calls and the sources do not define

    The compiled extension module ([polars.polars]: the [PySeries] methods),
    [polars.datatypes], [polars.datatypes_constructor], [polars.utils],
    the expression engine, numpy and pyarrow.  Every property of Part II
    holds for any implementation of them, unless it names one. *)
Class PyBackend : Type := {
  (* module-level flags, set by the guarded imports *)
  _PYARROW_AVAILABLE : bool;
  _NUMPY_AVAILABLE : bool;
  _PANDAS_AVAILABLE : bool;
  (* polars.datatypes *)
  get_idx_type : DataType;              (* UInt32, or UInt64 in polars_u64_idx *)
  dtype_to_ffiname : DataType -> string;
  (* maybe_cast(el, dtype, time_unit): the element converted to the Python
     type of the dtype, or the error of a conversion that fails *)
  maybe_cast : pyobj -> PySeries -> result pyobj;
  py_type_to_dtype : py_type -> result DataType;
  py_type_to_arrow_type : py_type -> result nat;
  (* polars.datatypes_constructor *)
  polars_type_to_constructor : DataType -> result constructor;
  py_type_to_constructor : py_type -> result constructor;
  numpy_type_to_constructor :
    np_dtype -> result (string -> ndarray -> bool -> result PySeries);
  (* polars.utils *)
  is_bool_sequence : pyobj -> bool;
  is_int_sequence : pyobj -> bool;
  range_to_slice : Z -> Z -> Z -> pyobj;
  (* pyarrow and pandas; arrays and arrow types are opaque handles *)
  pa_array : list pyobj -> option nat -> result nat;
  pa_large_list : nat -> nat;
  coerce_arrow : nat -> result nat;
  _pandas_series_to_arrow : nat -> bool -> result nat;
  pandas_name : nat -> option string;   (* str(values.name), when not None *)
  (* numpy: hash(arr.dtype) and hash(np.int64), hash(np.uint64), ... *)
  hash_of_dtype : np_dtype -> Z;
  hash_of_scalar_type : np_dtype -> Z;
  (* PySeries: constructors *)
  PySeries_from_arrow : string -> nat -> result PySeries;
  PySeries_new_object : string -> pyobj -> bool -> result PySeries;
  PySeries_new_list : string -> list pyobj -> DataType -> result PySeries;
  (* PySeries: kernels that return a new column or a value *)
  PySeries_cast : PySeries -> DataType -> bool -> result PySeries;
  PySeries_arith : string -> PySeries -> PySeries -> result PySeries;
  PySeries_getattr : PySeries -> string -> option ffi_func;
  PySeries_max : PySeries -> pyobj;
  PySeries_min : PySeries -> pyobj;
  getitem_int : PySeries -> Z -> result pyobj;   (* series.py, lines 559-570 *)
  PySeries_filter : PySeries -> PySeries -> result PySeries;
  PySeries_take_with_series : PySeries -> PySeries -> result PySeries;
  PySeries_floor : PySeries -> result PySeries;
  PySeries_sample_n :
    PySeries -> Z -> bool -> bool -> option Z -> result PySeries;
  PySeries_sample_frac :
    PySeries -> float -> bool -> bool -> option Z -> result PySeries;
  PolarsSlice_apply :
    PySeries -> option Z -> option Z -> option Z -> result PySeries;
  (* the expression engine: pli.select(when(lit(idxs) < 0).then(n + lit(idxs))
     .otherwise(lit(idxs))).to_series() *)
  select_when_negative : Z -> PySeries -> result PySeries;
  (* PySeries: the two kernels that write to their receiver in place;
     the arguments are the addresses of [self._s] and [other._s] *)
  PySeries_append : nat -> nat -> M heap unit;
  PySeries_extend : nat -> nat -> M heap unit
}.

Section PythonLayer.
Context `{PyBackend}.

(** *** The store *)

(** A native call returned a new object. *)
Definition alloc (ps : PySeries) : M heap nat :=
  fun h => (h ++ [ps], Ok (length h)).

(** Reading through a reference.  Python has no dangling references; a
    store that lacks the address is reported as an error of the model. *)
Definition deref (l : nat) : M heap PySeries :=
  fun h => match h !! l with
           | Some ps => (h, Ok ps)
           | None => (h, Raise (RuntimeError "no PySeries at this address"))
           end.

(** In-place update of the object at an address. *)
Definition update (l : nat) (f : PySeries -> PySeries) : M heap unit :=
  fun h => match h !! l with
           | Some ps => (<[l := f ps]> h, Ok tt)
           | None => (h, Raise (RuntimeError "no PySeries at this address"))
           end.

(** [wrap_s(s)], [Series._from_pyseries(s)], for the fresh native object
    that a kernel returned. *)
Definition wrap_s (ps : PySeries) : M heap Series :=
  l <- alloc ps ;; ret (wrap l).

(** [wrap_s(kernel(...))] *)
Definition wrap_result (r : result PySeries) : M heap Series :=
  ps <- lift r ;; wrap_s ps.

(** *** series.py: accessors *)

(** [self.inner()] *)
Definition inner (self : Series) : nat := _s self.

(** [self.dtype] *)
Definition dtype (self : Series) : M heap DataType :=
  ps <- deref (_s self) ;; ret (ps_dtype ps).

(** [self.name] *)
Definition name (self : Series) : M heap string :=
  ps <- deref (_s self) ;; ret (ps_name ps).

(** [self.len()] *)
Definition len (self : Series) : M heap Z :=
  ps <- deref (_s self) ;; ret (ps_len ps).

(** [self.max()], [self.min()] *)
Definition max (self : Series) : M heap pyobj :=
  ps <- deref (_s self) ;; ret (PySeries_max ps).

Definition min (self : Series) : M heap pyobj :=
  ps <- deref (_s self) ;; ret (PySeries_min ps).

Definition is_numeric (self : Series) : M heap bool :=
  d <- dtype self ;;
  ret (dtype_in d [Int8; Int16; Int32; Int64; UInt8; UInt16; UInt32; UInt64;
                   Float32; Float64]).

Definition is_datelike (self : Series) : M heap bool :=
  d <- dtype self ;; ret (dtype_in d [Date; Datetime; Duration; Time]).

Definition is_float (self : Series) : M heap bool :=
  d <- dtype self ;; ret (dtype_in d [Float32; Float64]).

(** [self.cast(dtype, strict)], for [dtype] a polars dtype (on which
    [py_type_to_dtype] is the identity). *)
Definition cast (self : Series) (dt : DataType) (strict : bool) : M heap Series :=
  ps <- deref (_s self) ;; wrap_result (PySeries_cast ps dt strict).

(** [self.floor()] *)
Definition floor (self : Series) : M heap Series :=
  ps <- deref (_s self) ;; wrap_result (PySeries_floor ps).

(** [self.clone()]: [wrap_s(self._s.clone())], a new native object with
    the same name, dtype and chunks. *)
Definition clone (self : Series) : M heap Series :=
  ps <- deref (_s self) ;; wrap_s ps.

(** [self.alias(name)] *)
Definition alias (self : Series) (new_name : string) : M heap Series :=
  s <- clone self ;;
  update (_s s) (ps_rename new_name) ;;;
  ret s.

(** [self.rename(name, in_place)]; [None] is the Python [None]. *)
Definition rename (self : Series) (new_name : string) (in_place : bool)
    : M heap (option Series) :=
  if in_place then
    update (_s self) (ps_rename new_name) ;;;
    ret None
  else
    s <- alias self new_name ;; ret (Some s).

(** *** construction.py: the Series constructor interface *)

(** [series_to_pyseries(name, values)]: renames [values] in place and
    hands back its own native object. *)
Definition series_to_pyseries (new_name : string) (values : Series) : M heap nat :=
  rename values new_name true ;;;
  ret (inner values).

(** [arrow_to_pyseries(name, values)] *)
Definition arrow_to_pyseries (new_name : string) (values : nat) : result PySeries :=
  array <~ coerce_arrow values ;;
  PySeries_from_arrow new_name array.

(** [numpy_to_pyseries(name, values, strict, nan_to_null)] *)
Definition numpy_to_pyseries (new_name : string) (values : ndarray)
    (strict nan_to_null : bool) : result PySeries :=
  let values :=
    if negb (C_CONTIGUOUS values)
    then {| ndim := ndim values; nd_dtype := nd_dtype values;
            nd_data := nd_data values; C_CONTIGUOUS := true |}   (* np.array(values) *)
    else values in
  if bool_decide (ndim values = 1%nat) then
    let dt := nd_dtype values in
    constructor <~ numpy_type_to_constructor dt ;;
    if bool_decide (dt = np_float32) || bool_decide (dt = np_float64)
    then constructor new_name values nan_to_null
    else constructor new_name values strict
  else PySeries_new_object new_name (PyNdarray values) strict.

(** [_get_first_non_none(values)] *)
Definition _get_first_non_none (values : list pyobj) : pyobj :=
  default PyNone (head (filter (fun v => is_None v = false) values)).

(** One element of a column, as Python sees it when iterating. *)
Definition scalar_to_py (v : option scalar) : pyobj :=
  match v with
  | None => PyNone
  | Some (SInt z) => PyInt z
  | Some (SFloat f) => PyFloat f
  | Some (SBool b) => PyBool b
  | Some (SStr s) => PyStr s
  end.

(** The elements an iteration over [value] yields, for the nested values
    [sequence_to_pyseries] looks into. *)
Definition iterate (value : pyobj) : M heap (list pyobj) :=
  match value with
  | PySeriesRef s => ps <- deref (_s s) ;; ret (scalar_to_py <$> ps_values ps)
  | _ => ret (default [] (sequence_items value))
  end.

(** [sequence_to_pyseries(name, values, dtype=None, strict=True)] *)
Definition sequence_to_pyseries (new_name : string) (values : list pyobj)
    (dt : option DataType) (strict : bool) : M heap PySeries :=
  (* Empty sequence defaults to Float32 type *)
  let dt := if bool_decide (values = []) && bool_decide (dt = None)
            then Some Float32 else dt in
  match dt with
  | Some dt =>
      constructor <- lift (polars_type_to_constructor dt) ;;
      pyseries <- lift (constructor new_name values strict) ;;
      if bool_decide (dt = Date) then lift (PySeries_cast pyseries Date true)
      else if bool_decide (dt = Datetime) then lift (PySeries_cast pyseries Datetime true)
      else ret pyseries
  | None =>
      let value := _get_first_non_none values in
      let dtype_ := if is_None value then ty_float else type_of value in
      if bool_decide (dtype_ = ty_date) || bool_decide (dtype_ = ty_datetime) then
        if negb _PYARROW_AVAILABLE then
          raise (ImportError "'pyarrow' is required for converting a Sequence of date or datetime values to a PySeries.")
        else
          arr <- lift (pa_array values None) ;;
          lift (arrow_to_pyseries new_name arr)
      else if bool_decide (dtype_ = ty_list) || bool_decide (dtype_ = ty_tuple)
              || bool_decide (dtype_ = ty_Series) then
        items <- iterate value ;;
        let nested_value := _get_first_non_none items in
        let nested_dtype := type_of nested_value in
        if negb _PYARROW_AVAILABLE then
          d <- lift (py_type_to_dtype nested_dtype) ;;
          lift (PySeries_new_list new_name values d)
        else
          nested_arrow_dtype <-
            try_except (lift (py_type_to_arrow_type nested_dtype))
              isinstance_ValueError
              (fun _ => raise (ValueError "Cannot construct Series from sequence of {nested_dtype}.")) ;;
          (* failure expected for mixed sequences like `[[12], "foo", 9]` *)
          try_except
            (arrow_values <- lift (pa_array values (Some (pa_large_list nested_arrow_dtype))) ;;
             lift (arrow_to_pyseries new_name arrow_values))
            isinstance_ArrowInvalid
            (fun _ => lift (PySeries_new_object new_name (PyList values) strict))
      else
        constructor <- lift (py_type_to_constructor dtype_) ;;
        lift (constructor new_name values strict)
  end.

(** [pandas_to_pyseries(name, values, nan_to_none=True)] *)
Definition pandas_to_pyseries (new_name : string) (values : nat)
    (nan_to_none : bool) : result PySeries :=
  if negb _PYARROW_AVAILABLE then
    Raise (ImportError "'pyarrow' is required when constructing a PySeries from a pandas Series.")
  else
    let new_name :=
      match pandas_name values with
      | Some n => if bool_decide (new_name = EmptyString) then n else new_name
      | None => new_name
      end in
    arr <~ _pandas_series_to_arrow values nan_to_none ;;
    arrow_to_pyseries new_name arr.

(** *** series.py: [Series.__init__] *)

(** [Series(name, values, dtype, strict, nan_to_null)].  The object under
    construction is returned; its [_s] is the address the branch taken
    assigned to [self._s]. *)
Definition Series_init (name_arg : pyobj) (values : pyobj)
    (dt : option DataType) (strict nan_to_null : bool) : M heap Series :=
  (* Handle case where values are passed as the first argument *)
  args <-
    (if negb (is_None name_arg) && negb (isinstance_str name_arg) then
       if is_None values then ret (PyNone, name_arg)
       else raise (ValueError "Series name must be a string.")
     else ret (name_arg, values)) ;;
  let values := snd args in
  let new_name := match fst args with PyStr s => s | _ => EmptyString end in
  match values with
  | PyNone =>
      ps <- sequence_to_pyseries new_name [] dt true ;; wrap_s ps
  | PySeriesRef v =>
      l <- series_to_pyseries new_name v ;; ret (wrap l)
  | PyArrow a =>
      if _PYARROW_AVAILABLE then wrap_result (arrow_to_pyseries new_name a)
      else raise (ValueError "Series constructor not called properly.")
  | PyNdarray a =>
      if _NUMPY_AVAILABLE then
        self <- wrap_result (numpy_to_pyseries new_name a strict nan_to_null) ;;
        match dt with
        | Some dt => cast self dt true
        | None => ret self
        end
      else raise (ValueError "Series constructor not called properly.")
  | PyPandas p =>
      if _PANDAS_AVAILABLE then wrap_result (pandas_to_pyseries new_name p true)
      else raise (ValueError "Series constructor not called properly.")
  | _ =>
      match sequence_items values with
      | Some items =>
          ps <- sequence_to_pyseries new_name items dt strict ;; wrap_s ps
      | None => raise (ValueError "Series constructor not called properly.")
      end
  end.

(** *** series.py: arithmetic *)

(** [s.replace(old, new)] for a non-empty [old]; [skip] counts the
    characters of a match still to be dropped. *)
Fixpoint str_replace_from (old new : string) (skip : nat) (s : string) : string :=
  match s with
  | EmptyString => EmptyString
  | String c rest =>
      match skip with
      | S k => str_replace_from old new k rest
      | O =>
          if String.prefix old s
          then new +:+ str_replace_from old new (String.length old - 1) rest
          else String c (str_replace_from old new 0 rest)
      end
  end.

Definition str_replace (s old new : string) : string :=
  str_replace_from old new 0 s.

(** [sub in s] *)
Definition str_contains (sub s : string) : bool :=
  bool_decide (is_Some (String.index 0 sub s)).

(** [get_ffi_func(name, dtype, obj)] *)
Definition get_ffi_func (fname : string) (dt : DataType) (obj : PySeries)
    : option ffi_func :=
  let ffi_name := dtype_to_ffiname dt in
  let fname := str_replace fname "<>" ffi_name in
  PySeries_getattr obj fname.

(** [self._arithmetic(other, op_s, op_ffi)] *)
Definition _arithmetic (self : Series) (other : pyobj) (op_s op_ffi : string)
    : M heap Series :=
  match other with
  | PySeriesRef o =>
      l <- deref (_s self) ;; r <- deref (_s o) ;;
      wrap_result (PySeries_arith op_s l r)
  | _ =>
      via_series <- (if isinstance_float other
                     then fl <- is_float self ;; ret (negb fl)
                     else ret false) ;;
      if via_series then
        other_s <- sequence_to_pyseries "" [other] None true ;;
        me <- deref (_s self) ;;
        if str_contains "rhs" op_ffi
        then wrap_result (PySeries_arith op_s other_s me)
        else wrap_result (PySeries_arith op_s me other_s)
      else
        me <- deref (_s self) ;;
        other <- lift (maybe_cast other me) ;;
        match get_ffi_func op_ffi (ps_dtype me) me with
        | None =>
            raise (ValueError "cannot do arithmetic with series of dtype: {self.dtype} and argument of type: {type(other)}")
        | Some f => wrap_result (f other)
        end
  end.

Definition __add__ (self : Series) (other : pyobj) : M heap Series :=
  other <- (if isinstance_str other
            then s <- Series_init (PyStr "") (PyList [other]) None true false ;;
                 ret (PySeriesRef s)
            else ret other) ;;
  _arithmetic self other "add" "add_<>".

Definition __sub__ (self : Series) (other : pyobj) : M heap Series :=
  _arithmetic self other "sub" "sub_<>".

(** [self / other].  The last line of the method divides again, on the
    cast column; [depth] is the depth of calls the interpreter still
    allows, and running out of it is Python's [RecursionError]. *)
Fixpoint __truediv__ (depth : nat) (self : Series) (other : pyobj) : M heap Series :=
  match depth with
  | O => raise (RecursionError "maximum recursion depth exceeded")
  | S depth =>
      dl <- is_datelike self ;;
      if dl then raise (ValueError "first cast to integer before dividing datelike dtypes")
      else
        (* this branch is exactly the floordiv function without rounding the floats *)
        fl <- is_float self ;;
        if fl then _arithmetic self other "div" "div_<>"
        else
          c <- cast self Float64 true ;;
          __truediv__ depth c other
  end.

Definition __floordiv__ (self : Series) (other : pyobj) : M heap Series :=
  dl <- is_datelike self ;;
  if dl then raise (ValueError "first cast to integer before dividing datelike dtypes")
  else
    res <- _arithmetic self other "div" "div_<>" ;;
    fl <- is_float self ;;
    if fl || isinstance_float other then floor res else ret res.

Definition __mul__ (self : Series) (other : pyobj) : M heap Series :=
  dl <- is_datelike self ;;
  if dl then raise (ValueError "first cast to integer before multiplying datelike dtypes")
  else _arithmetic self other "mul" "mul_<>".

Definition __mod__ (self : Series) (other : pyobj) : M heap Series :=
  dl <- is_datelike self ;;
  if dl then raise (ValueError "first cast to integer before applying modulo on datelike dtypes")
  else _arithmetic self other "rem" "rem_<>".

Definition __rmod__ (self : Series) (other : pyobj) : M heap Series :=
  dl <- is_datelike self ;;
  if dl then raise (ValueError "first cast to integer before applying modulo on datelike dtypes")
  else _arithmetic self other "rem" "rem_<>_rhs".

Definition __radd__ (self : Series) (other : pyobj) : M heap Series :=
  _arithmetic self other "add" "add_<>_rhs".

Definition __rsub__ (self : Series) (other : pyobj) : M heap Series :=
  _arithmetic self other "sub" "sub_<>_rhs".

Definition __rfloordiv__ (self : Series) (other : pyobj) : M heap Series :=
  dl <- is_datelike self ;;
  if dl then raise (ValueError "first cast to integer before dividing datelike dtypes")
  else _arithmetic self other "div" "div_<>_rhs".

(** [float(z)]: the nearest binary64 number. *)
Definition float_of_int (z : Z) : float :=
  SF2Prim (binary_normalize prec emax z 0 false).

Definition __rtruediv__ (self : Series) (other : pyobj) : M heap Series :=
  dl <- is_datelike self ;;
  if dl then raise (ValueError "first cast to integer before dividing datelike dtypes")
  else
    fl <- is_float self ;;
    (if fl then __rfloordiv__ self other ;;; ret tt else ret tt) ;;;
    let other := match other with
                 | PyInt z => PyFloat (float_of_int z)
                 | PyBool b => PyFloat (float_of_int (if b then 1 else 0))
                 | _ => other
                 end in
    c <- cast self Float64 true ;;
    __rfloordiv__ c other.

Definition __rmul__ (self : Series) (other : pyobj) : M heap Series :=
  dl <- is_datelike self ;;
  if dl then raise (ValueError "first cast to integer before multiplying datelike dtypes")
  else _arithmetic self other "mul" "mul_<>".

(** *** series.py: index conversion and [__getitem__] *)

(** [v >= k] and [v < k] for [v] the value of [max()] or [min()] and [k]
    an [int]: ordering [None] (or a date, a string) against an [int] is a
    [TypeError]. *)
Definition py_ge (v : pyobj) (k : Z) : result bool :=
  match v with
  | PyInt z => Ok (bool_decide (k <= z))
  | PyBool b => Ok (bool_decide (k <= (if b then 1 else 0)))
  | PyFloat f => Ok (PrimFloat.leb (float_of_int k) f)
  | _ => Raise (TypeError "'>=' not supported between instances of this type and 'int'")
  end.

Definition py_lt (v : pyobj) (k : Z) : result bool :=
  match v with
  | PyInt z => Ok (bool_decide (z < k))
  | PyBool b => Ok (bool_decide ((if b then 1 else 0) < k))
  | PyFloat f => Ok (PrimFloat.ltb f (float_of_int k))
  | _ => Raise (TypeError "'<' not supported between instances of this type and 'int'")
  end.

(** The integers of an integer array. *)
Definition nd_ints (a : ndarray) : list Z := omap scalar_int (nd_data a).

(** [arr.max()], [arr.min()]: numpy raises [ValueError] on an empty array. *)
Definition np_max (a : ndarray) : result Z :=
  match nd_ints a with
  | [] => Raise (ValueError "zero-size array to reduction operation maximum which has no identity")
  | z :: zs => Ok (foldr Z.max z zs)
  end.

Definition np_min (a : ndarray) : result Z :=
  match nd_ints a with
  | [] => Raise (ValueError "zero-size array to reduction operation minimum which has no identity")
  | z :: zs => Ok (foldr Z.min z zs)
  end.

(** [arr.astype(t)], for the widening conversions [_pos_idxs] makes. *)
Definition astype (a : ndarray) (t : np_dtype) : ndarray :=
  {| ndim := ndim a; nd_dtype := t; nd_data := nd_data a; C_CONTIGUOUS := true |}.

(** [np.where(arr < 0, n + arr, arr)] *)
Definition np_where_negative (n : Z) (a : ndarray) : ndarray :=
  {| ndim := ndim a; nd_dtype := nd_dtype a;
     nd_data := (fun v => match v with
                          | SInt z => if bool_decide (z < 0) then SInt (n + z) else SInt z
                          | _ => v
                          end) <$> nd_data a;
     C_CONTIGUOUS := true |}.

(** [d in (t1, t2, ...)]: a tuple is searched with [==], and a numpy
    dtype equals the scalar type it stands for. *)
Definition np_dtype_in_tuple (d : np_dtype) (types : list np_dtype) : bool :=
  bool_decide (d ∈ types).

(** [d in {t1, t2, ...}]: a set is searched by hash first, and only an
    element with the hash of [d] is compared with [==]. *)
Definition np_dtype_in_set (d : np_dtype) (types : list np_dtype) : bool :=
  existsb (fun t => bool_decide (hash_of_dtype d = hash_of_scalar_type t)
                    && bool_decide (d = t)) types.

(** [self._pos_idxs(idxs)] *)
Definition _pos_idxs (self : Series) (idxs : pyobj) : M heap Series :=
  (* pl.UInt32 (polars) or pl.UInt64 (polars_u64_idx). *)
  let idx_type := get_idx_type in
  let unsupported := raise (NotImplementedError "Unsupported idxs datatype.") in
  match idxs with
  | PySeriesRef idxs =>
      d <- dtype idxs ;;
      if bool_decide (d = idx_type) then ret idxs
      else if dtype_in d [UInt8; UInt16;
                          (if bool_decide (idx_type = UInt32) then UInt64 else UInt32);
                          Int8; Int16; Int32; Int64] then
        (if bool_decide (idx_type = UInt32) then
           (if dtype_in d [Int64; UInt64] then
              m <- max idxs ;;
              too_big <- lift (py_ge m (2 ^ 32)) ;;
              raise_if too_big (ValueError "Index positions should be smaller than 2^32.")
            else ret tt) ;;;
           (if bool_decide (d = Int64) then
              m <- min idxs ;;
              too_small <- lift (py_lt m (- (2 ^ 32))) ;;
              raise_if too_small (ValueError "Index positions should be bigger than -2^32 + 1.")
            else ret tt)
         else ret tt) ;;;
        idxs <-
          (if dtype_in d [Int8; Int16; Int32; Int64] then
             m <- min idxs ;;
             negative <- lift (py_lt m 0) ;;
             if negative then
               idxs <-
                 (if bool_decide (idx_type = UInt32) then
                    if dtype_in d [Int8; Int16] then cast idxs Int32 true else ret idxs
                  else
                    if dtype_in d [Int8; Int16; Int32] then cast idxs Int64 true
                    else ret idxs) ;;
               n <- len self ;;
               ps <- deref (_s idxs) ;;
               wrap_result (select_when_negative n ps)
             else ret idxs
           else ret idxs) ;;
        cast idxs idx_type true
      else unsupported
  | PyNdarray idxs =>
      if _NUMPY_AVAILABLE then
        if negb (bool_decide (ndim idxs = 1%nat)) then
          raise (ValueError "Only 1D numpy array is supported as index.")
        else if bool_decide (kind (nd_dtype idxs) = kind_i)
                || bool_decide (kind (nd_dtype idxs) = kind_u) then
          (* Numpy array with signed or unsigned integers. *)
          (if bool_decide (idx_type = UInt32) then
             (if np_dtype_in_set (nd_dtype idxs) [np_int64; np_uint64] then
                m <- lift (np_max idxs) ;;
                raise_if (bool_decide (2 ^ 32 <= m))
                  (ValueError "Index positions should be smaller than 2^32.")
              else ret tt) ;;;
             (if bool_decide (nd_dtype idxs = np_int64) then
                m <- lift (np_min idxs) ;;
                raise_if (bool_decide (m < - (2 ^ 32)))
                  (ValueError "Index positions should be bigger than -2^32 + 1.")
              else ret tt)
           else ret tt) ;;;
          idxs <-
            (if bool_decide (kind (nd_dtype idxs) = kind_i) then
               m <- lift (np_min idxs) ;;
               if bool_decide (m < 0) then
                 let idxs :=
                   if bool_decide (idx_type = UInt32) then
                     if np_dtype_in_tuple (nd_dtype idxs) [np_int8; np_int16]
                     then astype idxs np_int32 else idxs
                   else
                     if np_dtype_in_tuple (nd_dtype idxs) [np_int8; np_int16; np_int32]
                     then astype idxs np_int64 else idxs in
                 (* Update negative indexes to absolute indexes. *)
                 n <- len self ;;
                 ret (np_where_negative n idxs)
               else ret idxs
             else ret idxs) ;;
          Series_init (PyStr "") (PyNdarray idxs) (Some idx_type) true false
        else unsupported
      else unsupported
  | _ => unsupported
  end.

(** [self[item]].  The integer, range and slice branches are native
    lookups; the gather and filter branches are the ones written out.
    [depth] is the remaining call depth, as in [__truediv__]. *)
Fixpoint __getitem__ (depth : nat) (self : Series) (item : pyobj) : M heap pyobj :=
  match depth with
  | O => raise (RecursionError "maximum recursion depth exceeded")
  | S depth =>
      let cannot :=
        raise (ValueError "Cannot __getitem__ on Series of dtype: '{self.dtype}' with argument: '{item}' of type: '{type(item)}'.") in
      let take (idxs : Series) : M heap pyobj :=
        me <- deref (_s self) ;; ix <- deref (inner idxs) ;;
        s <- wrap_result (PySeries_take_with_series me ix) ;; ret (PySeriesRef s) in
      let filter_by (mask : Series) : M heap pyobj :=
        me <- deref (_s self) ;; mk <- deref (inner mask) ;;
        s <- wrap_result (PySeries_filter me mk) ;; ret (PySeriesRef s) in
      let series_branch (item : pyobj) : M heap pyobj :=
        match item with
        | PySeriesRef it =>
            d <- dtype it ;;
            if bool_decide (d = Boolean) then filter_by it
            else if bool_decide (d = UInt32) then take it
            else if dtype_in d [UInt8; UInt16; UInt64; Int8; Int16; Int32; Int64] then
              ix <- _pos_idxs self item ;; take ix
            else cannot
        | PyRange a b c => __getitem__ depth self (range_to_slice a b c)
        | PySlice a b c =>
            me <- deref (_s self) ;;
            s <- wrap_result (PolarsSlice_apply me a b c) ;; ret (PySeriesRef s)
        | _ => cannot
        end in
      let rest (item : pyobj) : M heap pyobj :=
        if is_bool_sequence item || is_int_sequence item then
          s <- Series_init (PyStr "") item None true false ;;  (* fall through *)
          series_branch (PySeriesRef s)
        else series_branch item in
      match item with
      | PyInt z =>
          me <- deref (_s self) ;;
          lift (getitem_int me (if bool_decide (z < 0) then ps_len me + z else z))
      | PyBool b =>
          me <- deref (_s self) ;; lift (getitem_int me (if b then 1 else 0))
      | PyNdarray a =>
          if _NUMPY_AVAILABLE then
            if negb (bool_decide (ndim a = 1%nat)) then
              raise (ValueError "Only a 1D-Numpy array is supported as index.")
            else if bool_decide (kind (nd_dtype a) = kind_i)
                    || bool_decide (kind (nd_dtype a) = kind_u) then
              (* Numpy array with signed or unsigned integers. *)
              ix <- _pos_idxs self item ;; take ix
            else if bool_decide (nd_dtype a = np_bool) then
              mask <- Series_init (PyStr "") item None true false ;; filter_by mask
            else rest item
          else rest item
      | _ => rest item
      end
  end.

(** *** series.py: [append] *)

(** [self.append(other, append_chunks)].  The retry is a call of the
    method by itself; [depth] is the remaining call depth. *)
Fixpoint append (depth : nat) (self other : Series) (append_chunks : bool)
    : M heap unit :=
  match depth with
  | O => raise (RecursionError "maximum recursion depth exceeded")
  | S depth =>
      try_except
        (if append_chunks
         then PySeries_append (_s self) (_s other)
         else PySeries_extend (_s self) (_s other))
        isinstance_RuntimeError
        (fun e =>
           if bool_decide (str e = "Already mutably borrowed") then
             c <- clone other ;;
             append depth self c append_chunks
           else raise e)
  end.

(** *** series.py: [sample] *)

(** [self.sample(n, frac, with_replacement, shuffle, seed)] *)
Definition sample (self : Series) (n : option Z) (frac : option float)
    (with_replacement shuffle : bool) (seed : option Z) : M heap Series :=
  match n, frac with
  | Some _, Some _ => raise (ValueError "n and frac were both supplied")
  | None, Some frac =>
      ps <- deref (_s self) ;;
      wrap_result (PySeries_sample_frac ps frac with_replacement shuffle seed)
  | _, None =>
      let n := match n with None => 1 | Some n => n end in
      ps <- deref (_s self) ;;
      wrap_result (PySeries_sample_n ps n with_replacement shuffle seed)
  end.

End PythonLayer.

(** ** series.py: [__iter__] and [SeriesIter] *)


Section Iteration.
Context `{PyBackend}.




End Iteration.

(** ** Reference kernels

    A small executable implementation of the native side, used to run the
    Python layer on concrete columns.

    Modelled from the spec: the compiled [PySeries] kernels are missing
    from the sources; these follow the specification's data model and
    rules (a column is a name, a dtype and chunks; float absorbs int;
    a strict cast of a value out of range fails, a non-strict one gives
    null; [append] concatenates chunk lists, [extend] writes into the
    receiver's memory; a negative index is translated to length + value)
    on integer, float, boolean and string columns. *)
Module Ref.

Definition ffiname (d : DataType) : string :=
  match d with
  | Boolean => "bool"
  | Int8 => "i8" | Int16 => "i16" | Int32 => "i32" | Int64 => "i64"
  | UInt8 => "u8" | UInt16 => "u16" | UInt32 => "u32" | UInt64 => "u64"
  | Float32 => "f32" | Float64 => "f64"
  | Utf8 => "str"
  | Date => "date" | Datetime => "datetime" | Duration => "duration"
  | Time => "time"
  | List => "list"
  | Object => "object"
  end.

(** The values an integer dtype represents. *)
Definition int_range (d : DataType) : option (Z * Z) :=
  match d with
  | Int8 => Some (- (2 ^ 7), 2 ^ 7 - 1)
  | Int16 => Some (- (2 ^ 15), 2 ^ 15 - 1)
  | Int32 => Some (- (2 ^ 31), 2 ^ 31 - 1)
  | Int64 => Some (- (2 ^ 63), 2 ^ 63 - 1)
  | UInt8 => Some (0, 2 ^ 8 - 1)
  | UInt16 => Some (0, 2 ^ 16 - 1)
  | UInt32 => Some (0, 2 ^ 32 - 1)
  | UInt64 => Some (0, 2 ^ 64 - 1)
  | _ => None
  end.

Definition Z_of_bool (b : bool) : Z := if b then 1 else 0.

(** One value cast to [d]; [None] when [d] cannot represent it. *)
Definition cast_value (d : DataType) (v : scalar) : option scalar :=
  match int_range d with
  | Some (lo, hi) =>
      match v with
      | SInt z => if bool_decide (lo <= z <= hi) then Some (SInt z) else None
      | SBool b => Some (SInt (Z_of_bool b))
      | _ => None
      end
  | None =>
      if dtype_in d [Float32; Float64] then
        match v with
        | SInt z => Some (SFloat (float_of_int z))
        | SBool b => Some (SFloat (float_of_int (Z_of_bool b)))
        | SFloat f => Some (SFloat f)
        | SStr _ => None
        end
      else if bool_decide (d = Boolean) then
        match v with
        | SBool b => Some (SBool b)
        | SInt z => Some (SBool (negb (bool_decide (z = 0))))
        | _ => None
        end
      else if bool_decide (d = Utf8) then
        match v with SStr s => Some (SStr s) | _ => None end
      else None
  end.

Fixpoint cast_values (d : DataType) (strict : bool) (vs : list (option scalar))
    : result (list (option scalar)) :=
  match vs with
  | [] => Ok []
  | None :: vs => tl <~ cast_values d strict vs ;; Ok (None :: tl)
  | Some v :: vs =>
      match cast_value d v with
      | Some v' => tl <~ cast_values d strict vs ;; Ok (Some v' :: tl)
      | None =>
          if strict then Raise (PolarsError "strict conversion failed")
          else tl <~ cast_values d strict vs ;; Ok (None :: tl)
      end
  end.

Definition cast (ps : PySeries) (d : DataType) (strict : bool) : result PySeries :=
  vs <~ cast_values d strict (ps_values ps) ;;
  Ok {| ps_name := ps_name ps; ps_dtype := d; ps_chunks := [vs] |}.

(** A Python value as a column element. *)
Definition py_to_scalar (v : pyobj) : result (option scalar) :=
  match v with
  | PyNone => Ok None
  | PyBool b => Ok (Some (SBool b))
  | PyInt z => Ok (Some (SInt z))
  | PyFloat f => Ok (Some (SFloat f))
  | PyStr s => Ok (Some (SStr s))
  | _ => Raise (TypeError "not a value the reference kernels can hold")
  end.

Fixpoint py_to_scalars (vs : list pyobj) : result (list (option scalar)) :=
  match vs with
  | [] => Ok []
  | v :: vs => x <~ py_to_scalar v ;; tl <~ py_to_scalars vs ;; Ok (x :: tl)
  end.

(** The constructor of a dtype: a column of that dtype from Python values. *)
Definition construct (d : DataType) : constructor :=
  fun new_name values strict =>
    vs <~ py_to_scalars values ;;
    vs <~ cast_values d strict vs ;;
    Ok {| ps_name := new_name; ps_dtype := d; ps_chunks := [vs] |}.

Definition dtype_of_py_type (t : py_type) : result DataType :=
  match t with
  | ty_bool => Ok Boolean
  | ty_int => Ok Int64
  | ty_float => Ok Float64
  | ty_str => Ok Utf8
  | _ => Raise (ValueError "no polars dtype for this Python type")
  end.

Definition dtype_of_np (t : np_dtype) : result DataType :=
  match t with
  | np_int8 => Ok Int8 | np_int16 => Ok Int16
  | np_int32 => Ok Int32 | np_int64 => Ok Int64
  | np_uint8 => Ok UInt8 | np_uint16 => Ok UInt16
  | np_uint32 => Ok UInt32 | np_uint64 => Ok UInt64
  | np_float32 => Ok Float32 | np_float64 => Ok Float64
  | np_bool => Ok Boolean
  | np_object => Raise (ValueError "no constructor for object arrays")
  end.

Definition construct_numpy (t : np_dtype)
    : result (string -> ndarray -> bool -> result PySeries) :=
  d <~ dtype_of_np t ;;
  Ok (fun new_name a _ =>
        Ok {| ps_name := new_name; ps_dtype := d;
              ps_chunks := [Some <$> nd_data a] |}).

(** [hash(arr.dtype)] and [hash(np.int64)]: a dtype object hashes its
    fields, a scalar type hashes as the class object it is. *)
Definition np_code (t : np_dtype) : Z :=
  match t with
  | np_int8 => 1 | np_int16 => 2 | np_int32 => 3 | np_int64 => 4
  | np_uint8 => 5 | np_uint16 => 6 | np_uint32 => 7 | np_uint64 => 8
  | np_float32 => 9 | np_float64 => 10 | np_bool => 11 | np_object => 12
  end.

Definition dtype_hash (t : np_dtype) : Z := np_code t.
Definition scalar_type_hash (t : np_dtype) : Z := 1000 + np_code t.

(** *** Arithmetic *)

Definition is_int_dtype (d : DataType) : bool :=
  bool_decide (is_Some (int_range d)).

(** The dtype of the result of a binary operation: float absorbs int. *)
Definition supertype (a b : DataType) : result DataType :=
  if dtype_in a [Float32; Float64] && (dtype_in b [Float32; Float64] || is_int_dtype b)
  then Ok (if bool_decide (a = Float32) && bool_decide (b = Float32)
           then Float32 else Float64)
  else if is_int_dtype a && dtype_in b [Float32; Float64] then Ok Float64
  else if is_int_dtype a && is_int_dtype b
  then Ok (if bool_decide (a = b) then a else Int64)
  else Raise (PolarsError "no arithmetic between these dtypes").

Definition to_float (v : scalar) : option float :=
  match v with
  | SInt z => Some (float_of_int z)
  | SFloat f => Some f
  | SBool _ | SStr _ => None
  end.

Definition float_op (op : string) (x y : float) : option float :=
  if bool_decide (op = "add") then Some (x + y)%float
  else if bool_decide (op = "sub") then Some (x - y)%float
  else if bool_decide (op = "mul") then Some (x * y)%float
  else if bool_decide (op = "div") then Some (x / y)%float
  else None.

Definition int_op (op : string) (x y : Z) : option Z :=
  if bool_decide (op = "add") then Some (x + y)
  else if bool_decide (op = "sub") then Some (x - y)
  else if bool_decide (op = "mul") then Some (x * y)
  else if bool_decide (op = "div") then
    if bool_decide (y = 0) then None else Some (Z.quot x y)
  else if bool_decide (op = "rem") then
    if bool_decide (y = 0) then None else Some (Z.rem x y)
  else None.

(** One element of the result; a null operand gives null. *)
Definition elem_op (op : string) (as_float : bool) (x y : option scalar)
    : option scalar :=
  match x, y with
  | Some x, Some y =>
      if as_float then
        match to_float x, to_float y with
        | Some fx, Some fy => SFloat <$> float_op op fx fy
        | _, _ => None
        end
      else
        match x, y with
        | SInt zx, SInt zy => SInt <$> int_op op zx zy
        | _, _ => None
        end
  | _, _ => None
  end.

(** Operands of equal length, or one of length 1 that is broadcast. *)
Definition broadcast (xs ys : list (option scalar))
    : result (list (option scalar * option scalar)) :=
  if bool_decide (length xs = length ys) then Ok (zip xs ys)
  else match xs, ys with
       | [x], _ => Ok ((fun y => (x, y)) <$> ys)
       | _, [y] => Ok ((fun x => (x, y)) <$> xs)
       | _, _ => Raise (PolarsError "lengths don't match")
       end.

Definition arith (op : string) (l r : PySeries) : result PySeries :=
  d <~ supertype (ps_dtype l) (ps_dtype r) ;;
  pairs <~ broadcast (ps_values l) (ps_values r) ;;
  Ok {| ps_name := ps_name l; ps_dtype := d;
        ps_chunks := [(fun p => elem_op op (dtype_in d [Float32; Float64]) (fst p) (snd p))
                        <$> pairs] |}.

(** [getattr(obj, fname, None)] for the kernels [add_<>], ..., [rem_<>] and
    their [_rhs] variants of the column's own dtype. *)
Definition getattr (ps : PySeries) (fname : string) : option ffi_func :=
  let lit (v : pyobj) : result PySeries :=
    x <~ py_to_scalar v ;;
    Ok {| ps_name := ""; ps_dtype := ps_dtype ps; ps_chunks := [[x]] |} in
  let find (op : string) : option ffi_func :=
    if bool_decide (fname = op +:+ "_" +:+ ffiname (ps_dtype ps))
    then Some (fun v => o <~ lit v ;; arith op ps o)
    else if bool_decide (fname = op +:+ "_" +:+ ffiname (ps_dtype ps) +:+ "_rhs")
    then Some (fun v => o <~ lit v ;; arith op o ps)
    else None in
  if is_int_dtype (ps_dtype ps) || dtype_in (ps_dtype ps) [Float32; Float64] then
    head (omap find ["add"; "sub"; "mul"; "div"; "rem"])
  else None.

(** *** Reductions, gathers, sampling *)

Definition ints (ps : PySeries) : list Z :=
  omap (fun v => v ≫= scalar_int) (ps_values ps).

(** [max()], [min()] over the non-null values; [None] when there is none. *)
Definition max_value (ps : PySeries) : pyobj :=
  match ints ps with
  | [] => PyNone
  | z :: zs => PyInt (foldr Z.max z zs)
  end.

Definition min_value (ps : PySeries) : pyobj :=
  match ints ps with
  | [] => PyNone
  | z :: zs => PyInt (foldr Z.min z zs)
  end.

Definition get_idx (ps : PySeries) (i : Z) : result pyobj :=
  if bool_decide (0 <= i) then
    match ps_values ps !! Z.to_nat i with
    | Some v => Ok (scalar_to_py v)
    | None => Raise (PolarsError "index out of bounds")
    end
  else Raise (PolarsError "index out of bounds").

Fixpoint take_values (vs : list (option scalar)) (idxs : list (option scalar))
    : result (list (option scalar)) :=
  match idxs with
  | [] => Ok []
  | None :: idxs => tl <~ take_values vs idxs ;; Ok (None :: tl)
  | Some (SInt i) :: idxs =>
      if bool_decide (0 <= i) then
        match vs !! Z.to_nat i with
        | Some v => tl <~ take_values vs idxs ;; Ok (v :: tl)
        | None => Raise (PolarsError "index out of bounds")
        end
      else Raise (PolarsError "index out of bounds")
  | Some _ :: _ => Raise (PolarsError "indices must be integers")
  end.

Definition take_with_series (ps idxs : PySeries) : result PySeries :=
  vs <~ take_values (ps_values ps) (ps_values idxs) ;;
  Ok {| ps_name := ps_name ps; ps_dtype := ps_dtype ps; ps_chunks := [vs] |}.

Definition is_true_mask (v : option scalar) : bool :=
  match v with Some (SBool true) => true | _ => false end.

Definition filter_by (ps mask : PySeries) : result PySeries :=
  if bool_decide (length (ps_values ps) = length (ps_values mask)) then
    Ok {| ps_name := ps_name ps; ps_dtype := ps_dtype ps;
          ps_chunks :=
            [fst <$> filter (fun p => is_true_mask (snd p) = true)
                            (zip (ps_values ps) (ps_values mask))] |}
  else Raise (PolarsError "filter's length differs from that of the series").

(** The largest integer not above a finite float. *)
Definition floor_Z (f : float) : option Z :=
  match Prim2SF f with
  | S754_zero _ => Some 0
  | S754_finite s m e =>
      let v := if s then Z.neg m else Z.pos m in
      Some (if bool_decide (0 <= e) then v * 2 ^ e else v / 2 ^ (- e))
  | _ => None
  end.

Definition floor_column (ps : PySeries) : result PySeries :=
  Ok {| ps_name := ps_name ps; ps_dtype := ps_dtype ps;
        ps_chunks :=
          [(fun v => match v with
                     | Some (SFloat f) =>
                         Some (SFloat (from_option float_of_int f (floor_Z f)))
                     | _ => v
                     end) <$> ps_values ps] |}.

(** A sampler, standing for one run of the native one: the first [n]
    values, and no sample larger than the population without replacement. *)
Definition sample_n (ps : PySeries) (n : Z) (with_replacement shuffle : bool)
    (seed : option Z) : result PySeries :=
  if bool_decide (n < 0) then Raise (PolarsError "n must be non-negative")
  else if negb with_replacement && bool_decide (ps_len ps < n) then
    Raise (PolarsError "cannot take a larger sample than the total population when `with_replacement=false`")
  else if bool_decide (ps_len ps = 0) && bool_decide (0 < n) then
    Raise (PolarsError "cannot sample from an empty column")
  else
    Ok {| ps_name := ps_name ps; ps_dtype := ps_dtype ps;
          ps_chunks :=
            [take (Z.to_nat n)
               (mjoin (replicate (S (Z.to_nat n)) (ps_values ps)))] |}.

Definition sample_frac (ps : PySeries) (frac : float)
    (with_replacement shuffle : bool) (seed : option Z) : result PySeries :=
  match floor_Z (frac * float_of_int (ps_len ps))%float with
  | Some n => sample_n ps n with_replacement shuffle seed
  | None => Raise (PolarsError "frac must be finite")
  end.

(** [PolarsSlice(s).apply(slice(start, stop, step))] for a step of 1. *)
Definition slice_apply (ps : PySeries) (start stop step : option Z)
    : result PySeries :=
  let n := ps_len ps in
  let norm (i : Z) : Z := Z.max 0 (Z.min n (if bool_decide (i < 0) then n + i else i)) in
  if bool_decide (step = None) || bool_decide (step = Some 1) then
    let a := norm (default 0 start) in
    let b := norm (default n stop) in
    Ok {| ps_name := ps_name ps; ps_dtype := ps_dtype ps;
          ps_chunks := [take (Z.to_nat (b - a)) (drop (Z.to_nat a) (ps_values ps))] |}
  else Raise (PolarsError "only a step of 1 is provided by the reference kernels").

(** Every negative value [v] becomes [n + v]; nulls and the other values
    stay. *)
Definition translate_negative (n : Z) (v : option scalar) : option scalar :=
  match v with
  | Some (SInt z) => if bool_decide (z < 0) then Some (SInt (n + z)) else v
  | _ => v
  end.

Definition when_negative (n : Z) (ps : PySeries) : result PySeries :=
  Ok {| ps_name := ps_name ps; ps_dtype := ps_dtype ps;
        ps_chunks := [translate_negative n <$> ps_values ps] |}.

(** *** The kernels that write in place

    The receiver is borrowed mutably for the call and the argument is
    borrowed shared; when both are one object the second borrow fails. *)
Definition append_chunks_of (other : PySeries) (me : PySeries) : PySeries :=
  {| ps_name := ps_name me; ps_dtype := ps_dtype me;
     ps_chunks := ps_chunks me ++ ps_chunks other |}.

Definition extend_with (other : PySeries) (me : PySeries) : PySeries :=
  {| ps_name := ps_name me; ps_dtype := ps_dtype me;
     ps_chunks := [ps_values me ++ ps_values other] |}.

Definition in_place (f : PySeries -> PySeries -> PySeries) (self other : nat)
    : M heap unit :=
  fun h =>
    if bool_decide (self = other) then
      (h, Raise (RuntimeError "Already mutably borrowed"))
    else
      match h !! self, h !! other with
      | Some me, Some o =>
          if bool_decide (ps_dtype me = ps_dtype o)
          then (<[self := f o me]> h, Ok tt)
          else (h, Raise (PolarsError "cannot append series of another dtype"))
      | _, _ => (h, Raise (RuntimeError "no PySeries at this address"))
      end.

(** [maybe_cast]: an element that has the Python type of the dtype is
    returned as it is, an [int] or a [bool] for a float column is made a
    float; the conversions this reference does not follow are refused, as
    are those Python refuses ([date(1)]). *)
Definition convert_to_dtype (el : pyobj) (ps : PySeries) : result pyobj :=
  let d := ps_dtype ps in
  let refused : result pyobj :=
    Raise (ValueError "Cannot convert Python type {type(el)} to {dtype}") in
  match el with
  | PyDatetime _ => Ok el
  | PyInt z =>
      if is_int_dtype d then Ok el
      else if dtype_in d [Float32; Float64] then Ok (PyFloat (float_of_int z))
      else refused
  | PyBool b =>
      if is_int_dtype d || bool_decide (d = Boolean) then Ok el
      else if dtype_in d [Float32; Float64]
      then Ok (PyFloat (float_of_int (if b then 1 else 0)))
      else refused
  | PyFloat _ => if dtype_in d [Float32; Float64] then Ok el else refused
  | PyStr _ => if bool_decide (d = Utf8) then Ok el else refused
  | PyDate _ => if bool_decide (d = Date) then Ok el else refused
  | _ => refused
  end.

(** [isinstance(v, Sequence)] with every item an instance of [t]; a
    [bool] is an [int]. *)
Definition all_of_type (t : py_type) (v : pyobj) : bool :=
  match sequence_items v with
  | Some l =>
      forallb (fun x => bool_decide (type_of x = t)
                        || bool_decide (t = ty_int) && bool_decide (type_of x = ty_bool)) l
  | None => false
  end.

#[global] Instance backend : PyBackend := {|
  _PYARROW_AVAILABLE := false;
  _NUMPY_AVAILABLE := true;
  _PANDAS_AVAILABLE := false;
  get_idx_type := UInt32;
  dtype_to_ffiname := ffiname;
  maybe_cast := convert_to_dtype;
  py_type_to_dtype := dtype_of_py_type;
  py_type_to_arrow_type := fun _ => Raise (ValueError "pyarrow is not available");
  polars_type_to_constructor := fun d => Ok (construct d);
  py_type_to_constructor := fun t => d <~ dtype_of_py_type t ;; Ok (construct d);
  numpy_type_to_constructor := construct_numpy;
  is_bool_sequence := all_of_type ty_bool;
  is_int_sequence := fun v => all_of_type ty_int v;
  range_to_slice := fun a b c => PySlice (Some a) (Some b) (Some c);
  pa_array := fun _ _ => Raise (ImportError "pyarrow is not available");
  pa_large_list := fun t => t;
  coerce_arrow := fun a => Ok a;
  _pandas_series_to_arrow := fun _ _ => Raise (ImportError "pandas is not available");
  pandas_name := fun _ => None;
  hash_of_dtype := dtype_hash;
  hash_of_scalar_type := scalar_type_hash;
  PySeries_from_arrow := fun _ _ => Raise (ImportError "pyarrow is not available");
  PySeries_new_object := fun _ _ _ => Raise (PolarsError "object columns are not provided by the reference kernels");
  PySeries_new_list := fun _ _ _ => Raise (PolarsError "list columns are not provided by the reference kernels");
  PySeries_cast := cast;
  PySeries_arith := arith;
  PySeries_getattr := getattr;
  PySeries_max := max_value;
  PySeries_min := min_value;
  getitem_int := get_idx;
  PySeries_filter := filter_by;
  PySeries_take_with_series := take_with_series;
  PySeries_floor := floor_column;
  PySeries_sample_n := sample_n;
  PySeries_sample_frac := sample_frac;
  PolarsSlice_apply := slice_apply;
  select_when_negative := when_negative;
  PySeries_append := in_place append_chunks_of;
  PySeries_extend := in_place extend_with
|}.

End Ref.

(** ** What the properties ask of the kernels *)

Section Contracts.
Context `{PyBackend}.

(** A cast that succeeds returns a column of the dtype asked for. *)
Definition cast_gives_dtype : Prop :=
  forall (ps out : PySeries) (d : DataType) (strict : bool),
    PySeries_cast ps d strict = Ok out -> ps_dtype out = d.


(** The constructor registered for Float32 builds Float32 columns. *)
Definition Float32_constructor_gives_Float32 : Prop :=
  forall (c : constructor) (nm : string) (vs : list pyobj)
         (strict : bool) (out : PySeries),
    polars_type_to_constructor Float32 = Ok c -> c nm vs strict = Ok out ->
    ps_dtype out = Float32.

(** A sample by count has the count asked for. *)
Definition sample_n_gives_n : Prop :=
  forall (ps out : PySeries) (n : Z) (with_replacement shuffle : bool) (seed : option Z),
    PySeries_sample_n ps n with_replacement shuffle seed = Ok out -> ps_len out = n.

(** numpy's hashing: a dtype object never hashes like a scalar type. *)
Definition dtype_hash_differs : Prop :=
  forall (d t : np_dtype), hash_of_dtype d <> hash_of_scalar_type t.

End Contracts.

(** ** What the further properties ask of the kernels *)

(** The failure [append] retries on. *)
Definition borrow_conflict (e : exn) : bool :=
  isinstance_RuntimeError e && bool_decide (str e = "Already mutably borrowed").

Section WriteContracts.
Context `{PyBackend}.

(** The in-place kernel [append] calls. *)
Definition write_kernel (append_chunks : bool) (l r : nat) : M heap unit :=
  if append_chunks then PySeries_append l r else PySeries_extend l r.

(** Two borrows conflict only on one object: between two different
    objects a write fails for other reasons, if it fails. *)
Definition conflict_needs_one_object : Prop :=
  forall (append_chunks : bool) (l r : nat) (h h' : heap) (e : exn),
    l <> r -> write_kernel append_chunks l r h = (h', Raise e) ->
    borrow_conflict e = false.

(** A write refused for its borrows has written nothing. *)
Definition conflict_writes_nothing : Prop :=
  forall (append_chunks : bool) (l r : nat) (h h' : heap) (e : exn),
    write_kernel append_chunks l r h = (h', Raise e) ->
    borrow_conflict e = true -> h' = h.

End WriteContracts.

(** A computation that only allocates: the store it leaves is the store
    it started from, followed by the objects it made.  No object that
    existed is changed, moved or dropped. *)
Definition only_allocates {A} (m : M heap A) : Prop :=
  forall (h h' : heap) (r : result A), m h = (h', r) ->
    exists fresh : heap, h' = h ++ fresh.

(** ** Example stores *)

(** A store with one Date column, [datetime.date(1970, 1, 2)] and a null. *)
Definition one_date_column : heap :=
  [ {| ps_name := "d"; ps_dtype := Date; ps_chunks := [[Some (SInt 1); None]] |} ].

(** [Series("a", [1, 2, 3])] and [Series("b", [2, 2, 2])] *)
Definition two_int_columns : heap :=
  [ {| ps_name := "a"; ps_dtype := Int64;
       ps_chunks := [[Some (SInt 1); Some (SInt 2); Some (SInt 3)]] |};
    {| ps_name := "b"; ps_dtype := Int64;
       ps_chunks := [[Some (SInt 2); Some (SInt 2); Some (SInt 2)]] |} ].

(** [Series("a", [1, 2])], alone in the store. *)
Definition one_int_column : heap :=
  [ {| ps_name := "a"; ps_dtype := Int64; ps_chunks := [[Some (SInt 1); Some (SInt 2)]] |} ].

(** [Series("f", [1.5, 2.5])] (Float64) and [Series("g", [0.5, 0.5])] *)
Definition two_float_columns : heap :=
  [ {| ps_name := "f"; ps_dtype := Float64;
       ps_chunks := [[Some (SFloat 1.5%float); Some (SFloat 2.5%float)]] |};
    {| ps_name := "g"; ps_dtype := Float64;
       ps_chunks := [[Some (SFloat 0.5%float); Some (SFloat 0.5%float)]] |} ].

(** [Series("s", ["x", "y"])] (Utf8), alone in the store. *)
Definition one_str_column : heap :=
  [ {| ps_name := "s"; ps_dtype := Utf8;
       ps_chunks := [[Some (SStr "x"); Some (SStr "y")]] |} ].

(** An empty Int64 column, alone in the store. *)
Definition one_empty_column : heap :=
  [ {| ps_name := "e"; ps_dtype := Int64; ps_chunks := [[]] |} ].

(** [np.array([2**32], dtype=np.uint64)] and [np.array([2**32], dtype=np.int64)] *)
Definition big_uint64_array : ndarray :=
  {| ndim := 1; nd_dtype := np_uint64; nd_data := [SInt (2 ^ 32)]; C_CONTIGUOUS := true |}.

Definition big_int64_array : ndarray :=
  {| ndim := 1; nd_dtype := np_int64; nd_data := [SInt (2 ^ 32)]; C_CONTIGUOUS := true |}.

(** [Series("a", [10, 20, 30])], with index columns [Series("i", [2**32])],
    [Series("j", [-1, 0])] (both Int64) and an empty Int64 column. *)
Definition indexed_columns : heap :=
  [ {| ps_name := "a"; ps_dtype := Int64;
       ps_chunks := [[Some (SInt 10); Some (SInt 20); Some (SInt 30)]] |};
    {| ps_name := "i"; ps_dtype := Int64; ps_chunks := [[Some (SInt (2 ^ 32))]] |};
    {| ps_name := "j"; ps_dtype := Int64; ps_chunks := [[Some (SInt (-1)); Some (SInt 0)]] |};
    {| ps_name := "k"; ps_dtype := Int64; ps_chunks := [[]] |} ].

(** [Series("a", [10, 20, 30])] with index columns: a UInt32 one, a
    Float64 one, a non-negative Int16 one and an Int64 one below the
    range. *)
Definition more_index_columns : heap :=
  [ {| ps_name := "a"; ps_dtype := Int64;
       ps_chunks := [[Some (SInt 10); Some (SInt 20); Some (SInt 30)]] |};
    {| ps_name := "u"; ps_dtype := UInt32; ps_chunks := [[Some (SInt 0); Some (SInt 2)]] |};
    {| ps_name := "f"; ps_dtype := Float64; ps_chunks := [[Some (SFloat 1.5)]] |};
    {| ps_name := "n"; ps_dtype := Int16; ps_chunks := [[Some (SInt 1); Some (SInt 2)]] |};
    {| ps_name := "t"; ps_dtype := Int64; ps_chunks := [[Some (SInt (- (2 ^ 33)))]] |} ].

(** [np.zeros((2, 2), dtype=np.int64)], [np.array([-2**33])] and
    [np.array([-1, 0])] *)
Definition square_array : ndarray :=
  {| ndim := 2; nd_dtype := np_int64; nd_data := [SInt 0; SInt 0; SInt 0; SInt 0];
     C_CONTIGUOUS := true |}.

Definition small_int64_array : ndarray :=
  {| ndim := 1; nd_dtype := np_int64; nd_data := [SInt (- (2 ^ 33))]; C_CONTIGUOUS := true |}.

Definition negative_int64_array : ndarray :=
  {| ndim := 1; nd_dtype := np_int64; nd_data := [SInt (-1); SInt 0]; C_CONTIGUOUS := true |}.

(** ** selectors.py: the selector proxy *)

Module Selectors.

(** The values selectors are built from: a name or pattern, a dtype, or a
    collection of them. *)
Inductive pyvalue : Type :=
| VStr (s : string)
| VDtype (dtype_name : string)
| VList (l : list pyvalue).

(** The expressions the module builds, kept as the calls that build them:
    [F.all()], [F.col] of its arguments, [F.first()], [F.last()] and
    [expr.exclude] of its arguments.  Which columns an expression selects is decided
    when it is evaluated against a frame, not here.  [F_col] and [exclude]
    stand for calls that were accepted: see [call_col] and [call_exclude]
    for a call that spreads a list. *)
Inductive Expr : Type :=
| F_all
| F_col (args : list pyvalue)
| F_first
| F_last
| exclude (e : Expr) (args : list pyvalue).

(** [F.col( *args )] and [expr.exclude( *args )], for a list that is
    spread into the call.  Both functions have one required parameter
    ([col(name, *more_names)] in [polars.functions],
    [exclude(columns, *more_columns)] in [polars.expr]), so spreading an
    empty list is a call with an argument missing: TypeError. *)
Definition call_col (args : list pyvalue) : result Expr :=
  match args with
  | [] => Raise (TypeError "col() missing 1 required positional argument: 'name'")
  | _ => Ok (F_col args)
  end.

Definition call_exclude (e : Expr) (args : list pyvalue) : result Expr :=
  match args with
  | [] => Raise (TypeError "exclude() missing 1 required positional argument: 'columns'")
  | _ => Ok (exclude e args)
  end.

(** An instance of [_selector_proxy_]: [_pyexpr], [_inverted] and the
    three entries of [_attrs]. *)
Record _selector_proxy_ : Type := mk_selector {
  _pyexpr : Expr;
  _inverted : bool;
  raw_params : option (list pyvalue);          (* _attrs["raw_params"] *)
  params : option (list (string * pyvalue));   (* _attrs["params"], in insertion order *)
  type_ : string                               (* _attrs["type"] *)
}.

(** [_selector_proxy_(expr, type_, parameters=None, raw_parameters=None,
    invert=False)] *)
Definition __init__ (expr : Expr) (ty : string)
    (parameters : option (list (string * pyvalue)))
    (raw_parameters : option (list pyvalue)) (invert : bool) : _selector_proxy_ :=
  {| _pyexpr := expr; _inverted := invert;
     raw_params := raw_parameters; params := parameters; type_ := ty |}.

(** [x or {}] and [x or []]: [None] and the empty container are falsy. *)
Definition or_empty {A} (x : option (list A)) : list A := default [] x.

(** [not l] for a list or a dict *)
Definition is_empty {A} (l : list A) : bool :=
  match l with [] => true | _ => false end.

(** [~self] *)
Definition __invert__ (self : _selector_proxy_) : result _selector_proxy_ :=
  let selector_type := type_ self in
  if bool_decide (selector_type ∈ ["first"; "last"]) then
    Raise (ValueError "Cannot currently invert {selector_type!r} selector")
  else
    let params := or_empty (params self) in
    let raw_params := or_empty (raw_params self) in
    let raw_params :=
      if is_empty raw_params && negb (is_empty params)
      then snd <$> params                      (* list(params.values()) *)
      else raw_params in
    inverted_expr <~
      (if bool_decide (selector_type = "all") then
         Ok (if _inverted self then F_all else F_col [VList []])
       else if _inverted self then call_col raw_params
       else call_exclude F_all raw_params) ;;
    Ok (__init__ inverted_expr selector_type (Some params) (Some raw_params)
          (negb (_inverted self))).

(** Some of the selectors of the module. *)
Definition all : _selector_proxy_ := __init__ F_all "all" None None false.

Definition first : _selector_proxy_ := __init__ F_first "first" None None false.

Definition last : _selector_proxy_ := __init__ F_last "first" None None false.

Definition string (include_categorical : bool) : _selector_proxy_ :=
  let string_dtypes :=
    [VDtype "Utf8"] ++ (if include_categorical then [VDtype "Categorical"] else []) in
  __init__ (F_col [VList string_dtypes]) "string" None (Some [VList string_dtypes]) false.

(** [by_name] of its names *)
Fixpoint all_names_of (names : list pyvalue) : result (list pyvalue) :=
  match names with
  | [] => Ok []
  | VStr nm :: names => tl <~ all_names_of names ;; Ok (VStr nm :: tl)
  | VList l :: names =>
      if forallb (fun n => match n with VStr _ => true | _ => false end) l
      then tl <~ all_names_of names ;; Ok (l ++ tl)
      else Raise (TypeError "Invalid name: {n!r}")
  | VDtype _ :: names => all_names_of names   (* the TypeError is built, not raised *)
  end.

Definition by_name (names : list pyvalue) : result _selector_proxy_ :=
  all_names <~ all_names_of names ;;
  expr <~ call_col all_names ;;
  Ok (__init__ expr "by_dtype" (Some [("names", VList all_names)]) None false).

(** The list a selector inverts against: the raw list it was built with,
    or, when it has none (or an empty one), the values of its params. *)
Definition captured (s : _selector_proxy_) : list pyvalue :=
  match raw_params s with
  | Some (v :: l) => v :: l
  | _ => snd <$> default [] (params s)
  end.

(** *** Selectors by pattern *)

(** What iterating a [str] yields: its characters, each one a string of
    length one (strings are taken to hold one-byte characters). *)
Definition characters (s : String.string) : list String.string :=
  (fun c => String c EmptyString) <$> String.list_ascii_of_string s.

(** [s.startswith(p)] *)
Definition startswith (s p : String.string) : bool := String.prefix p s.

(** [s.endswith(p)]: [s] is [p], or what follows its first character
    ends with [p]. *)
Fixpoint endswith (s p : String.string) : bool :=
  bool_decide (s = p)
  || match s with
     | EmptyString => false
     | String _ s' => endswith s' p
     end.

(** [s[n:]] and [s[:-n]], for [n] positive *)
Definition slice_from (n : nat) (s : String.string) : String.string :=
  String.substring n (String.length s - n)%nat s.

Definition slice_until_last (n : nat) (s : String.string) : String.string :=
  String.substring 0 (String.length s - n)%nat s.

(** [matches(pattern)] *)
Definition matches (pattern : String.string) : _selector_proxy_ :=
  if bool_decide (pattern = ".*") then all
  else
    let pattern :=
      if startswith pattern ".*" then slice_from 2 pattern
      else if endswith pattern ".*" then slice_until_last 2 pattern
      else pattern in
    let pfx := if negb (startswith pattern "^") then "^.*" else EmptyString in
    let sfx := if negb (endswith pattern "$") then ".*$" else EmptyString in
    let raw_params := pfx +:+ pattern +:+ sfx in
    __init__ (F_col [VStr raw_params]) "matches"
      (Some [("pattern", VStr pattern)]) (Some [VStr raw_params]) false.

(** [isinstance(st, Collection)], with the elements an iteration over
    [st] gives: a [str] is a Collection, of its characters. *)
Definition collection_items (st : pyvalue) : option (list pyvalue) :=
  match st with
  | VStr s => Some (VStr <$> characters s)
  | VList l => Some l
  | VDtype _ => None
  end.

Section Patterns.

(** [re.escape] on a [str], of the standard library. *)
Variable re_escape : String.string -> String.string.

(** [re.escape(x)]: what is neither [str] nor bytes is refused. *)
Definition escape (x : pyvalue) : result String.string :=
  match x with
  | VStr s => Ok (re_escape s)
  | _ => Raise (TypeError "decoding to str: need a bytes-like object")
  end.

(** [re.escape(x) for x in strings] *)
Fixpoint escape_all (strings : list pyvalue) : result (list String.string) :=
  match strings with
  | [] => Ok []
  | x :: strings =>
      e <~ escape x ;; tl <~ escape_all strings ;; Ok (e :: tl)
  end.

(** The loop of [_re_string]: [strings] after the elements [l]. *)
Definition collect_strings (strings l : list pyvalue) : list pyvalue :=
  foldl (fun strings st =>
           match collection_items st with
           | Some items => strings ++ items    (* strings.extend(st) *)
           | None => strings ++ [st]           (* strings.append(st) *)
           end) strings l.

(** [_re_string(String.string)] *)
Definition _re_string (string_ : pyvalue) : result String.string :=
  match string_ with
  | VStr s => Ok (re_escape s)
  | VList l =>
      escaped <~ escape_all (collect_strings [] l) ;;
      Ok (String.concat "|" escaped)
  | VDtype _ => Raise (TypeError "object is not iterable")
  end.

(** [contains(substring)] *)
Definition contains (substring : pyvalue) : result _selector_proxy_ :=
  escaped_substring <~ _re_string substring ;;
  let raw_params := "^.*" +:+ escaped_substring +:+ ".*$" in
  Ok (__init__ (F_col [VStr raw_params]) "contains"
        (Some [("substring", VStr escaped_substring)]) (Some [VStr raw_params]) false).

(** [ends_with( *suffix )]: [suffix] is the tuple of the arguments. *)
Definition ends_with (suffix : list pyvalue) : result _selector_proxy_ :=
  escaped_suffix <~ _re_string (VList suffix) ;;
  let raw_params := "^.*(" +:+ escaped_suffix +:+ ")$" in
  Ok (__init__ (F_col [VStr raw_params]) "ends_with"
        (Some [("suffix", VStr escaped_suffix)]) (Some [VStr raw_params]) false).

(** [starts_with( *prefix )]: [prefix] is the tuple of the arguments. *)
Definition starts_with (prefix : list pyvalue) : result _selector_proxy_ :=
  escaped_prefix <~ _re_string (VList prefix) ;;
  let raw_params := "^(" +:+ escaped_prefix +:+ ").*$" in
  Ok (__init__ (F_col [VStr raw_params]) "starts_with"
        (Some [("prefix", VList prefix)]) (Some [VStr raw_params]) false).

End Patterns.

Section ByDtype.

(** [is_polars_dtype], of [polars.datatypes]. *)
Variable is_polars_dtype : pyvalue -> bool.

(** [by_dtype] of its dtypes: the loop that fills [all_dtypes]. *)
Fixpoint all_dtypes_of (dtypes : list pyvalue) : result (list pyvalue) :=
  match dtypes with
  | [] => Ok []
  | tp :: dtypes =>
      if is_polars_dtype tp then
        tl <~ all_dtypes_of dtypes ;; Ok (tp :: tl)
      else
        match collection_items tp with
        | Some items =>
            if forallb is_polars_dtype items
            then tl <~ all_dtypes_of dtypes ;; Ok (items ++ tl)
            else Raise (TypeError "Invalid dtype: {t!r}")
        | None => Raise (TypeError "Invalid dtype: {tp!r}")
        end
  end.

Definition by_dtype (dtypes : list pyvalue) : result _selector_proxy_ :=
  all_dtypes <~ all_dtypes_of dtypes ;;
  expr <~ call_col all_dtypes ;;
  Ok (__init__ expr "by_dtype" (Some [("dtypes", VList all_dtypes)]) None false).

End ByDtype.

(** An escape that is enough for names with no special character but
    the dot, and the dtype test on the values of this module. *)
Definition escape_dots (s : String.string) : String.string :=
  String.concat EmptyString
    ((fun c => if bool_decide (c = ".") then "\." else c) <$> characters s).

Definition is_dtype (v : pyvalue) : bool :=
  match v with VDtype _ => true | _ => false end.

End Selectors.

(** ** pypolars/frame.py: [DataFrame.__getitem__] *)

Module Frame.

(** A [slice] object: its three attributes. *)
Record pyslice : Type := mk_slice {
  start : option Z;
  stop : option Z;
  step : option Z
}.

(** The values an attribute lookup on a slice can give. *)
Inductive attr_value : Type :=
| ANone
| ABool (b : bool)
| AInt (z : Z).

Definition attr_of (v : option Z) : attr_value :=
  match v with None => ANone | Some z => AInt z end.

(** [getattr(item, name, default)] for a slice [item]: the data
    attributes of a slice are [start], [stop] and [step]. *)
Definition getattr (item : pyslice) (attr : string) (default : attr_value)
    : attr_value :=
  if bool_decide (attr = "start") then attr_of (start item)
  else if bool_decide (attr = "stop") then attr_of (stop item)
  else if bool_decide (attr = "step") then attr_of (step item)
  else default.

(** The truth value of an object, as [if] tests it. *)
Definition truthy (v : attr_value) : bool :=
  match v with
  | ANone => false
  | ABool b => b
  | AInt z => negb (bool_decide (z = 0))
  end.

(** What is passed between the brackets. *)
Inductive item : Type :=
| ITuple (l : list item)
| IStr (s : string)
| IInt (z : Z)
| IBool (b : bool)
| ISlice (s : pyslice)
| IList (l : list item)
| ISeries (s : nat)        (* a Series, by the handle of its native column *)
| IOther.

(** The native frames and columns, by handle, and what the method calls
    on them; none of it is defined in the Python sources. *)
Class FrameBackend : Type := {
  PyDataFrame : Type;
  df_column : PyDataFrame -> string -> result nat;
  df_select_at_idx : PyDataFrame -> Z -> result nat;
  df_slice : PyDataFrame -> Z -> Z -> result PyDataFrame;
  df_height : PyDataFrame -> Z;
  df_columns : PyDataFrame -> list string;
  df_select : PyDataFrame -> list item -> result PyDataFrame;
  df_take : PyDataFrame -> list item -> result PyDataFrame;
  df_filter : PyDataFrame -> nat -> result PyDataFrame;
  df_take_with_series : PyDataFrame -> nat -> result PyDataFrame;
  list_getitem : list string -> pyslice -> list string;   (* columns[slice] *)
  Series_of : list item -> result nat;                   (* Series("", item) *)
  Series_dtype : nat -> string;
  Series_getitem : nat -> item -> result nat             (* series[row_selection] *)
}.

(** What the method returns. *)
Inductive value `{FrameBackend} : Type :=
| VSeries (s : nat)
| VFrame (df : PyDataFrame)
| NotImplemented.

Section DataFrame.
Context `{FrameBackend}.

(** [self.slice(offset, length)] *)
Definition slice (df : PyDataFrame) (offset length : Z) : result PyDataFrame :=
  df_slice df offset length.

(** [self.height] *)
Definition height (df : PyDataFrame) : Z := df_height df.

(** [self[item]]; [depth] is the remaining call depth. *)
Fixpoint __getitem__ (depth : nat) (self : PyDataFrame) (it : item) : result value :=
  match depth with
  | O => Raise (RecursionError "maximum recursion depth exceeded")
  | S depth =>
      (* [v[it]] and [v.__getitem__(it)] for the value of an inner call *)
      let subscript (v : value) (it : item) (missing : exn) : result value :=
        match v with
        | VFrame df => __getitem__ depth df it
        | VSeries s => rmap VSeries (Series_getitem s it)
        | NotImplemented => Raise missing
        end in
      match it with
      (* select rows and columns at once *)
      | ITuple [row_selection; col_selection] =>
          let rest :=
            (* column selection can be "a" and ["a", "b"] *)
            let col_selection :=
              match col_selection with IStr c => IList [IStr c] | _ => col_selection end in
            df <~ __getitem__ depth self col_selection ;;
            subscript df row_selection
              (AttributeError "'NotImplementedType' object has no attribute '__getitem__'") in
          match row_selection with
          | ISlice _ =>
              match col_selection with
              | ISlice cs =>
                  (* df[:, :] *)
                  df <~ __getitem__ depth self
                          (IList (IStr <$> list_getitem (df_columns self) cs)) ;;
                  subscript df row_selection
                    (TypeError "'NotImplementedType' object is not subscriptable")
              | _ =>
                  (* df[:, unknown]: the value is computed and dropped *)
                  series <~ __getitem__ depth self col_selection ;;
                  _ <~ subscript series row_selection
                         (TypeError "'NotImplementedType' object is not subscriptable") ;;
                  rest
              end
          | _ => rest
          end
      | ITuple _ => Raise (ValueError "not the two values to unpack")
      (* select single column: df["foo"] *)
      | IStr s => rmap VSeries (df_column self s)
      (* df[idx] *)
      | IInt z => rmap VSeries (df_select_at_idx self z)
      | IBool b => rmap VSeries (df_select_at_idx self (if b then 1 else 0))
      (* df[:] *)
      | ISlice s =>
          if truthy (getattr s "end" (ABool false)) then
            Raise (ValueError "a slice with steps larger than 1 is not supported")
          else
            let start := match start s with None => 0 | Some a => a end in
            let stop := match stop s with None => height self | Some b => b end in
            let length := stop - start in
            rmap VFrame (slice self start length)
      | IList l =>
          match l with
          | [] => Raise (IndexError "list index out of range")
          (* select multiple columns: df["foo", "bar"] *)
          | IStr _ :: _ => rmap VFrame (df_select self l)
          (* select rows by mask or index *)
          | IBool _ :: _ =>
              s <~ Series_of l ;;
              if bool_decide (Series_dtype s = "bool") then rmap VFrame (df_filter self s)
              else if bool_decide (Series_dtype s = "u32")
              then rmap VFrame (df_take_with_series self s)
              else Ok NotImplemented
          | _ => rmap VFrame (df_take self l)
          end
      | ISeries s =>
          if bool_decide (Series_dtype s = "bool") then rmap VFrame (df_filter self s)
          else if bool_decide (Series_dtype s = "u32")
          then rmap VFrame (df_take_with_series self s)
          else Ok NotImplemented
      | IOther => Ok NotImplemented
      end
  end.

End DataFrame.

(** A frame small enough to run: named columns of integers. *)
Definition table : Type := list (string * list Z).

Definition table_height (t : table) : Z :=
  match t with [] => 0 | (_, c) :: _ => Z.of_nat (length c) end.

Definition table_slice (t : table) (offset length : Z) : result table :=
  if bool_decide (offset < 0) || bool_decide (length < 0) then
    Raise (TypeError "can't convert negative int to unsigned")
  else
    Ok ((fun c => (fst c, take (Z.to_nat length) (drop (Z.to_nat offset) (snd c)))) <$> t).

#[global] Instance tables : FrameBackend := {|
  PyDataFrame := table;
  df_column := fun _ _ => Raise (RuntimeError "not provided");
  df_select_at_idx := fun _ _ => Raise (RuntimeError "not provided");
  df_slice := table_slice;
  df_height := table_height;
  df_columns := fun t => fst <$> t;
  df_select := fun _ _ => Raise (RuntimeError "not provided");
  df_take := fun _ _ => Raise (RuntimeError "not provided");
  df_filter := fun _ _ => Raise (RuntimeError "not provided");
  df_take_with_series := fun _ _ => Raise (RuntimeError "not provided");
  list_getitem := fun l _ => l;
  Series_of := fun _ => Raise (RuntimeError "not provided");
  Series_dtype := fun _ => "i64";
  Series_getitem := fun _ _ => Raise (RuntimeError "not provided")
|}.

(** The same tables with columns looked up by name and selected by a list
    of names.  A column is handled by its position; slicing one is not
    followed. *)
Definition table_column (t : table) (c : string) : result nat :=
  match list_find (fun col => fst col = c) t with
  | Some (i, _) => Ok i
  | None => Raise (RuntimeError "not found")
  end.

Definition table_select (t : table) (l : list item) : result table :=
  Ok (omap (fun it => match it with
                      | IStr c => snd <$> list_find (fun col => fst col = c) t
                      | _ => None
                      end) l).

Definition named_tables : FrameBackend := {|
  PyDataFrame := table;
  df_column := table_column;
  df_select_at_idx := fun _ _ => Raise (RuntimeError "not provided");
  df_slice := table_slice;
  df_height := table_height;
  df_columns := fun t => fst <$> t;
  df_select := table_select;
  df_take := fun _ _ => Raise (RuntimeError "not provided");
  df_filter := fun _ _ => Raise (RuntimeError "not provided");
  df_take_with_series := fun _ _ => Raise (RuntimeError "not provided");
  list_getitem := fun l _ => l;
  Series_of := fun _ => Raise (RuntimeError "not provided");
  Series_dtype := fun _ => "i64";
  Series_getitem := fun s _ => Ok s
|}.

(** A frame of two columns and three rows. *)
Definition two_columns : table := [("a", [1; 2; 3]); ("b", [4; 5; 6])].

End Frame.

(** * Part II: properties *)

(** ** The store-and-exception monad *)

Lemma bind_ret_l {St A B} (a : A) (k : A -> M St B) (h : St) :
  Py.bind (ret a) k h = k a h.
Proof. reflexivity. Qed.

Lemma bind_raise {St A B} (e : exn) (k : A -> M St B) (h : St) :
  Py.bind (raise e) k h = (h, Raise e).
Proof. reflexivity. Qed.

Lemma bind_ok {St A B} (m : M St A) (k : A -> M St B) (h h' : St) (a : A) :
  m h = (h', Ok a) -> Py.bind m k h = k a h'.
Proof. intros E. unfold Py.bind. rewrite E. reflexivity. Qed.

Lemma bind_fail {St A B} (m : M St A) (k : A -> M St B) (h h' : St) (e : exn) :
  m h = (h', Raise e) -> Py.bind m k h = (h', Raise e).
Proof. intros E. unfold Py.bind. rewrite E. reflexivity. Qed.

Lemma bind_assoc {St A B C} (m : M St A) (k : A -> M St B) (k' : B -> M St C) (h : St) :
  Py.bind (Py.bind m k) k' h = Py.bind m (fun a => Py.bind (k a) k') h.
Proof. unfold Py.bind. destruct (m h) as [h' [a|e]]; reflexivity. Qed.

Lemma bind_lift_ok {St A B} (a : A) (k : A -> M St B) (h : St) :
  Py.bind (lift (Ok a)) k h = k a h.
Proof. reflexivity. Qed.

Lemma bind_lift_raise {St A B} (e : exn) (k : A -> M St B) (h : St) :
  Py.bind (lift (Raise e)) k h = (h, Raise e).
Proof. reflexivity. Qed.

Lemma raise_if_true {St} (e : exn) : @raise_if St true e = raise e.
Proof. reflexivity. Qed.

Lemma raise_if_false {St} (e : exn) : @raise_if St false e = ret tt.
Proof. reflexivity. Qed.

(** Guards on closed values are evaluated. *)
Ltac eval_guards :=
  repeat match goal with
         | |- context [bool_decide ?P] =>
             let b := eval hnf in (bool_decide P) in
             match b with true => idtac | false => idtac end;
             change (bool_decide P) with b
         | |- context [dtype_in ?d ?l] =>
             let b := eval hnf in (dtype_in d l) in
             match b with true => idtac | false => idtac end;
             change (dtype_in d l) with b
         end;
  cbv beta iota delta [negb orb andb].

(** One run of the monad laws on a computation applied to its store. *)
Ltac py_run :=
  repeat first
    [ rewrite bind_assoc
    | rewrite bind_ret_l
    | rewrite bind_raise
    | rewrite bind_lift_ok
    | rewrite bind_lift_raise
    | rewrite raise_if_true
    | rewrite raise_if_false
    | progress cbv beta iota delta [negb orb andb] ].

(** ** Reading a live column *)

Section Accessors.
Context `{PyBackend}.

Lemma deref_live (l : nat) (h : heap) (ps : PySeries) :
  h !! l = Some ps -> deref l h = (h, Ok ps).
Proof. intros E. unfold deref. rewrite E. reflexivity. Qed.

Lemma dtype_live (self : Series) (h : heap) (ps : PySeries) :
  h !! _s self = Some ps -> dtype self h = (h, Ok (ps_dtype ps)).
Proof. intros E. unfold dtype. erewrite bind_ok by (apply deref_live; eassumption). reflexivity. Qed.

Lemma is_datelike_live (self : Series) (h : heap) (ps : PySeries) :
  h !! _s self = Some ps ->
  is_datelike self h = (h, Ok (dtype_in (ps_dtype ps) [Date; Datetime; Duration; Time])).
Proof.
  intros E. unfold is_datelike.
  erewrite bind_ok by (apply dtype_live; eassumption). reflexivity.
Qed.

Lemma is_float_live (self : Series) (h : heap) (ps : PySeries) :
  h !! _s self = Some ps ->
  is_float self h = (h, Ok (dtype_in (ps_dtype ps) [Float32; Float64])).
Proof.
  intros E. unfold is_float.
  erewrite bind_ok by (apply dtype_live; eassumption). reflexivity.
Qed.

Lemma len_live (self : Series) (h : heap) (ps : PySeries) :
  h !! _s self = Some ps -> len self h = (h, Ok (ps_len ps)).
Proof. intros E. unfold len. erewrite bind_ok by (apply deref_live; eassumption). reflexivity. Qed.

Lemma alloc_lookup (h : heap) (ps : PySeries) :
  (h ++ [ps]) !! length h = Some ps.
Proof. apply list_lookup_middle. reflexivity. Qed.

Lemma alloc_keeps (h : heap) (ps ps' : PySeries) (l : nat) :
  h !! l = Some ps -> (h ++ [ps']) !! l = Some ps.
Proof. intros E. apply lookup_app_l_Some. exact E. Qed.

End Accessors.

(** ** Date-like columns reject [*], [/] and [%] *)

Section Datelike.
Context `{PyBackend}.

(** C3.  On a column whose dtype is Date, Datetime, Duration or Time, the
    operators [*], [/] and [%] raise ValueError whatever the other operand
    is, and so do their reflected forms and [//]; the store is untouched
    and no kernel runs. *)
Theorem datelike_rejects_mul_div_mod
    (self : Series) (other : pyobj) (depth : nat) (h : heap) (ps : PySeries) :
  h !! _s self = Some ps ->
  dtype_in (ps_dtype ps) [Date; Datetime; Duration; Time] = true ->
  __mul__ self other h
    = (h, Raise (ValueError "first cast to integer before multiplying datelike dtypes"))
  /\ __truediv__ (S depth) self other h
    = (h, Raise (ValueError "first cast to integer before dividing datelike dtypes"))
  /\ __mod__ self other h
    = (h, Raise (ValueError "first cast to integer before applying modulo on datelike dtypes"))
  /\ __rmul__ self other h
    = (h, Raise (ValueError "first cast to integer before multiplying datelike dtypes"))
  /\ __rtruediv__ self other h
    = (h, Raise (ValueError "first cast to integer before dividing datelike dtypes"))
  /\ __rmod__ self other h
    = (h, Raise (ValueError "first cast to integer before applying modulo on datelike dtypes"))
  /\ __floordiv__ self other h
    = (h, Raise (ValueError "first cast to integer before dividing datelike dtypes")).
Proof.
  intros Hlive Hdl.
  pose proof (is_datelike_live self h ps Hlive) as Hguard. rewrite Hdl in Hguard.
  repeat split.
  - unfold __mul__. rewrite (bind_ok _ _ _ _ _ Hguard). reflexivity.
  - cbn [__truediv__]. rewrite (bind_ok _ _ _ _ _ Hguard). reflexivity.
  - unfold __mod__. rewrite (bind_ok _ _ _ _ _ Hguard). reflexivity.
  - unfold __rmul__. rewrite (bind_ok _ _ _ _ _ Hguard). reflexivity.
  - unfold __rtruediv__. rewrite (bind_ok _ _ _ _ _ Hguard). reflexivity.
  - unfold __rmod__. rewrite (bind_ok _ _ _ _ _ Hguard). reflexivity.
  - unfold __floordiv__. rewrite (bind_ok _ _ _ _ _ Hguard). reflexivity.
Qed.

End Datelike.

Lemma datelike_rejects_mul_div_mod_witness :
  __mul__ (wrap 0) (PyInt 2) one_date_column
  = (one_date_column,
     Raise (ValueError "first cast to integer before multiplying datelike dtypes")).
Proof.
  refine (proj1 (datelike_rejects_mul_div_mod (H:=Ref.backend) (wrap 0) (PyInt 2) 0 one_date_column _ _ _));
    reflexivity.
Defined.

(** ** True division promotes to Float64 *)

Lemma Float64_not_datelike : dtype_in Float64 [Date; Datetime; Duration; Time] = false.
Proof. reflexivity. Qed.

Lemma Float64_is_float : dtype_in Float64 [Float32; Float64] = true.
Proof. reflexivity. Qed.

Section TrueDivision.
Context `{PyBackend}.

Lemma cast_live (self : Series) (d : DataType) (strict : bool) (h : heap)
    (ps out : PySeries) :
  h !! _s self = Some ps -> PySeries_cast ps d strict = Ok out ->
  cast self d strict h = (h ++ [out], Ok (wrap (length h))).
Proof.
  intros Hlive Hc. unfold cast.
  erewrite bind_ok by (apply deref_live; exact Hlive).
  unfold wrap_result, lift, wrap_s, alloc, Py.bind, ret. rewrite Hc. reflexivity.
Qed.

Lemma cast_fails (self : Series) (d : DataType) (strict : bool) (h : heap)
    (ps : PySeries) (e : exn) :
  h !! _s self = Some ps -> PySeries_cast ps d strict = Raise e ->
  cast self d strict h = (h, Raise e).
Proof.
  intros Hlive Hc. unfold cast.
  erewrite bind_ok by (apply deref_live; exact Hlive).
  unfold wrap_result, lift, Py.bind. rewrite Hc. reflexivity.
Qed.



End TrueDivision.

(** The reference kernels keep the contracts. *)
Lemma Ref_cast_gives_dtype : @cast_gives_dtype Ref.backend.
Proof.
  intros ps out d strict. cbn [PySeries_cast Ref.backend]. unfold Ref.cast.
  destruct (Ref.cast_values d strict (ps_values ps)) as [vs|e]; cbn [rbind].
  - intros [= <-]. reflexivity.
  - discriminate.
Qed.





(** ** Construction *)

Section Construction.
Context `{PyBackend}.

(** With no dtype, an empty sequence is built as a Float32 one. *)
Lemma sequence_to_pyseries_empty (nm : string) (strict : bool) :
  sequence_to_pyseries nm [] None strict
  = sequence_to_pyseries nm [] (Some Float32) strict.
Proof. reflexivity. Qed.

Lemma sequence_to_pyseries_Float32 (nm : string) (strict : bool) (h : heap)
    (c : constructor) (out : PySeries) :
  polars_type_to_constructor Float32 = Ok c -> c nm [] strict = Ok out ->
  sequence_to_pyseries nm [] (Some Float32) strict h = (h, Ok out).
Proof.
  intros Hc Hout. unfold sequence_to_pyseries. cbn.
  unfold lift, Py.bind, ret. rewrite Hc, Hout. reflexivity.
Qed.

(** [Series_init] on a Sequence: the items go to [sequence_to_pyseries]. *)
Lemma Series_init_sequence
    (name_arg values : pyobj) (items : list pyobj) (dt : option DataType)
    (strict nan_to_null : bool) (h : heap) :
  is_None name_arg || isinstance_str name_arg = true ->
  sequence_items values = Some items ->
  Series_init name_arg values dt strict nan_to_null h
  = (ps <- sequence_to_pyseries
             (match name_arg with PyStr s => s | _ => EmptyString end) items dt strict ;;
     wrap_s ps) h.
Proof.
  intros Hname Hitems.
  assert (Hargs : (negb (is_None name_arg) && negb (isinstance_str name_arg)) = false).
  { destruct (is_None name_arg), (isinstance_str name_arg); cbn in *; congruence. }
  unfold Series_init. rewrite Hargs, !bind_ret_l. cbn [snd fst].
  destruct values; try discriminate Hitems; rewrite Hitems; reflexivity.
Qed.

(** [Series_init] on [values=None]: an empty list, strictly. *)
Lemma Series_init_None
    (name_arg : pyobj) (dt : option DataType) (strict nan_to_null : bool) (h : heap) :
  is_None name_arg || isinstance_str name_arg = true ->
  Series_init name_arg PyNone dt strict nan_to_null h
  = (ps <- sequence_to_pyseries
             (match name_arg with PyStr s => s | _ => EmptyString end) [] dt true ;;
     wrap_s ps) h.
Proof.
  intros Hname.
  assert (Hargs : (negb (is_None name_arg) && negb (isinstance_str name_arg)) = false).
  { destruct (is_None name_arg), (isinstance_str name_arg); cbn in *; congruence. }
  unfold Series_init. rewrite Hargs, !bind_ret_l. reflexivity.
Qed.

(** C7.  A Series built from [values=None] or from an empty Sequence (a
    list, a tuple, a str, a range or any other), with no dtype given, is
    built exactly as with [dtype=Float32]; with a Float32 constructor
    that accepts the empty input and builds Float32 columns, the
    construction returns a new column, and its dtype is Float32. *)
Theorem empty_input_defaults_to_Float32
    (name_arg values : pyobj) (strict nan_to_null : bool) (h : heap)
    (c : constructor) :
  Float32_constructor_gives_Float32 ->
  polars_type_to_constructor Float32 = Ok c ->
  (forall nm st, is_ok (c nm [] st) = true) ->
  is_None name_arg || isinstance_str name_arg = true ->
  values = PyNone \/ sequence_items values = Some [] ->
  Series_init name_arg values None strict nan_to_null h
    = Series_init name_arg values (Some Float32) strict nan_to_null h
  /\ exists (out : PySeries),
       Series_init name_arg values None strict nan_to_null h
         = (h ++ [out], Ok (wrap (length h)))
       /\ ps_dtype out = Float32.
Proof.
  intros Hlaw Hc Hok Hname Hvalues.
  assert (Hbuild : forall nm st,
            exists out, c nm [] st = Ok out /\ ps_dtype out = Float32).
  { intros nm st. specialize (Hok nm st).
    destruct (c nm [] st) as [out|e] eqn:Hrun; [|discriminate].
    exists out. split; [reflexivity|]. eapply Hlaw; eassumption. }
  set (nm := match name_arg with PyStr s => s | _ => EmptyString end).
  destruct Hvalues as [->|Hitems].
  - rewrite !(Series_init_None name_arg _ strict nan_to_null h Hname). fold nm.
    rewrite sequence_to_pyseries_empty. split; [reflexivity|].
    destruct (Hbuild nm true) as (out & Hrun & Hdt). exists out. split; [|exact Hdt].
    rewrite (bind_ok _ _ _ _ _ (sequence_to_pyseries_Float32 nm true h c out Hc Hrun)).
    reflexivity.
  - rewrite !(Series_init_sequence name_arg values [] _ strict nan_to_null h Hname Hitems).
    fold nm. rewrite sequence_to_pyseries_empty. split; [reflexivity|].
    destruct (Hbuild nm strict) as (out & Hrun & Hdt). exists out. split; [|exact Hdt].
    rewrite (bind_ok _ _ _ _ _ (sequence_to_pyseries_Float32 nm strict h c out Hc Hrun)).
    reflexivity.
Qed.

(** C8.  [Series(m, s)] for a Series [s]: the object built holds the very
    native column of [s] (the same address, and the store has no new
    object), that column is renamed to [m] in place and otherwise
    unchanged, so [s] itself carries the name [m] afterwards. *)
Theorem series_input_is_renamed_and_shared
    (m : string) (s : Series) (dt : option DataType) (strict nan_to_null : bool)
    (h : heap) (ps : PySeries) :
  h !! _s s = Some ps ->
  let h' := <[_s s := ps_rename m ps]> h in
  Series_init (PyStr m) (PySeriesRef s) dt strict nan_to_null h = (h', Ok (wrap (_s s)))
  /\ length h' = length h
  /\ name s h' = (h', Ok m)
  /\ (ps_dtype <$> h' !! _s s) = Some (ps_dtype ps)
  /\ (ps_chunks <$> h' !! _s s) = Some (ps_chunks ps)
  /\ (forall l, l <> _s s -> h' !! l = h !! l).
Proof.
  intros Hlive h'.
  assert (Hnew : h' !! _s s = Some (ps_rename m ps)).
  { apply list_lookup_insert_eq. apply lookup_lt_is_Some. eauto. }
  repeat split.
  - unfold Series_init. cbn [is_None isinstance_str negb andb].
    rewrite bind_ret_l. cbn [snd fst].
    unfold series_to_pyseries, rename, update, inner, Py.bind, ret.
    rewrite Hlive. reflexivity.
  - apply length_insert.
  - unfold name. rewrite (bind_ok _ _ _ _ _ (deref_live _ _ _ Hnew)). reflexivity.
  - rewrite Hnew. reflexivity.
  - rewrite Hnew. reflexivity.
  - intros l Hl. apply list_lookup_insert_ne. congruence.
Qed.

End Construction.

Lemma Ref_Float32_constructor : @Float32_constructor_gives_Float32 Ref.backend.
Proof.
  intros c nm vs strict out. cbn [polars_type_to_constructor Ref.backend].
  intros [= <-]. unfold Ref.construct.
  destruct (Ref.py_to_scalars vs) as [xs|e]; cbn [rbind]; [|discriminate].
  destruct (Ref.cast_values Float32 strict xs) as [ys|e]; cbn [rbind]; [|discriminate].
  intros [= <-]. reflexivity.
Qed.

Lemma empty_input_defaults_to_Float32_witness :
  exists out : PySeries,
    Series_init (PyStr "a") (PyList []) None true false []
      = ([] ++ [out], Ok (wrap 0))
    /\ ps_dtype out = Float32.
Proof.
  refine (proj2 (empty_input_defaults_to_Float32 (H:=Ref.backend) (PyStr "a") (PyList []) true false []
                   (Ref.construct Float32) Ref_Float32_constructor eq_refl _ eq_refl _)).
  - intros nm st. reflexivity.
  - right. reflexivity.
Defined.

(** [Series("a", range(0))] and [Series("a", b"")]: empty Sequences that
    are no list. *)
Example empty_range_is_Float32 :
  Series_init (PyStr "a") (PyRange 0 0 1) None true false []
  = ([ {| ps_name := "a"; ps_dtype := Float32; ps_chunks := [[]] |} ], Ok (wrap 0))
  /\ Series_init (PyStr "a") (PySequence "bytes" []) None true false []
     = ([ {| ps_name := "a"; ps_dtype := Float32; ps_chunks := [[]] |} ], Ok (wrap 0)).
Proof. split; reflexivity. Qed.

(** [Series("a", range(0, 6, 2))] is built from 0, 2, 4. *)
Example range_is_a_sequence :
  sequence_items (PyRange 0 6 2) = Some [PyInt 0; PyInt 2; PyInt 4]
  /\ sequence_items (PyRange 5 0 (-2)) = Some [PyInt 5; PyInt 3; PyInt 1]
  /\ sequence_items (PyRange 3 3 1) = Some [].
Proof. repeat split. Qed.

Lemma series_input_is_renamed_and_shared_witness :
  Series_init (PyStr "z") (PySeriesRef (wrap 1)) None true false two_int_columns
  = (<[1%nat := ps_rename "z" {| ps_name := "b"; ps_dtype := Int64;
          ps_chunks := [[Some (SInt 2); Some (SInt 2); Some (SInt 2)]] |}]> two_int_columns,
     Ok (wrap 1)).
Proof.
  refine (proj1 (series_input_is_renamed_and_shared (H:=Ref.backend) "z" (wrap 1) None true false
                   two_int_columns _ _)).
  reflexivity.
Defined.

(** ** [append]: retry on a borrow conflict *)

Section Append.
Context `{PyBackend}.

(** The in-place kernel [append] picks. *)
Lemma append_unfold (depth : nat) (self other : Series) (append_chunks : bool) :
  append (S depth) self other append_chunks
  = try_except
      (if append_chunks
       then PySeries_append (_s self) (_s other)
       else PySeries_extend (_s self) (_s other))
      isinstance_RuntimeError
      (fun e =>
         if bool_decide (str e = "Already mutably borrowed") then
           c <- clone other ;; append depth self c append_chunks
         else raise e).
Proof. reflexivity. Qed.

(** When the kernel returns, so does [append], with the kernel's store. *)
Lemma append_ok (depth : nat) (self other : Series) (append_chunks : bool)
    (h h' : heap) :
  (if append_chunks
   then PySeries_append (_s self) (_s other)
   else PySeries_extend (_s self) (_s other)) h = (h', Ok tt) ->
  append (S depth) self other append_chunks h = (h', Ok tt).
Proof. intros Hk. rewrite append_unfold. unfold try_except. rewrite Hk. reflexivity. Qed.

(** C1.  When the in-place kernel ([append], or [extend] for
    [append_chunks=False]) fails with a RuntimeError whose text is
    "Already mutably borrowed", [Series.append] does not raise it: it
    clones [other] and appends the clone, and the outcome of the call is
    the outcome of that retry.  When the kernel fails with anything else,
    that exception is raised as it is, on the store the kernel left. *)
Theorem append_retries_on_borrow_conflict
    (depth : nat) (self other : Series) (append_chunks : bool)
    (h h' : heap) (e : exn) :
  (if append_chunks
   then PySeries_append (_s self) (_s other)
   else PySeries_extend (_s self) (_s other)) h = (h', Raise e) ->
  (isinstance_RuntimeError e = true /\ str e = "Already mutably borrowed" ->
     append (S depth) self other append_chunks h
     = (c <- clone other ;; append depth self c append_chunks) h')
  /\ (~ (isinstance_RuntimeError e = true /\ str e = "Already mutably borrowed") ->
     append (S depth) self other append_chunks h = (h', Raise e)).
Proof.
  intros Hk. rewrite append_unfold. unfold try_except. rewrite Hk. split.
  - intros [-> Hmsg]. rewrite bool_decide_eq_true_2 by exact Hmsg. reflexivity.
  - intros Hother. destruct (isinstance_RuntimeError e) eqn:Hcls; [|reflexivity].
    rewrite bool_decide_eq_false_2; [reflexivity|]. intros Hmsg. apply Hother. auto.
Qed.

End Append.

(** A column appended to itself with the reference kernels: the kernel
    refuses the second borrow, the clone is appended instead, and the
    column ends with its values twice, in two chunks. *)
Lemma append_retries_on_borrow_conflict_witness :
  append 2 (wrap 0) (wrap 0) true one_int_column
  = ([ {| ps_name := "a"; ps_dtype := Int64;
          ps_chunks := [[Some (SInt 1); Some (SInt 2)]; [Some (SInt 1); Some (SInt 2)]] |};
       {| ps_name := "a"; ps_dtype := Int64;
          ps_chunks := [[Some (SInt 1); Some (SInt 2)]] |} ],
     Ok tt).
Proof.
  rewrite (proj1 (append_retries_on_borrow_conflict (H:=Ref.backend) 1 (wrap 0) (wrap 0) true
                    one_int_column one_int_column
                    (RuntimeError "Already mutably borrowed") eq_refl)
                 (conj eq_refl eq_refl)).
  vm_compute. reflexivity.
Defined.

(** ** [sample] *)

Section Sample.
Context `{PyBackend}.

(** C6.  With both [n] and [frac] given, [sample] raises ValueError; the
    store is as before the call and no kernel is consulted: the outcome
    is the same for every implementation of the kernels. *)
Theorem sample_rejects_n_and_frac
    (self : Series) (n : Z) (frac : float) (with_replacement shuffle : bool)
    (seed : option Z) (h : heap) :
  sample self (Some n) (Some frac) with_replacement shuffle seed h
  = (h, Raise (ValueError "n and frac were both supplied")).
Proof. reflexivity. Qed.

(** C9.  With neither [n] nor [frac] given, [sample] is the call with
    [n = 1]: it takes the sample-by-count kernel with a count of 1 and
    adds nothing of its own.  When the kernel returns a column, that
    column is returned (of length 1, for a kernel that samples the count
    it is asked); when the kernel raises, the call raises that error and
    the store is as before. *)
Theorem sample_defaults_to_one
    (self : Series) (with_replacement shuffle : bool) (seed : option Z)
    (h : heap) (ps : PySeries) :
  h !! _s self = Some ps ->
  sample self None None with_replacement shuffle seed h
    = sample self (Some 1) None with_replacement shuffle seed h
  /\ match PySeries_sample_n ps 1 with_replacement shuffle seed with
     | Ok out =>
         sample self None None with_replacement shuffle seed h
           = (h ++ [out], Ok (wrap (length h)))
         /\ (sample_n_gives_n -> ps_len out = 1)
     | Raise e =>
         sample self None None with_replacement shuffle seed h = (h, Raise e)
     end.
Proof.
  intros Hlive. split; [reflexivity|].
  unfold sample. rewrite (bind_ok _ _ _ _ _ (deref_live _ _ _ Hlive)).
  unfold wrap_result, lift, wrap_s, alloc, Py.bind, ret.
  destruct (PySeries_sample_n ps 1 with_replacement shuffle seed) as [out|e] eqn:Hk;
    [|reflexivity].
  split; [reflexivity|]. intros Hlaw. eapply Hlaw. exact Hk.
Qed.

End Sample.

Lemma length_repeated {A} (k : nat) (l : list A) :
  length (mjoin (replicate k l)) = (k * length l)%nat.
Proof.
  induction k as [|k IH]; [reflexivity|].
  cbn [replicate]. change (mjoin (l :: replicate k l)) with (l ++ mjoin (replicate k l)).
  rewrite length_app, IH. lia.
Qed.

Lemma Ref_sample_n_gives_n : @sample_n_gives_n Ref.backend.
Proof.
  intros ps out n wr sh seed. cbn [PySeries_sample_n Ref.backend]. unfold Ref.sample_n.
  destruct (bool_decide (n < 0)) eqn:Hneg; [discriminate|].
  destruct (negb wr && bool_decide (ps_len ps < n)); [discriminate|].
  destruct (bool_decide (ps_len ps = 0) && bool_decide (0 < n)) eqn:Hempty; [discriminate|].
  intros [= <-]. apply bool_decide_eq_false_1 in Hneg.
  unfold ps_len at 1, ps_values at 1. cbn [ps_chunks concat]. rewrite app_nil_r.
  rewrite length_take, length_app, length_repeated.
  apply andb_false_iff in Hempty as [He|He]; apply bool_decide_eq_false_1 in He;
    unfold ps_len in *; nia.
Qed.

Lemma sample_defaults_to_one_witness :
  sample (wrap 0) None None false false None one_int_column
    = sample (wrap 0) (Some 1) None false false None one_int_column
  /\ (sample (wrap 0) None None false false None one_int_column
       = (one_int_column
            ++ [ {| ps_name := "a"; ps_dtype := Int64; ps_chunks := [[Some (SInt 1)]] |} ],
          Ok (wrap 1))
     /\ (@sample_n_gives_n Ref.backend ->
         ps_len {| ps_name := "a"; ps_dtype := Int64; ps_chunks := [[Some (SInt 1)]] |} = 1)).
Proof.
  exact (@sample_defaults_to_one Ref.backend (wrap 0) false false None one_int_column _
           eq_refl).
Defined.

(** With no argument, [sample] on an empty column raises: there is no
    element to return, and the kernel refuses a count of 1. *)
Lemma sample_of_empty_column_raises :
  sample (wrap 0) None None false false None one_empty_column
  = (one_empty_column,
     Raise (PolarsError "cannot take a larger sample than the total population when `with_replacement=false`")).
Proof. reflexivity. Qed.

(** ** Selectors: inversion *)

Lemma captured_spec (s : Selectors._selector_proxy_) :
  (if Selectors.is_empty (Selectors.or_empty (Selectors.raw_params s))
      && negb (Selectors.is_empty (Selectors.or_empty (Selectors.params s)))
   then snd <$> Selectors.or_empty (Selectors.params s)
   else Selectors.or_empty (Selectors.raw_params s))
  = Selectors.captured s.
Proof.
  unfold Selectors.captured, Selectors.or_empty.
  destruct (Selectors.raw_params s) as [[|v l]|]; cbn;
    destruct (Selectors.params s) as [[|p q]|]; reflexivity.
Qed.




(** Every selector the functions of the module return, [all()],
    [first()] and [last()] apart, has captured something. *)
Lemma built_selectors_capture_something
    (re_escape : string -> string) (is_polars_dtype : Selectors.pyvalue -> bool) :
  (forall b, Selectors.captured (Selectors.string b) <> [])
  /\ (forall names s, Selectors.by_name names = Ok s -> Selectors.captured s <> [])
  /\ (forall dtypes s,
        Selectors.by_dtype is_polars_dtype dtypes = Ok s -> Selectors.captured s <> [])
  /\ (forall p, p <> ".*" -> Selectors.captured (Selectors.matches p) <> [])
  /\ (forall v s, Selectors.contains re_escape v = Ok s -> Selectors.captured s <> [])
  /\ (forall l s, Selectors.starts_with re_escape l = Ok s -> Selectors.captured s <> [])
  /\ (forall l s, Selectors.ends_with re_escape l = Ok s -> Selectors.captured s <> []).
Proof.
  repeat split.
  - intros b. destruct b; discriminate.
  - intros names s. unfold Selectors.by_name.
    destruct (Selectors.all_names_of names); [|discriminate]. cbn [rbind].
    destruct (Selectors.call_col _); [|discriminate]. intros [= <-]. discriminate.
  - intros dtypes s. unfold Selectors.by_dtype.
    destruct (Selectors.all_dtypes_of _ dtypes); [|discriminate]. cbn [rbind].
    destruct (Selectors.call_col _); [|discriminate]. intros [= <-]. discriminate.
  - intros p Hp. unfold Selectors.matches.
    rewrite bool_decide_eq_false_2 by exact Hp. discriminate.
  - intros v s. unfold Selectors.contains.
    destruct (Selectors._re_string _ v); [|discriminate]. intros [= <-]. discriminate.
  - intros l s. unfold Selectors.starts_with.
    destruct (Selectors._re_string _ _); [|discriminate]. intros [= <-]. discriminate.
  - intros l s. unfold Selectors.ends_with.
    destruct (Selectors._re_string _ _); [|discriminate]. intros [= <-]. discriminate.
Qed.

(** ** The early [DataFrame.__getitem__]: slices *)

Section FrameSlices.
Context `{Frame.FrameBackend}.

(** A slice has no attribute [end]: the lookup gives the default. *)
Lemma slice_has_no_end (s : Frame.pyslice) (default : Frame.attr_value) :
  Frame.getattr s "end" default = default.
Proof. reflexivity. Qed.

(** C10.  For a slice passed to [DataFrame.__getitem__], the guard meant
    for steps larger than 1 looks up the attribute "end", which a slice
    does not have: the lookup is the default [False] for every slice, the
    ValueError is never raised, and the step takes no part in the result,
    which is [slice(start, stop - start)] with [start] defaulting to 0 and
    [stop] to the height of the frame. *)
Theorem slice_step_is_ignored
    (depth : nat) (df : Frame.PyDataFrame) (start stop step : option Z) :
  let s := Frame.mk_slice start stop step in
  Frame.truthy (Frame.getattr s "end" (Frame.ABool false)) = false
  /\ Frame.__getitem__ (S depth) df (Frame.ISlice s)
     = rmap Frame.VFrame
         (Frame.slice df (default 0 start)
            (default (Frame.height df) stop - default 0 start))
  /\ Frame.__getitem__ (S depth) df (Frame.ISlice s)
     = Frame.__getitem__ (S depth) df (Frame.ISlice (Frame.mk_slice start stop None)).
Proof.
  cbn zeta. split; [reflexivity|].
  assert (Heq : forall st : option Z,
    Frame.__getitem__ (S depth) df (Frame.ISlice (Frame.mk_slice start stop st))
    = rmap Frame.VFrame
        (Frame.slice df (default 0 start)
           (default (Frame.height df) stop - default 0 start))).
  { intros st. cbn [Frame.__getitem__]. rewrite slice_has_no_end.
    cbn [Frame.truthy Frame.start Frame.stop].
    destruct start, stop; reflexivity. }
  split; [apply Heq|]. rewrite !Heq. reflexivity.
Qed.

End FrameSlices.

(** ** Index conversion for a gather *)

Section Gather.
Context `{PyBackend}.

Lemma max_live (idxs : Series) (h : heap) (ps : PySeries) :
  h !! _s idxs = Some ps -> max idxs h = (h, Ok (PySeries_max ps)).
Proof. intros E. unfold max. rewrite (bind_ok _ _ _ _ _ (deref_live _ _ _ E)). reflexivity. Qed.

Lemma min_live (idxs : Series) (h : heap) (ps : PySeries) :
  h !! _s idxs = Some ps -> min idxs h = (h, Ok (PySeries_min ps)).
Proof. intros E. unfold min. rewrite (bind_ok _ _ _ _ _ (deref_live _ _ _ E)). reflexivity. Qed.

(** The Series branch of [_pos_idxs] on a 32-bit index platform, for a
    64-bit index column: the two range checks, then the rest. *)
Lemma pos_idxs_series_64 (self idxs : Series) (h : heap) (ps : PySeries) :
  get_idx_type = UInt32 ->
  h !! _s idxs = Some ps ->
  dtype_in (ps_dtype ps) [Int64; UInt64] = true ->
  _pos_idxs self (PySeriesRef idxs) h
  = ((too_big <- lift (py_ge (PySeries_max ps) (2 ^ 32)) ;;
      raise_if too_big (ValueError "Index positions should be smaller than 2^32.")) ;;;
     (if bool_decide (ps_dtype ps = Int64) then
        too_small <- lift (py_lt (PySeries_min ps) (- (2 ^ 32))) ;;
        raise_if too_small (ValueError "Index positions should be bigger than -2^32 + 1.")
      else ret tt) ;;;
     idxs <-
       (if bool_decide (ps_dtype ps = Int64) then
          negative <- lift (py_lt (PySeries_min ps) 0) ;;
          if negative then
            n <- len self ;;
            wrap_result (select_when_negative n ps)
          else ret idxs
        else ret idxs) ;;
     cast idxs UInt32 true) h.
Proof.
  intros Hidx Hlive Hdt. unfold _pos_idxs. rewrite Hidx.
  rewrite (bind_ok _ _ _ _ _ (dtype_live _ _ _ Hlive)).
  pose proof (max_live idxs h ps Hlive) as Hmax.
  pose proof (min_live idxs h ps Hlive) as Hmin.
  destruct (ps_dtype ps) eqn:Hd; try discriminate Hdt; eval_guards.
  - (* Int64 *)
    rewrite !bind_assoc. rewrite (bind_ok _ _ _ _ _ Hmax).
    destruct (py_ge (PySeries_max ps) (2 ^ 32)) as [[|]|e]; py_run; try reflexivity.
    rewrite (bind_ok _ _ _ _ _ Hmin).
    destruct (py_lt (PySeries_min ps) (- (2 ^ 32))) as [[|]|e]; py_run; try reflexivity.
    rewrite (bind_ok _ _ _ _ _ Hmin).
    destruct (py_lt (PySeries_min ps) 0) as [[|]|e]; py_run; try reflexivity.
    destruct (len self h) as [h1 [n|e]] eqn:Hlen.
    + assert (h1 = h) as ->.
      { unfold len, Py.bind, deref, ret in Hlen.
        destruct (h !! _s self); cbv beta iota in Hlen; congruence. }
      rewrite !(bind_ok _ _ _ _ _ Hlen). py_run.
      rewrite (bind_ok _ _ _ _ _ (deref_live _ _ _ Hlive)). reflexivity.
    + rewrite !(bind_fail _ _ _ _ _ Hlen). reflexivity.
  - (* UInt64 *)
    rewrite !bind_assoc. rewrite (bind_ok _ _ _ _ _ Hmax).
    destruct (py_ge (PySeries_max ps) (2 ^ 32)) as [[|]|e]; py_run; reflexivity.
Qed.

(** X27.  An Int64 or UInt64 index column whose maximum is at least 2^32
    is refused with ValueError, on a platform whose index type is UInt32;
    the store is unchanged. *)
Lemma pos_idxs_series_too_large (self idxs : Series) (h : heap) (ps : PySeries) (mx : Z) :
  get_idx_type = UInt32 ->
  h !! _s idxs = Some ps ->
  dtype_in (ps_dtype ps) [Int64; UInt64] = true ->
  PySeries_max ps = PyInt mx -> 2 ^ 32 <= mx ->
  _pos_idxs self (PySeriesRef idxs) h
  = (h, Raise (ValueError "Index positions should be smaller than 2^32.")).
Proof.
  intros Hidx Hlive Hdt Hmax Hbig.
  rewrite (pos_idxs_series_64 self idxs h ps Hidx Hlive Hdt), Hmax.
  unfold py_ge. rewrite bool_decide_eq_true_2 by exact Hbig. reflexivity.
Qed.

(** X28.  An Int64 index column whose minimum is below -(2^32) is
    refused with ValueError (for its maximum or for its minimum), on a
    platform whose index type is UInt32; the store is unchanged. *)
Lemma pos_idxs_series_too_small (self idxs : Series) (h : heap) (ps : PySeries)
    (mx mn : Z) :
  get_idx_type = UInt32 ->
  h !! _s idxs = Some ps ->
  ps_dtype ps = Int64 ->
  PySeries_max ps = PyInt mx -> PySeries_min ps = PyInt mn ->
  mn < - (2 ^ 32) ->
  exists msg, _pos_idxs self (PySeriesRef idxs) h = (h, Raise (ValueError msg)).
Proof.
  intros Hidx Hlive Hdt Hmax Hmin Hsmall.
  rewrite (pos_idxs_series_64 self idxs h ps Hidx Hlive) by (rewrite Hdt; reflexivity).
  rewrite Hmax, Hmin, Hdt. unfold py_ge, py_lt. eval_guards.
  destruct (bool_decide (2 ^ 32 <= mx)); py_run; [eexists; reflexivity|].
  rewrite bool_decide_eq_true_2 by exact Hsmall. py_run. eexists. reflexivity.
Qed.

(** X29.  An Int64 index column within range and with a negative value:
    the column is rewritten by the expression engine (negative values to
    length + value) and then cast to the index type. *)
Lemma pos_idxs_series_negative (self idxs : Series) (h : heap) (ps me : PySeries)
    (mx mn : Z) :
  get_idx_type = UInt32 ->
  h !! _s idxs = Some ps -> h !! _s self = Some me ->
  ps_dtype ps = Int64 ->
  PySeries_max ps = PyInt mx -> PySeries_min ps = PyInt mn ->
  mx < 2 ^ 32 -> - (2 ^ 32) <= mn -> mn < 0 ->
  _pos_idxs self (PySeriesRef idxs) h
  = (t <- wrap_result (select_when_negative (ps_len me) ps) ;; cast t UInt32 true) h.
Proof.
  intros Hidx Hlive Hself Hdt Hmax Hmin Hmx Hmn Hneg.
  rewrite (pos_idxs_series_64 self idxs h ps Hidx Hlive) by (rewrite Hdt; reflexivity).
  rewrite Hmax, Hmin, Hdt. unfold py_ge, py_lt. eval_guards.
  rewrite (bool_decide_eq_false_2 (2 ^ 32 <= mx)) by lia.
  rewrite (bool_decide_eq_false_2 (mn < - (2 ^ 32))) by lia.
  rewrite (bool_decide_eq_true_2 (mn < 0)) by lia.
  py_run. rewrite (bind_ok _ _ _ _ _ (len_live _ _ _ Hself)). reflexivity.
Qed.

(** X30.  An index column with no maximum (an empty one, or only
    nulls): the comparison of [None] with 2^32 raises TypeError. *)
Lemma pos_idxs_series_without_maximum (self idxs : Series) (h : heap) (ps : PySeries) :
  get_idx_type = UInt32 ->
  h !! _s idxs = Some ps ->
  dtype_in (ps_dtype ps) [Int64; UInt64] = true ->
  PySeries_max ps = PyNone ->
  _pos_idxs self (PySeriesRef idxs) h
  = (h, Raise (TypeError "'>=' not supported between instances of this type and 'int'")).
Proof.
  intros Hidx Hlive Hdt Hmax.
  rewrite (pos_idxs_series_64 self idxs h ps Hidx Hlive Hdt), Hmax. reflexivity.
Qed.

(** In the numpy branch the test before the upper bound is a set lookup,
    which never finds the dtype of the array. *)
Lemma np_dtype_in_set_false (d : np_dtype) (types : list np_dtype) :
  dtype_hash_differs -> np_dtype_in_set d types = false.
Proof.
  intros Hhash. unfold np_dtype_in_set. induction types as [|t types IH]; [reflexivity|].
  cbn [existsb]. rewrite IH.
  rewrite (bool_decide_eq_false_2 (hash_of_dtype d = hash_of_scalar_type t)) by apply Hhash.
  reflexivity.
Qed.

(** C4, the numpy branch on a 32-bit index platform.  For a 1-D uint64
    array, or an int64 array with no negative element, [_pos_idxs] makes
    no check of the maximum: whatever the elements, the array goes to the
    Series constructor with the index dtype, as it is.  The guard of the
    check, [idxs.dtype in {np.int64, np.uint64}], is a set lookup; it is
    false since the dtype of an array does not hash like a scalar type. *)
Theorem pos_idxs_ndarray_upper_bound_unchecked
    (self : Series) (a : ndarray) (h : heap) :
  _NUMPY_AVAILABLE = true -> get_idx_type = UInt32 ->
  dtype_hash_differs ->
  ndim a = 1%nat ->
  nd_dtype a = np_uint64
  \/ (nd_dtype a = np_int64 /\ exists mn, np_min a = Ok mn /\ 0 <= mn) ->
  _pos_idxs self (PyNdarray a) h
  = Series_init (PyStr "") (PyNdarray a) (Some UInt32) true false h.
Proof.
  intros Hnp Hidx Hhash Hdim Hcases. unfold _pos_idxs.
  rewrite Hnp, Hidx, Hdim, (np_dtype_in_set_false _ _ Hhash).
  destruct Hcases as [Hd | (Hd & mn & Hmin & Hpos)]; rewrite Hd; eval_guards; py_run.
  - reflexivity.
  - rewrite Hmin. py_run.
    rewrite (bool_decide_eq_false_2 (mn < - (2 ^ 32))) by lia. py_run.
    rewrite (bool_decide_eq_false_2 (mn < 0)) by lia. py_run. reflexivity.
Qed.

End Gather.

Lemma Ref_dtype_hash_differs : @dtype_hash_differs Ref.backend.
Proof. intros d t. destruct d, t; discriminate. Qed.

(** The array [np.array([2**32], dtype=np.uint64)] as an index, with the
    reference kernels: no ValueError about the index range; the array is
    made a column and only the strict cast to UInt32 fails. *)
Lemma pos_idxs_ndarray_upper_bound_unchecked_witness :
  _pos_idxs (wrap 0) (PyNdarray big_uint64_array) indexed_columns
  = (indexed_columns
       ++ [ {| ps_name := ""; ps_dtype := UInt64; ps_chunks := [[Some (SInt (2 ^ 32))]] |} ],
     Raise (PolarsError "strict conversion failed")).
Proof.
  rewrite (pos_idxs_ndarray_upper_bound_unchecked (H:=Ref.backend) (wrap 0) big_uint64_array
             indexed_columns eq_refl eq_refl Ref_dtype_hash_differs eq_refl
             (or_introl eq_refl)).
  vm_compute. reflexivity.
Defined.

(** The same for the int64 array, and the same index as an Int64 Series,
    which is refused. *)
Example pos_idxs_big_int64_array :
  _pos_idxs (wrap 0) (PyNdarray big_int64_array) indexed_columns
  = (indexed_columns
       ++ [ {| ps_name := ""; ps_dtype := Int64; ps_chunks := [[Some (SInt (2 ^ 32))]] |} ],
     Raise (PolarsError "strict conversion failed")).
Proof. vm_compute. reflexivity. Qed.

Example pos_idxs_big_int64_series :
  _pos_idxs (wrap 0) (PySeriesRef (wrap 1)) indexed_columns
  = (indexed_columns, Raise (ValueError "Index positions should be smaller than 2^32.")).
Proof. vm_compute. reflexivity. Qed.

(** [s[Series([-1, 0])]] on [s = Series([10, 20, 30])]: the index becomes
    [[2, 0]] and the gather returns [[30, 10]]. *)
Example getitem_negative_index :
  exists h',
    __getitem__ 1 (wrap 0) (PySeriesRef (wrap 2)) indexed_columns = (h', Ok (PySeriesRef (wrap 6)))
    /\ (ps_values <$> h' !! 5%nat) = Some [Some (SInt 2); Some (SInt 0)]
    /\ (ps_dtype <$> h' !! 5%nat) = Some UInt32
    /\ (ps_values <$> h' !! 6%nat) = Some [Some (SInt 30); Some (SInt 10)].
Proof. eexists. vm_compute. repeat split. Qed.

(** An empty Int64 index column has no maximum. *)
Example pos_idxs_empty_int64_series :
  _pos_idxs (wrap 0) (PySeriesRef (wrap 3)) indexed_columns
  = (indexed_columns,
     Raise (TypeError "'>=' not supported between instances of this type and 'int'")).
Proof. vm_compute. reflexivity. Qed.

(** ** The reference kernels translate negative indices *)

Lemma Ref_when_negative_values (n : Z) (ps out : PySeries) :
  Ref.when_negative n ps = Ok out ->
  ps_values out = Ref.translate_negative n <$> ps_values ps.
Proof. intros [= <-]. unfold ps_values. cbn. apply app_nil_r. Qed.

(** [df[0:2:5]] and [df[0:2]] on a frame of three rows. *)
Example frame_slice_with_step :
  Frame.__getitem__ 1 [("x", [1; 2; 3])]
    (Frame.ISlice (Frame.mk_slice (Some 0) (Some 2) (Some 5)))
  = Ok (Frame.VFrame [("x", [1; 2])]).
Proof. reflexivity. Qed.

(** * More of the Python layer *)

(** ** [rename] and [alias] *)

Section Rename.
Context `{PyBackend}.

Lemma wrap_s_run (ps : PySeries) (h : heap) :
  wrap_s ps h = (h ++ [ps], Ok (wrap (length h))).
Proof. reflexivity. Qed.

Lemma update_live (l : nat) (f : PySeries -> PySeries) (h : heap) (ps : PySeries) :
  h !! l = Some ps -> update l f h = (<[l := f ps]> h, Ok tt).
Proof. intros E. unfold update. rewrite E. reflexivity. Qed.

(** X1.  [s.rename(name)] (not in place) returns a new Series on a new
    native column that has the new name and the dtype and chunks of [s];
    [s] and every other column stay as they were.  [s.rename(name,
    in_place=True)] returns None and renames the column of [s] itself. *)
Theorem rename_copies_unless_in_place
    (self : Series) (nm : string) (h : heap) (ps : PySeries) :
  h !! _s self = Some ps ->
  rename self nm false h = (h ++ [ps_rename nm ps], Ok (Some (wrap (length h))))
  /\ (forall l q, h !! l = Some q -> (h ++ [ps_rename nm ps]) !! l = Some q)
  /\ rename self nm true h = (<[_s self := ps_rename nm ps]> h, Ok None).
Proof.
  intros Hlive. split; [|split].
  - unfold rename, alias, clone.
    rewrite !bind_assoc, (bind_ok _ _ _ _ _ (deref_live _ _ _ Hlive)).
    rewrite (bind_ok _ _ _ _ _ (wrap_s_run ps h)). py_run. cbn [_s].
    rewrite (bind_ok _ _ _ _ _ (update_live _ (ps_rename nm) _ _ (alloc_lookup h ps))).
    py_run. unfold ret. cbn [_s].
    rewrite (insert_app_r_alt h [ps] (length h)) by lia.
    rewrite Nat.sub_diag. reflexivity.
  - intros l q Hl. apply lookup_app_l_Some. exact Hl.
  - unfold rename, update, Py.bind, ret. rewrite Hlive. reflexivity.
Qed.

End Rename.

Lemma rename_copies_unless_in_place_witness :
  rename (wrap 0) "z" false one_int_column
  = (one_int_column
       ++ [ {| ps_name := "z"; ps_dtype := Int64;
               ps_chunks := [[Some (SInt 1); Some (SInt 2)]] |} ],
     Ok (Some (wrap 1))).
Proof.
  refine (proj1 (rename_copies_unless_in_place (wrap 0) "z"
                   one_int_column _ eq_refl)).
Defined.

(** ** [Series.__init__]: the first argument *)

Section FirstArgument.
Context `{PyBackend}.

(** X2.  When the first argument is neither None nor a string: with
    values given, the constructor raises ValueError and builds nothing;
    with no values, the first argument is taken as the values and the
    name as None. *)
Theorem first_argument_is_name_or_values
    (name_arg values : pyobj) (dt : option DataType) (strict nan_to_null : bool)
    (h : heap) :
  is_None name_arg = false -> isinstance_str name_arg = false ->
  (is_None values = false ->
     Series_init name_arg values dt strict nan_to_null h
     = (h, Raise (ValueError "Series name must be a string.")))
  /\ Series_init name_arg PyNone dt strict nan_to_null h
     = Series_init PyNone name_arg dt strict nan_to_null h.
Proof.
  intros Hnone Hstr. split.
  - intros Hvalues. unfold Series_init. rewrite Hnone, Hstr, Hvalues. reflexivity.
  - unfold Series_init. rewrite Hnone, Hstr. reflexivity.
Qed.

(** X3.  [Series(s)], a Series passed alone: the object built shares the
    native column of [s], and that column is renamed to the empty string
    in place; [s] loses its name. *)
Theorem series_passed_alone_loses_its_name
    (s : Series) (dt : option DataType) (strict nan_to_null : bool)
    (h : heap) (ps : PySeries) :
  h !! _s s = Some ps ->
  Series_init (PySeriesRef s) PyNone dt strict nan_to_null h
  = (<[_s s := ps_rename "" ps]> h, Ok (wrap (_s s))).
Proof.
  intros Hlive. unfold Series_init. cbn [is_None isinstance_str negb andb].
  rewrite bind_ret_l. cbn [snd fst].
  unfold series_to_pyseries, rename, update, inner, Py.bind, ret.
  rewrite Hlive. reflexivity.
Qed.

End FirstArgument.

Lemma first_argument_is_name_or_values_witness :
  Series_init (PyInt 5) (PyList [PyInt 1]) None true false one_int_column
  = (one_int_column, Raise (ValueError "Series name must be a string.")).
Proof.
  refine (proj1 (@first_argument_is_name_or_values Ref.backend (PyInt 5)
                   (PyList [PyInt 1]) None true false one_int_column eq_refl eq_refl)
                eq_refl).
Defined.

Lemma series_passed_alone_loses_its_name_witness :
  Series_init (PySeriesRef (wrap 0)) PyNone None true false one_int_column
  = ([ {| ps_name := ""; ps_dtype := Int64;
          ps_chunks := [[Some (SInt 1); Some (SInt 2)]] |} ],
     Ok (wrap 0)).
Proof.
  refine (@series_passed_alone_loses_its_name Ref.backend (wrap 0) None true false
            one_int_column _ eq_refl).
Defined.

(** ** Arithmetic: depth of [/] and missing kernels *)

Section Arithmetic.
Context `{PyBackend}.

(** X4.  [/] calls itself at most once: with kernels whose cast returns
    the dtype asked for, a call depth of two is all the division of a live
    column ever uses, whatever the dtype and the operand; the
    RecursionError of an exhausted depth never shows. *)
Theorem truediv_nests_once
    (self : Series) (other : pyobj) (depth : nat) (h : heap) (ps : PySeries) :
  cast_gives_dtype ->
  h !! _s self = Some ps ->
  __truediv__ (S (S depth)) self other h = __truediv__ 2 self other h.
Proof.
  intros Hcast Hlive.
  assert (Hstep : forall d : nat,
    __truediv__ (S (S d)) self other h
    = (dl <- is_datelike self ;;
       if dl then raise (ValueError "first cast to integer before dividing datelike dtypes")
       else
         fl <- is_float self ;;
         if fl then _arithmetic self other "div" "div_<>"
         else c <- cast self Float64 true ;; _arithmetic c other "div" "div_<>") h).
  { intros d. cbn [__truediv__].
    rewrite !(bind_ok _ _ h h _ (is_datelike_live self h ps Hlive)).
    destruct (dtype_in (ps_dtype ps) [Date; Datetime; Duration; Time]); [reflexivity|].
    rewrite !(bind_ok _ _ h h _ (is_float_live self h ps Hlive)).
    destruct (dtype_in (ps_dtype ps) [Float32; Float64]); [reflexivity|].
    destruct (PySeries_cast ps Float64 true) as [pc|e] eqn:Hc.
    - rewrite !(bind_ok _ _ _ _ _ (cast_live self Float64 true h ps pc Hlive Hc)).
      pose proof (Hcast _ _ _ _ Hc) as Hpc.
      pose proof (alloc_lookup h pc) as Hnew.
      rewrite (bind_ok _ _ _ _ _ (is_datelike_live (wrap (length h)) _ pc Hnew)).
      rewrite Hpc, Float64_not_datelike.
      rewrite (bind_ok _ _ _ _ _ (is_float_live (wrap (length h)) _ pc Hnew)).
      rewrite Hpc, Float64_is_float. reflexivity.
    - rewrite !(bind_fail _ _ _ _ _ (cast_fails self Float64 true h ps e Hlive Hc)).
      reflexivity. }
  rewrite (Hstep depth), (Hstep 0%nat). reflexivity.
Qed.

(** X5.  When the operand is not a Series, and is not a Python float
    against a non-float column, the operand is first converted by
    [maybe_cast] and the kernel is then looked up by name.  When the
    lookup finds none, [_arithmetic] raises: the error of the conversion
    when that failed, else ValueError; no column is created and the store
    is as before. *)
Theorem arithmetic_without_kernel_fails
    (self : Series) (other : pyobj) (op_s op_ffi : string) (h : heap) (ps : PySeries) :
  h !! _s self = Some ps ->
  type_of other <> ty_Series ->
  isinstance_float other = false \/ dtype_in (ps_dtype ps) [Float32; Float64] = true ->
  get_ffi_func op_ffi (ps_dtype ps) ps = None ->
  _arithmetic self other op_s op_ffi h
  = (h, Raise match maybe_cast other ps with
              | Ok _ => ValueError "cannot do arithmetic with series of dtype: {self.dtype} and argument of type: {type(other)}"
              | Raise e => e
              end).
Proof.
  intros Hlive Hty Hfloat Hnone.
  assert (Hvia : (if isinstance_float other
                  then fl <- is_float self ;; ret (negb fl)
                  else ret false) h = (h, Ok false)).
  { destruct (isinstance_float other); [|reflexivity].
    destruct Hfloat as [Hf|Hf]; [discriminate|].
    rewrite (bind_ok _ _ _ _ _ (is_float_live self h ps Hlive)), Hf. reflexivity. }
  assert (Hscalar :
    (via_series <- (if isinstance_float other
                    then fl <- is_float self ;; ret (negb fl)
                    else ret false) ;;
     if via_series then
       other_s <- sequence_to_pyseries "" [other] None true ;;
       me <- deref (_s self) ;;
       if str_contains "rhs" op_ffi
       then wrap_result (PySeries_arith op_s other_s me)
       else wrap_result (PySeries_arith op_s me other_s)
     else
       me <- deref (_s self) ;;
       other <- lift (maybe_cast other me) ;;
       match get_ffi_func op_ffi (ps_dtype me) me with
       | None =>
           raise (ValueError "cannot do arithmetic with series of dtype: {self.dtype} and argument of type: {type(other)}")
       | Some f => wrap_result (f other)
       end) h
    = (h, Raise match maybe_cast other ps with
                | Ok _ => ValueError "cannot do arithmetic with series of dtype: {self.dtype} and argument of type: {type(other)}"
                | Raise e => e
                end)).
  { rewrite (bind_ok _ _ _ _ _ Hvia). cbv beta iota.
    rewrite (bind_ok _ _ _ _ _ (deref_live _ _ _ Hlive)).
    unfold Py.bind, lift. destruct (maybe_cast other ps) as [other'|e]; [|reflexivity].
    rewrite Hnone. reflexivity. }
  unfold _arithmetic.
  destruct other; try (exfalso; apply Hty; reflexivity); exact Hscalar.
Qed.

End Arithmetic.

Lemma truediv_nests_once_witness :
  __truediv__ 5 (wrap 0) (PyInt 2) one_int_column
  = __truediv__ 2 (wrap 0) (PyInt 2) one_int_column.
Proof.
  refine (@truediv_nests_once Ref.backend (wrap 0) (PyInt 2) 3 one_int_column _
            Ref_cast_gives_dtype eq_refl).
Defined.

(** [Series("s", ["x", "y"]) - "x"]: the operand is a str as the column
    asks, and there is no [sub_str] kernel. *)
Lemma arithmetic_without_kernel_fails_witness :
  __sub__ (wrap 0) (PyStr "x") one_str_column
  = (one_str_column,
     Raise (ValueError "cannot do arithmetic with series of dtype: {self.dtype} and argument of type: {type(other)}")).
Proof.
  refine (@arithmetic_without_kernel_fails Ref.backend (wrap 0) (PyStr "x") "sub" "sub_<>"
            one_str_column _ eq_refl _ (or_introl eq_refl) eq_refl).
  discriminate.
Defined.

(** [date_column - 1]: the conversion of 1 to a date fails first. *)
Example date_column_minus_one :
  __sub__ (wrap 0) (PyInt 1) one_date_column
  = (one_date_column,
     Raise (ValueError "Cannot convert Python type {type(el)} to {dtype}")).
Proof. reflexivity. Qed.

(** ** Inference of the dtype of a sequence *)

Section Inference.
Context `{PyBackend}.

Lemma first_non_none_skips (nones rest : list pyobj) :
  Forall (fun v => is_None v = true) nones ->
  _get_first_non_none (nones ++ rest) = _get_first_non_none rest.
Proof.
  intros Hn. unfold _get_first_non_none. induction Hn as [|v nones Hv Hn IH]; [reflexivity|].
  cbn [app]. rewrite filter_cons_False by congruence. exact IH.
Qed.

Lemma first_non_none_is_first_aux (nones rest : list pyobj) (v : pyobj) :
  Forall (fun x => is_None x = true) nones ->
  (is_None v = false -> _get_first_non_none (nones ++ v :: rest) = v)
  /\ _get_first_non_none nones = PyNone.
Proof.
  intros Hn. split.
  - intros Hv. rewrite first_non_none_skips by exact Hn.
    unfold _get_first_non_none. rewrite filter_cons_True by exact Hv. reflexivity.
  - rewrite <- (app_nil_r nones), first_non_none_skips by exact Hn. reflexivity.
Qed.

(** X6.  [_get_first_non_none] returns the first element that is not
    None, whatever follows it, and None when every element is None (or
    there is none). *)
Theorem first_non_none_is_first
    (nones rest : list pyobj) (v : pyobj) :
  Forall (fun x => is_None x = true) nones ->
  (is_None v = false -> _get_first_non_none (nones ++ v :: rest) = v)
  /\ _get_first_non_none nones = PyNone.
Proof. apply first_non_none_is_first_aux. Qed.

(** The branch [sequence_to_pyseries] takes for a first value of a type
    that is neither a date nor nested. *)
Lemma inferred_constructor (nm : string) (values : list pyobj) (strict : bool) (t : py_type) :
  values <> [] ->
  (if is_None (_get_first_non_none values) then ty_float
   else type_of (_get_first_non_none values)) = t ->
  t <> ty_date -> t <> ty_datetime -> t <> ty_list -> t <> ty_tuple -> t <> ty_Series ->
  sequence_to_pyseries nm values None strict
  = (c <- lift (py_type_to_constructor t) ;; lift (c nm values strict)).
Proof.
  intros Hne Ht H1 H2 H3 H4 H5. unfold sequence_to_pyseries.
  rewrite (bool_decide_eq_false_2 (values = [])) by exact Hne.
  cbn [andb]. cbv zeta. rewrite Ht.
  rewrite !bool_decide_eq_false_2 by assumption. reflexivity.
Qed.

(** X7.  With no dtype given, the dtype of a sequence is inferred from
    its first element that is not None, and from that one alone: when it
    is a scalar (not a date, a datetime or a nested sequence), the column
    is built by the constructor of that element's Python type applied to
    the whole sequence.  A non-empty sequence of None only is built by the
    constructor of [float]. *)
Theorem dtype_inferred_from_first_value
    (nm : string) (nones rest : list pyobj) (v : pyobj) (strict : bool) :
  Forall (fun x => is_None x = true) nones ->
  (is_None v = false ->
   type_of v <> ty_date -> type_of v <> ty_datetime ->
   type_of v <> ty_list -> type_of v <> ty_tuple -> type_of v <> ty_Series ->
   sequence_to_pyseries nm (nones ++ v :: rest) None strict
   = (c <- lift (py_type_to_constructor (type_of v)) ;;
      lift (c nm (nones ++ v :: rest) strict)))
  /\ (nones <> [] ->
      sequence_to_pyseries nm nones None strict
      = (c <- lift (py_type_to_constructor ty_float) ;; lift (c nm nones strict))).
Proof.
  intros Hn. split.
  - intros Hv H1 H2 H3 H4 H5.
    apply inferred_constructor; try assumption.
    + destruct nones; discriminate.
    + rewrite (proj1 (first_non_none_is_first_aux nones rest v Hn) Hv), Hv. reflexivity.
  - intros Hne. apply inferred_constructor; try assumption; try discriminate.
    rewrite (proj2 (first_non_none_is_first_aux nones [] PyNone Hn)). reflexivity.
Qed.

End Inference.

Lemma first_non_none_is_first_witness :
  _get_first_non_none ([PyNone; PyNone] ++ PyInt 3 :: [PyStr "a"; PyNone]) = PyInt 3.
Proof.
  refine (proj1 (first_non_none_is_first [PyNone; PyNone] [PyStr "a"; PyNone] (PyInt 3) _)
                eq_refl).
  repeat constructor.
Defined.

(** [Series("a", [None, 3, "x"])] is built by the constructor of [int]. *)
Lemma dtype_inferred_from_first_value_witness :
  sequence_to_pyseries "a" ([PyNone] ++ PyInt 3 :: [PyStr "x"]) None true
  = (c <- lift (py_type_to_constructor (type_of (PyInt 3))) ;;
     lift (c "a" ([PyNone] ++ PyInt 3 :: [PyStr "x"]) true)).
Proof.
  refine (proj1 (@dtype_inferred_from_first_value Ref.backend "a" [PyNone] [PyStr "x"]
                   (PyInt 3) true _) eq_refl _ _ _ _ _);
    first [discriminate | repeat constructor].
Defined.

(** ** Index conversion: the remaining cases *)

Section GatherCases.
Context `{PyBackend}.

(** X8.  An index column that already has the index dtype of the
    platform is returned as it is: the same object, no check, no cast, no
    new column. *)
Theorem pos_idxs_keeps_native_indices
    (self idxs : Series) (h : heap) (ps : PySeries) :
  h !! _s idxs = Some ps ->
  ps_dtype ps = get_idx_type ->
  _pos_idxs self (PySeriesRef idxs) h = (h, Ok idxs).
Proof.
  intros Hlive Hdt. unfold _pos_idxs.
  rewrite (bind_ok _ _ _ _ _ (dtype_live _ _ _ Hlive)).
  rewrite bool_decide_eq_true_2 by exact Hdt. reflexivity.
Qed.

(** X9.  An index column whose dtype is not an integer one (Boolean,
    float, Utf8, date-like, List, Object) is refused with
    NotImplementedError, on either index platform. *)
Theorem pos_idxs_refuses_other_dtypes
    (self idxs : Series) (h : heap) (ps : PySeries) :
  get_idx_type = UInt32 \/ get_idx_type = UInt64 ->
  h !! _s idxs = Some ps ->
  dtype_in (ps_dtype ps)
    [Boolean; Float32; Float64; Utf8; Date; Datetime; Duration; Time; List; Object] = true ->
  _pos_idxs self (PySeriesRef idxs) h
  = (h, Raise (NotImplementedError "Unsupported idxs datatype.")).
Proof.
  intros Hidx Hlive Hdt. unfold _pos_idxs.
  rewrite (bind_ok _ _ _ _ _ (dtype_live _ _ _ Hlive)).
  destruct Hidx as [-> | ->];
    destruct (ps_dtype ps); try discriminate Hdt; eval_guards; reflexivity.
Qed.

(** X10.  On a 32-bit index platform, an integer index column with no
    negative value and within range is only cast (strictly) to UInt32:
    for UInt8 and UInt16 with no look at the values, for UInt64 and Int64
    after the check of the maximum, for the signed dtypes after the look
    at the minimum. *)
Theorem pos_idxs_only_casts_without_negative
    (self idxs : Series) (h : heap) (ps : PySeries) (mx mn : Z) :
  get_idx_type = UInt32 ->
  h !! _s idxs = Some ps ->
  dtype_in (ps_dtype ps) [UInt8; UInt16; UInt64; Int8; Int16; Int32; Int64] = true ->
  (dtype_in (ps_dtype ps) [Int64; UInt64] = true ->
     PySeries_max ps = PyInt mx /\ mx < 2 ^ 32) ->
  (dtype_in (ps_dtype ps) [Int8; Int16; Int32; Int64] = true ->
     PySeries_min ps = PyInt mn /\ 0 <= mn) ->
  _pos_idxs self (PySeriesRef idxs) h = cast idxs UInt32 true h.
Proof.
  intros Hidx Hlive Hdt Hmax Hmin. unfold _pos_idxs. rewrite Hidx.
  rewrite (bind_ok _ _ _ _ _ (dtype_live _ _ _ Hlive)).
  pose proof (max_live idxs h ps Hlive) as Hmx.
  pose proof (min_live idxs h ps Hlive) as Hmn.
  destruct (ps_dtype ps) eqn:Hd; try discriminate Hdt; eval_guards; py_run;
    try reflexivity;
    try (destruct (Hmax eq_refl) as [Hm1 Hm2]);
    try (destruct (Hmin eq_refl) as [Hn1 Hn2]);
    rewrite ?(bind_ok _ _ _ _ _ Hmx), ?Hm1; unfold py_ge;
    rewrite ?(bool_decide_eq_false_2 (2 ^ 32 <= mx)) by lia; py_run;
    rewrite ?(bind_ok _ _ _ _ _ Hmn), ?Hn1; unfold py_lt;
    rewrite ?(bool_decide_eq_false_2 (mn < - (2 ^ 32))) by lia; py_run;
    rewrite ?(bind_ok _ _ _ _ _ Hmn), ?Hn1;
    rewrite ?(bool_decide_eq_false_2 (mn < 0)) by lia; py_run; reflexivity.
Qed.

(** X11.  A numpy index array that is not one-dimensional is refused
    with ValueError, whatever its element type. *)
Theorem pos_idxs_refuses_nd_arrays
    (self : Series) (a : ndarray) (h : heap) :
  _NUMPY_AVAILABLE = true -> ndim a <> 1%nat ->
  _pos_idxs self (PyNdarray a) h
  = (h, Raise (ValueError "Only 1D numpy array is supported as index.")).
Proof.
  intros Hnp Hdim. unfold _pos_idxs. rewrite Hnp.
  rewrite (bool_decide_eq_false_2 (ndim a = 1%nat)) by exact Hdim. reflexivity.
Qed.

(** X12.  The lower bound of a numpy index is checked (its guard is an
    [==]): on a 32-bit index platform a 1-D int64 array whose minimum is
    below -(2^32) is refused with ValueError, under any hashing. *)
Theorem pos_idxs_ndarray_too_small
    (self : Series) (a : ndarray) (h : heap) (mn : Z) :
  _NUMPY_AVAILABLE = true -> get_idx_type = UInt32 ->
  ndim a = 1%nat -> nd_dtype a = np_int64 ->
  np_min a = Ok mn -> mn < - (2 ^ 32) ->
  exists msg, _pos_idxs self (PyNdarray a) h = (h, Raise (ValueError msg)).
Proof.
  intros Hnp Hidx Hdim Hd Hmin Hsmall. unfold _pos_idxs.
  rewrite Hnp, Hidx, Hdim, Hd. eval_guards.
  destruct (np_dtype_in_set np_int64 [np_int64; np_uint64]).
  - py_run. destruct (np_max a) as [mx|e] eqn:Hmax.
    + py_run. destruct (bool_decide (2 ^ 32 <= mx)); py_run; [eexists; reflexivity|].
      rewrite Hmin. py_run. rewrite bool_decide_eq_true_2 by exact Hsmall.
      py_run. eexists. reflexivity.
    + unfold np_max in Hmax. unfold np_min in Hmin.
      destruct (nd_ints a); discriminate.
  - py_run. rewrite Hmin. py_run. rewrite bool_decide_eq_true_2 by exact Hsmall.
    py_run. eexists. reflexivity.
Qed.

(** X13.  Negative numpy indices count from the end: on a 32-bit index
    platform a 1-D int64 array within range and with a negative element
    goes to the Series constructor with every negative element [v]
    replaced by [length + v], the others unchanged. *)
Theorem pos_idxs_ndarray_translates_negative
    (self : Series) (a : ndarray) (h : heap) (me : PySeries) (mx mn : Z) :
  _NUMPY_AVAILABLE = true -> get_idx_type = UInt32 ->
  h !! _s self = Some me ->
  ndim a = 1%nat -> nd_dtype a = np_int64 ->
  np_max a = Ok mx -> mx < 2 ^ 32 ->
  np_min a = Ok mn -> - (2 ^ 32) <= mn -> mn < 0 ->
  _pos_idxs self (PyNdarray a) h
  = Series_init (PyStr "") (PyNdarray (np_where_negative (ps_len me) a))
      (Some UInt32) true false h.
Proof.
  intros Hnp Hidx Hself Hdim Hd Hmax Hmx Hmin Hmn Hneg. unfold _pos_idxs.
  rewrite Hnp, Hidx, Hdim, Hd. eval_guards.
  assert (Hfirst :
    (if np_dtype_in_set np_int64 [np_int64; np_uint64]
     then m <- lift (np_max a) ;;
          raise_if (bool_decide (2 ^ 32 <= m))
            (ValueError "Index positions should be smaller than 2^32.")
     else ret tt) h = (h, Ok tt)).
  { destruct (np_dtype_in_set np_int64 [np_int64; np_uint64]); [|reflexivity].
    rewrite Hmax. py_run. rewrite bool_decide_eq_false_2 by lia. reflexivity. }
  rewrite !bind_assoc, (bind_ok _ _ _ _ _ Hfirst). py_run.
  rewrite Hmin. py_run. rewrite (bool_decide_eq_false_2 (mn < - (2 ^ 32))) by lia. py_run.
  rewrite (bool_decide_eq_true_2 (mn < 0)) by lia. py_run.
  rewrite (bind_ok _ _ _ _ _ (len_live _ _ _ Hself)). py_run.
  unfold np_dtype_in_tuple. eval_guards. reflexivity.
Qed.

End GatherCases.

Lemma pos_idxs_keeps_native_indices_witness :
  _pos_idxs (wrap 0) (PySeriesRef (wrap 1)) more_index_columns
  = (more_index_columns, Ok (wrap 1)).
Proof.
  refine (@pos_idxs_keeps_native_indices Ref.backend (wrap 0) (wrap 1)
            more_index_columns _ eq_refl eq_refl).
Defined.

Lemma pos_idxs_refuses_other_dtypes_witness :
  _pos_idxs (wrap 0) (PySeriesRef (wrap 2)) more_index_columns
  = (more_index_columns, Raise (NotImplementedError "Unsupported idxs datatype.")).
Proof.
  refine (@pos_idxs_refuses_other_dtypes Ref.backend (wrap 0) (wrap 2)
            more_index_columns _ (or_introl eq_refl) eq_refl eq_refl).
Defined.

Lemma pos_idxs_only_casts_without_negative_witness :
  _pos_idxs (wrap 0) (PySeriesRef (wrap 3)) more_index_columns
  = cast (wrap 3) UInt32 true more_index_columns.
Proof.
  refine (@pos_idxs_only_casts_without_negative Ref.backend (wrap 0) (wrap 3)
            more_index_columns _ 0 1 eq_refl eq_refl eq_refl _ _).
  - discriminate.
  - intros _. split; [reflexivity | lia].
Defined.

Lemma pos_idxs_refuses_nd_arrays_witness :
  _pos_idxs (wrap 0) (PyNdarray square_array) more_index_columns
  = (more_index_columns, Raise (ValueError "Only 1D numpy array is supported as index.")).
Proof.
  refine (@pos_idxs_refuses_nd_arrays Ref.backend (wrap 0) square_array
            more_index_columns eq_refl _).
  discriminate.
Defined.

Lemma pos_idxs_ndarray_too_small_witness :
  exists msg,
    _pos_idxs (wrap 0) (PyNdarray small_int64_array) more_index_columns
    = (more_index_columns, Raise (ValueError msg)).
Proof.
  refine (@pos_idxs_ndarray_too_small Ref.backend (wrap 0) small_int64_array
            more_index_columns (- (2 ^ 33)) eq_refl eq_refl eq_refl eq_refl eq_refl _).
  first [reflexivity | lia].
Defined.

Lemma pos_idxs_ndarray_translates_negative_witness :
  _pos_idxs (wrap 0) (PyNdarray negative_int64_array) more_index_columns
  = Series_init (PyStr "")
      (PyNdarray {| ndim := 1; nd_dtype := np_int64; nd_data := [SInt 2; SInt 0];
                    C_CONTIGUOUS := true |})
      (Some UInt32) true false more_index_columns.
Proof.
  refine (@pos_idxs_ndarray_translates_negative Ref.backend (wrap 0) negative_int64_array
            more_index_columns _ 0 (-1) eq_refl eq_refl eq_refl eq_refl eq_refl
            eq_refl _ eq_refl _ _); first [reflexivity | lia].
Defined.

(** The Series branch on the columns of [indexed_columns]. *)
Lemma pos_idxs_series_too_large_witness :
  _pos_idxs (wrap 0) (PySeriesRef (wrap 1)) indexed_columns
  = (indexed_columns, Raise (ValueError "Index positions should be smaller than 2^32.")).
Proof.
  refine (@pos_idxs_series_too_large Ref.backend (wrap 0) (wrap 1) indexed_columns _
            (2 ^ 32) eq_refl eq_refl eq_refl eq_refl _).
  first [reflexivity | lia].
Defined.

Lemma pos_idxs_series_too_small_witness :
  exists msg,
    _pos_idxs (wrap 0) (PySeriesRef (wrap 4)) more_index_columns
    = (more_index_columns, Raise (ValueError msg)).
Proof.
  refine (@pos_idxs_series_too_small Ref.backend (wrap 0) (wrap 4) more_index_columns _
            (- (2 ^ 33)) (- (2 ^ 33)) eq_refl eq_refl eq_refl eq_refl eq_refl _).
  first [reflexivity | lia].
Defined.

Lemma pos_idxs_series_negative_witness :
  _pos_idxs (wrap 0) (PySeriesRef (wrap 2)) indexed_columns
  = (t <- wrap_result
            (select_when_negative 3
               {| ps_name := "j"; ps_dtype := Int64;
                  ps_chunks := [[Some (SInt (-1)); Some (SInt 0)]] |}) ;;
     cast t UInt32 true) indexed_columns.
Proof.
  refine (@pos_idxs_series_negative Ref.backend (wrap 0) (wrap 2) indexed_columns _ _
            0 (-1) eq_refl eq_refl eq_refl eq_refl eq_refl eq_refl _ _ _); first [reflexivity | lia].
Defined.

Lemma pos_idxs_series_without_maximum_witness :
  _pos_idxs (wrap 0) (PySeriesRef (wrap 3)) indexed_columns
  = (indexed_columns,
     Raise (TypeError "'>=' not supported between instances of this type and 'int'")).
Proof.
  refine (@pos_idxs_series_without_maximum Ref.backend (wrap 0) (wrap 3) indexed_columns _
            eq_refl eq_refl eq_refl eq_refl).
Defined.

(** ** Indexing with an empty list *)

Section EmptyIndex.
Context `{PyBackend}.

(** X14.  [s[[]]] fails: an empty list counts as a sequence of bools or
    of ints, so it is made a Series, which for an empty list is a Float32
    one (the Float32 constructor builds Float32 columns), and no branch of
    [__getitem__] takes a Float32 index: ValueError, with the Float32
    column left in the store. *)
Theorem getitem_empty_list_fails
    (self : Series) (depth : nat) (h : heap) (c : constructor) (out : PySeries) :
  Float32_constructor_gives_Float32 ->
  polars_type_to_constructor Float32 = Ok c -> c "" [] true = Ok out ->
  is_bool_sequence (PyList []) || is_int_sequence (PyList []) = true ->
  __getitem__ (S depth) self (PyList []) h
  = (h ++ [out],
     Raise (ValueError "Cannot __getitem__ on Series of dtype: '{self.dtype}' with argument: '{item}' of type: '{type(item)}'.")).
Proof.
  intros Hlaw Hc Hout Hseq.
  assert (Hinit : Series_init (PyStr "") (PyList []) None true false h
                  = (h ++ [out], Ok (wrap (length h)))).
  { unfold Series_init. cbn [is_None isinstance_str negb andb].
    rewrite bind_ret_l. cbn [snd fst sequence_items].
    rewrite sequence_to_pyseries_empty.
    rewrite (bind_ok _ _ _ _ _ (sequence_to_pyseries_Float32 "" true h c out Hc Hout)).
    reflexivity. }
  assert (Hdt : ps_dtype out = Float32) by (eapply Hlaw; eassumption).
  cbn [__getitem__]. rewrite Hseq.
  rewrite (bind_ok _ _ _ _ _ Hinit).
  rewrite (bind_ok _ _ _ _ _ (dtype_live (wrap (length h)) _ out (alloc_lookup h out))).
  rewrite Hdt. eval_guards. reflexivity.
Qed.

End EmptyIndex.

Lemma getitem_empty_list_fails_witness :
  __getitem__ 1 (wrap 0) (PyList []) one_int_column
  = (one_int_column ++ [ {| ps_name := ""; ps_dtype := Float32; ps_chunks := [[]] |} ],
     Raise (ValueError "Cannot __getitem__ on Series of dtype: '{self.dtype}' with argument: '{item}' of type: '{type(item)}'.")).
Proof.
  refine (@getitem_empty_list_fails Ref.backend (wrap 0) 0 one_int_column
            (Ref.construct Float32) _ Ref_Float32_constructor eq_refl eq_refl eq_refl).
Defined.

(** ** [append]: one retry is enough *)

Section AppendOnce.
Context `{PyBackend}.

Lemma append_step (depth : nat) (self other : Series) (append_chunks : bool) (h : heap) :
  append (S depth) self other append_chunks h
  = match write_kernel append_chunks (_s self) (_s other) h with
    | (h', Ok u) => (h', Ok u)
    | (h', Raise e) =>
        if borrow_conflict e
        then (c <- clone other ;; append depth self c append_chunks) h'
        else (h', Raise e)
    end.
Proof.
  cbn [append]. unfold try_except, write_kernel, borrow_conflict.
  destruct (if append_chunks
            then PySeries_append (_s self) (_s other)
            else PySeries_extend (_s self) (_s other)) as [h' [u|e]]; [reflexivity|].
  destruct (isinstance_RuntimeError e); [|reflexivity].
  destruct (bool_decide (str e = "Already mutably borrowed")); reflexivity.
Qed.

(** X15.  One retry is enough.  With kernels that report a borrow
    conflict only when receiver and argument are one object, and before
    writing anything, [append] of live columns retries at most once: a
    call depth of two gives the outcome of every larger depth, and an
    error it ends with is never the borrow conflict (so the caller never
    sees "Already mutably borrowed"). *)
Theorem append_retries_at_most_once
    (depth : nat) (self other : Series) (append_chunks : bool)
    (h : heap) (ps po : PySeries) :
  conflict_needs_one_object -> conflict_writes_nothing ->
  h !! _s self = Some ps -> h !! _s other = Some po ->
  append (S (S depth)) self other append_chunks h = append 2 self other append_chunks h
  /\ (forall h' e, append 2 self other append_chunks h = (h', Raise e) ->
        borrow_conflict e = false).
Proof.
  intros Hone Hnothing Hself Hother.
  assert (Hfresh : _s self <> length h).
  { apply lookup_lt_Some in Hself. lia. }
  assert (Hretry : forall d : nat,
    (c <- clone other ;; append (S d) self c append_chunks) h
    = write_kernel append_chunks (_s self) (length h) (h ++ [po])).
  { intros d. unfold clone.
    rewrite bind_assoc, (bind_ok _ _ _ _ _ (deref_live _ _ _ Hother)).
    rewrite (bind_ok _ _ _ _ _ (wrap_s_run po h)).
    rewrite append_step. cbn [_s].
    destruct (write_kernel append_chunks (_s self) (length h) (h ++ [po]))
      as [h' [[]|e]] eqn:Hk; [reflexivity|].
    rewrite (Hone _ _ _ _ _ _ Hfresh Hk). reflexivity. }
  split.
  - rewrite !append_step.
    destruct (write_kernel append_chunks (_s self) (_s other) h) as [h' [u|e]] eqn:Hk;
      [reflexivity|].
    destruct (borrow_conflict e) eqn:He; [|reflexivity].
    rewrite (Hnothing _ _ _ _ _ _ Hk He).
    rewrite (Hretry depth), (Hretry 0%nat). reflexivity.
  - intros h' e. rewrite append_step.
    destruct (write_kernel append_chunks (_s self) (_s other) h) as [h1 [u|e1]] eqn:Hk;
      [discriminate|].
    destruct (borrow_conflict e1) eqn:He.
    + rewrite (Hnothing _ _ _ _ _ _ Hk He), (Hretry 0%nat).
      intros Hk2. exact (Hone _ _ _ _ _ _ Hfresh Hk2).
    + intros [= <- <-]. exact He.
Qed.

End AppendOnce.

Lemma Ref_conflict_needs_one_object : @conflict_needs_one_object Ref.backend.
Proof.
  intros ac l r h h' e Hne. unfold write_kernel.
  assert (Hin : forall f, Ref.in_place f l r h = (h', Raise e) -> borrow_conflict e = false).
  { intros f. unfold Ref.in_place.
    rewrite (bool_decide_eq_false_2 _ Hne).
    destruct (h !! l) as [me|]; [destruct (h !! r) as [o|]|];
      [destruct (bool_decide (ps_dtype me = ps_dtype o))|..];
      intros [= <- <-]; reflexivity. }
  destruct ac; apply Hin.
Qed.

Lemma Ref_conflict_writes_nothing : @conflict_writes_nothing Ref.backend.
Proof.
  intros ac l r h h' e. unfold write_kernel.
  assert (Hin : forall f, Ref.in_place f l r h = (h', Raise e) -> h' = h).
  { intros f. unfold Ref.in_place.
    destruct (bool_decide (l = r)); [intros [= <- <-]; reflexivity|].
    destruct (h !! l) as [me|]; [destruct (h !! r) as [o|]|];
      [destruct (bool_decide (ps_dtype me = ps_dtype o))|..];
      intros [= <- <-]; reflexivity. }
  destruct ac; intros Hk _; exact (Hin _ Hk).
Qed.

Lemma append_retries_at_most_once_witness :
  append 5 (wrap 0) (wrap 0) true one_int_column
  = append 2 (wrap 0) (wrap 0) true one_int_column
  /\ (forall h' e, append 2 (wrap 0) (wrap 0) true one_int_column = (h', Raise e) ->
        borrow_conflict e = false).
Proof.
  refine (@append_retries_at_most_once Ref.backend 3 (wrap 0) (wrap 0) true
            one_int_column _ _
            Ref_conflict_needs_one_object Ref_conflict_writes_nothing eq_refl eq_refl).
Defined.

(** ** selectors.py: patterns, names and dtypes *)

Section SelectorPatterns.
Variable re_escape : string -> string.

Lemma collect_strings_app (acc l : list Selectors.pyvalue) :
  Selectors.collect_strings acc l = acc ++ Selectors.collect_strings [] l.
Proof.
  revert acc. induction l as [|st l IH]; intros acc.
  - cbn. rewrite app_nil_r. reflexivity.
  - unfold Selectors.collect_strings in *. cbn [foldl].
    destruct (Selectors.collection_items st) as [items|].
    + rewrite (IH (acc ++ items)), (IH ([] ++ items)). cbn [app].
      rewrite <- app_assoc. reflexivity.
    + rewrite (IH (acc ++ [st])), (IH ([] ++ [st])). cbn [app].
      rewrite <- app_assoc. reflexivity.
Qed.

Lemma collect_strings_of_strings (l : list string) :
  Selectors.collect_strings [] (Selectors.VStr <$> l)
  = Selectors.VStr <$> (l ≫= Selectors.characters).
Proof.
  induction l as [|s l IH]; [reflexivity|].
  rewrite fmap_cons. unfold Selectors.collect_strings in *. cbn [foldl].
  fold (Selectors.collect_strings
          ([] ++ (Selectors.VStr <$> Selectors.characters s)) (Selectors.VStr <$> l)).
  rewrite collect_strings_app. unfold Selectors.collect_strings. rewrite IH.
  cbn [app Selectors.collection_items]. rewrite bind_cons, fmap_app. reflexivity.
Qed.

Lemma escape_all_of_strings (l : list string) :
  Selectors.escape_all re_escape (Selectors.VStr <$> l) = Ok (re_escape <$> l).
Proof.
  induction l as [|s l IH]; [reflexivity|].
  rewrite fmap_cons. cbn [Selectors.escape_all Selectors.escape rbind]. rewrite IH.
  reflexivity.
Qed.

(** X16.  [_re_string] splits every string of a collection into its
    characters: a [str] is itself a Collection, so each one is spread by
    [extend], and the pattern returned is the alternation of the escaped
    characters of all the strings, in order.  (A [str] passed alone is
    escaped whole.) *)
Theorem re_string_splits_every_string (l : list string) :
  Selectors._re_string re_escape (Selectors.VList (Selectors.VStr <$> l))
  = Ok (String.concat "|" (re_escape <$> (l ≫= Selectors.characters))).
Proof.
  unfold Selectors._re_string.
  rewrite collect_strings_of_strings, escape_all_of_strings. reflexivity.
Qed.

Lemma characters_append (a b : string) :
  Selectors.characters (a +:+ b) = Selectors.characters a ++ Selectors.characters b.
Proof.
  unfold Selectors.characters. induction a as [|c a IH]; [reflexivity|].
  cbn. rewrite <- IH. reflexivity.
Qed.

Lemma characters_concat (l : list string) :
  Selectors.characters (String.concat EmptyString l) = l ≫= Selectors.characters.
Proof.
  induction l as [|s l IH]; [reflexivity|].
  rewrite bind_cons, <- IH. destruct l as [|t l].
  - cbn. rewrite app_nil_r. reflexivity.
  - change (String.concat EmptyString (s :: t :: l))
      with (s +:+ EmptyString +:+ String.concat EmptyString (t :: l)).
    rewrite characters_append. reflexivity.
Qed.

(** X17.  [starts_with] and [ends_with] see their arguments as one run of
    characters: two argument lists of strings that read the same
    when written one after the other give the same expression and the
    same raw pattern. *)
Theorem prefix_selectors_see_characters_only (l1 l2 : list string) :
  String.concat EmptyString l1 = String.concat EmptyString l2 ->
  rmap Selectors._pyexpr (Selectors.starts_with re_escape (Selectors.VStr <$> l1))
  = rmap Selectors._pyexpr (Selectors.starts_with re_escape (Selectors.VStr <$> l2))
  /\ Selectors.ends_with re_escape (Selectors.VStr <$> l1)
     = Selectors.ends_with re_escape (Selectors.VStr <$> l2).
Proof.
  intros Hsame.
  assert (Hchars : l1 ≫= Selectors.characters = l2 ≫= Selectors.characters).
  { rewrite <- !characters_concat, Hsame. reflexivity. }
  unfold Selectors.starts_with, Selectors.ends_with, Selectors._re_string.
  rewrite !collect_strings_of_strings, !escape_all_of_strings, Hchars.
  split; reflexivity.
Qed.

End SelectorPatterns.

Lemma prefix_selectors_see_characters_only_witness :
  rmap Selectors._pyexpr
    (Selectors.starts_with Selectors.escape_dots [Selectors.VStr "ab"])
  = rmap Selectors._pyexpr
      (Selectors.starts_with Selectors.escape_dots [Selectors.VStr "a"; Selectors.VStr "b"])
  /\ Selectors.ends_with Selectors.escape_dots [Selectors.VStr "ab"]
     = Selectors.ends_with Selectors.escape_dots [Selectors.VStr "a"; Selectors.VStr "b"].
Proof.
  exact (prefix_selectors_see_characters_only Selectors.escape_dots ["ab"] ["a"; "b"] eq_refl).
Defined.

(** The pattern built for one prefix of two characters. *)
Example starts_with_ab :
  rmap Selectors._pyexpr (Selectors.starts_with Selectors.escape_dots [Selectors.VStr "ab"])
  = Ok (Selectors.F_col [Selectors.VStr "^(a|b).*$"]).
Proof. reflexivity. Qed.

(** ** [matches]: the pattern is anchored *)

Lemma append_assoc_string (a b c : string) : (a +:+ b) +:+ c = a +:+ b +:+ c.
Proof.
  induction a as [|x a IH]; [reflexivity|].
  change (String x ((a +:+ b) +:+ c) = String x (a +:+ b +:+ c)).
  rewrite IH. reflexivity.
Qed.

Lemma append_empty_r (a : string) : a +:+ EmptyString = a.
Proof.
  induction a as [|x a IH]; [reflexivity|].
  change (String x (a +:+ EmptyString) = String x a).
  rewrite IH. reflexivity.
Qed.

Lemma startswith_caret (s : string) :
  Selectors.startswith s "^" = true -> exists t, s = "^" +:+ t.
Proof.
  unfold Selectors.startswith. intros Hp. apply String.prefix_correct in Hp.
  destruct s as [|c s]; [discriminate Hp|].
  exists s. destruct s; cbn in Hp; injection Hp as ->; reflexivity.
Qed.

Lemma endswith_suffix (s p : string) :
  Selectors.endswith s p = true -> exists t, s = t +:+ p.
Proof.
  induction s as [|c s IH]; cbn [Selectors.endswith]; intros Hend;
    apply orb_true_iff in Hend as [Heq|Hrest].
  - apply bool_decide_eq_true_1 in Heq. exists EmptyString. exact Heq.
  - discriminate.
  - apply bool_decide_eq_true_1 in Heq. exists EmptyString. exact Heq.
  - destruct (IH Hrest) as [t ->]. exists (String c t). reflexivity.
Qed.

Lemma anchored_pattern (p : string) :
  exists body : string,
    (if negb (Selectors.startswith p "^") then "^.*" else EmptyString)
    +:+ p +:+ (if negb (Selectors.endswith p "$") then ".*$" else EmptyString)
    = "^" +:+ body +:+ "$".
Proof.
  destruct (Selectors.startswith p "^") eqn:Hs;
    destruct (Selectors.endswith p "$") eqn:He; cbn [negb].
  - destruct (startswith_caret p Hs) as [t ->].
    change (Selectors.endswith ("^" +:+ t) "$")
      with (bool_decide ("^" +:+ t = "$") || Selectors.endswith t "$") in He.
    rewrite bool_decide_eq_false_2 in He by discriminate. cbn [orb] in He.
    destruct (endswith_suffix t _ He) as [body ->].
    exists body. rewrite append_empty_r. reflexivity.
  - destruct (startswith_caret p Hs) as [t ->].
    exists (t +:+ ".*"). rewrite !append_assoc_string. reflexivity.
  - destruct (endswith_suffix p _ He) as [u ->].
    exists (".*" +:+ u). rewrite append_empty_r, !append_assoc_string. reflexivity.
  - exists (".*" +:+ p +:+ ".*"). rewrite !append_assoc_string. reflexivity.
Qed.

(** X18.  Every pattern but ".*" gives an anchored regular expression:
    the raw pattern [matches] hands to [F.col], and keeps for inversion,
    starts with "^" and ends with "$", whatever was stripped from or added
    to the pattern given. *)
Theorem matches_is_anchored (pattern : string) :
  pattern <> ".*" ->
  exists body : string,
    Selectors._pyexpr (Selectors.matches pattern)
    = Selectors.F_col [Selectors.VStr ("^" +:+ body +:+ "$")]
    /\ Selectors.raw_params (Selectors.matches pattern)
       = Some [Selectors.VStr ("^" +:+ body +:+ "$")]
    /\ Selectors.type_ (Selectors.matches pattern) = "matches".
Proof.
  intros Hne. unfold Selectors.matches.
  rewrite bool_decide_eq_false_2 by exact Hne. cbn zeta.
  destruct (anchored_pattern
              (if Selectors.startswith pattern ".*" then Selectors.slice_from 2 pattern
               else if Selectors.endswith pattern ".*"
                    then Selectors.slice_until_last 2 pattern
                    else pattern)) as [body Hbody].
  exists body. cbn [Selectors._pyexpr Selectors.raw_params Selectors.type_ Selectors.__init__].
  rewrite Hbody. repeat split.
Qed.

Lemma matches_is_anchored_witness :
  exists body : string,
    Selectors._pyexpr (Selectors.matches "^sub.*")
    = Selectors.F_col [Selectors.VStr ("^" +:+ body +:+ "$")]
    /\ Selectors.raw_params (Selectors.matches "^sub.*")
       = Some [Selectors.VStr ("^" +:+ body +:+ "$")]
    /\ Selectors.type_ (Selectors.matches "^sub.*") = "matches".
Proof.
  apply (matches_is_anchored "^sub.*"). discriminate.
Defined.

(** What [matches] makes of some patterns: one of a leading and a
    trailing ".*" is stripped, never both. *)
Example matches_patterns :
  Selectors._pyexpr (Selectors.matches "^sub.*") = Selectors.F_col [Selectors.VStr "^sub.*$"]
  /\ Selectors._pyexpr (Selectors.matches ".*x.*") = Selectors.F_col [Selectors.VStr "^.*x.*.*$"]
  /\ Selectors._pyexpr (Selectors.matches "a$") = Selectors.F_col [Selectors.VStr "^.*a$"]
  /\ Selectors.matches ".*" = Selectors.all.
Proof. repeat split. Qed.

(** ** [__invert__]: a third inversion is the first *)

(** X19.  Inversion has period two from the first inversion on: when
    [~s] is [s1] and [~s1] is [s2], then [~s2] is [s1] again, with the
    same expression, parameters and raw parameters.  ([s2] need not be
    [s]: the first inversion fills the raw parameters in.) *)
Theorem invert_has_period_two (s s1 s2 : Selectors._selector_proxy_) :
  Selectors.__invert__ s = Ok s1 ->
  Selectors.__invert__ s1 = Ok s2 ->
  Selectors.__invert__ s2 = Ok s1.
Proof.
  unfold Selectors.__invert__. intros H1.
  destruct (bool_decide (Selectors.type_ s ∈ ["first"; "last"])) eqn:Ht; [discriminate|].
  rewrite captured_spec in H1.
  assert (Hcap : forall e b,
            Selectors.captured
              (Selectors.__init__ e (Selectors.type_ s)
                 (Some (Selectors.or_empty (Selectors.params s)))
                 (Some (Selectors.captured s)) b)
            = Selectors.captured s).
  { intros e b. unfold Selectors.captured at 1. cbn.
    destruct (Selectors.captured s) as [|v l] eqn:Hc; [|reflexivity].
    unfold Selectors.captured in Hc.
    destruct (Selectors.raw_params s) as [[|v l]|]; try discriminate;
      destruct (Selectors.params s) as [[|p q]|]; cbn in *; congruence. }
  remember (Selectors.captured s) as c eqn:Hc.
  destruct (bool_decide (Selectors.type_ s = "all")) eqn:Hall;
    destruct (Selectors._inverted s) eqn:Hinv;
    destruct c as [|v l];
    cbn [Selectors.call_col Selectors.call_exclude rbind negb] in H1;
    try discriminate H1; injection H1 as <-;
    rewrite captured_spec, Hcap;
    cbn [Selectors.type_ Selectors._inverted Selectors.__init__
         Selectors.call_col Selectors.call_exclude rbind negb];
    rewrite Ht, ?Hall; cbn [rbind];
    intros H2; injection H2 as <-;
    rewrite captured_spec, Hcap;
    cbn [Selectors.type_ Selectors._inverted Selectors.__init__
         Selectors.call_col Selectors.call_exclude rbind negb];
    rewrite Ht, ?Hall; reflexivity.
Qed.

Lemma invert_has_period_two_witness :
  exists s1 s2 : Selectors._selector_proxy_,
    Selectors.__invert__ (Selectors.string false) = Ok s1
    /\ Selectors.__invert__ s1 = Ok s2
    /\ Selectors.__invert__ s2 = Ok s1.
Proof.
  eexists. eexists. split; [reflexivity|]. split; [reflexivity|].
  apply (invert_has_period_two (Selectors.string false)); reflexivity.
Defined.

(** ** [by_name] and [by_dtype] *)

Lemma call_col_ok (args : list Selectors.pyvalue) (expr : Selectors.Expr) :
  Selectors.call_col args = Ok expr -> expr = Selectors.F_col args.
Proof. destruct args; [discriminate|]. intros [= <-]. reflexivity. Qed.

(** X20.  [by_name] drops an argument that is neither a string nor a
    collection: the TypeError for it is built and not raised, so the
    selector is the one of the other arguments. *)
Theorem by_name_drops_other_arguments
    (before after : list Selectors.pyvalue) (d : string) :
  Selectors.by_name (before ++ Selectors.VDtype d :: after)
  = Selectors.by_name (before ++ after).
Proof.
  unfold Selectors.by_name. f_equal.
  induction before as [|v before IH]; [reflexivity|].
  cbn [app Selectors.all_names_of].
  destruct v as [nm|dn|l]; rewrite ?IH; reflexivity.
Qed.

Lemma all_strings (l : list Selectors.pyvalue) :
  forallb (fun n => match n with Selectors.VStr _ => true | _ => false end) l = true ->
  exists strs : list string, l = Selectors.VStr <$> strs.
Proof.
  induction l as [|v l IH]; intros Hall.
  - exists []. reflexivity.
  - cbn in Hall. apply andb_true_iff in Hall as [Hv Hl].
    destruct v as [nm| |]; try discriminate.
    destruct (IH Hl) as [strs ->]. exists (nm :: strs). reflexivity.
Qed.

Lemma all_names_are_strings (names out : list Selectors.pyvalue) :
  Selectors.all_names_of names = Ok out ->
  exists strs : list string, out = Selectors.VStr <$> strs.
Proof.
  revert out. induction names as [|v names IH]; intros out.
  - intros [= <-]. exists []. reflexivity.
  - cbn [Selectors.all_names_of]. destruct v as [nm|dn|l].
    + destruct (Selectors.all_names_of names) as [tl|e]; [|discriminate].
      intros [= <-]. destruct (IH tl eq_refl) as [strs ->].
      exists (nm :: strs). reflexivity.
    + apply IH.
    + destruct (forallb _ l) eqn:Hl; [|discriminate].
      destruct (Selectors.all_names_of names) as [tl|e]; [|discriminate].
      intros [= <-]. destruct (IH tl eq_refl) as [strs ->].
      destruct (all_strings l Hl) as [strs0 ->].
      exists (strs0 ++ strs). rewrite fmap_app. reflexivity.
Qed.

(** X21.  A selector [by_name] returns selects by strings only: the
    arguments of its [F.col] are names, one per string given (those of
    the collections spread in place), and the same list is its "names"
    parameter.  Its recorded type is "by_dtype". *)
Theorem by_name_selects_strings
    (names : list Selectors.pyvalue) (s : Selectors._selector_proxy_) :
  Selectors.by_name names = Ok s ->
  exists strs : list string,
    Selectors._pyexpr s = Selectors.F_col (Selectors.VStr <$> strs)
    /\ Selectors.params s = Some [("names", Selectors.VList (Selectors.VStr <$> strs))]
    /\ Selectors.type_ s = "by_dtype".
Proof.
  unfold Selectors.by_name.
  destruct (Selectors.all_names_of names) as [out|e] eqn:Hout; [|discriminate].
  cbn [rbind]. destruct (Selectors.call_col out) as [expr|e] eqn:Hcol; [|discriminate].
  apply call_col_ok in Hcol as ->.
  intros [= <-]. destruct (all_names_are_strings names out Hout) as [strs ->].
  exists strs. repeat split.
Qed.

Lemma by_name_selects_strings_witness :
  exists s : Selectors._selector_proxy_,
    Selectors.by_name
      [Selectors.VStr "a"; Selectors.VList [Selectors.VStr "b"; Selectors.VStr "c"]] = Ok s
    /\ exists strs : list string,
         Selectors._pyexpr s = Selectors.F_col (Selectors.VStr <$> strs)
         /\ Selectors.params s = Some [("names", Selectors.VList (Selectors.VStr <$> strs))]
         /\ Selectors.type_ s = "by_dtype".
Proof.
  eexists. split; [reflexivity|].
  apply (by_name_selects_strings
           [Selectors.VStr "a"; Selectors.VList [Selectors.VStr "b"; Selectors.VStr "c"]]).
  reflexivity.
Defined.

Section DtypeSelector.
Variable is_polars_dtype : Selectors.pyvalue -> bool.

Lemma all_dtypes_are_dtypes (dtypes out : list Selectors.pyvalue) :
  Selectors.all_dtypes_of is_polars_dtype dtypes = Ok out ->
  forallb is_polars_dtype out = true.
Proof.
  revert out. induction dtypes as [|tp dtypes IH]; intros out.
  - intros [= <-]. reflexivity.
  - cbn [Selectors.all_dtypes_of].
    destruct (is_polars_dtype tp) eqn:Htp.
    + destruct (Selectors.all_dtypes_of is_polars_dtype dtypes) as [tl|e]; [|discriminate].
      intros [= <-]. cbn. rewrite Htp, (IH tl eq_refl). reflexivity.
    + destruct (Selectors.collection_items tp) as [items|]; [|discriminate].
      destruct (forallb is_polars_dtype items) eqn:Hitems; [|discriminate].
      destruct (Selectors.all_dtypes_of is_polars_dtype dtypes) as [tl|e]; [|discriminate].
      intros [= <-]. rewrite forallb_app, Hitems, (IH tl eq_refl). reflexivity.
Qed.

(** X22.  A selector [by_dtype] returns selects by dtypes only: every
    argument of its [F.col] passes [is_polars_dtype], those taken from a
    collection included, and the list is its "dtypes" parameter; any other
    argument makes the call fail. *)
Theorem by_dtype_selects_dtypes
    (dtypes : list Selectors.pyvalue) (s : Selectors._selector_proxy_) :
  Selectors.by_dtype is_polars_dtype dtypes = Ok s ->
  exists all_dtypes : list Selectors.pyvalue,
    Selectors._pyexpr s = Selectors.F_col all_dtypes
    /\ Selectors.params s = Some [("dtypes", Selectors.VList all_dtypes)]
    /\ forallb is_polars_dtype all_dtypes = true.
Proof.
  unfold Selectors.by_dtype.
  destruct (Selectors.all_dtypes_of is_polars_dtype dtypes) as [out|e] eqn:Hout;
    [|discriminate].
  cbn [rbind]. destruct (Selectors.call_col out) as [expr|e] eqn:Hcol; [|discriminate].
  apply call_col_ok in Hcol as ->.
  intros [= <-]. exists out. repeat split.
  exact (all_dtypes_are_dtypes dtypes out Hout).
Qed.

End DtypeSelector.

Lemma by_dtype_selects_dtypes_witness :
  exists s : Selectors._selector_proxy_,
    Selectors.by_dtype Selectors.is_dtype
      [Selectors.VDtype "Int64";
       Selectors.VList [Selectors.VDtype "Utf8"; Selectors.VDtype "Date"]] = Ok s
    /\ exists all_dtypes : list Selectors.pyvalue,
         Selectors._pyexpr s = Selectors.F_col all_dtypes
         /\ Selectors.params s = Some [("dtypes", Selectors.VList all_dtypes)]
         /\ forallb Selectors.is_dtype all_dtypes = true.
Proof.
  eexists. split; [reflexivity|].
  apply (by_dtype_selects_dtypes Selectors.is_dtype
           [Selectors.VDtype "Int64";
            Selectors.VList [Selectors.VDtype "Utf8"; Selectors.VDtype "Date"]]).
  reflexivity.
Defined.

(** ** Arithmetic never writes to a column that exists *)

Section OnlyAllocates.
Context `{PyBackend}.

Lemma only_allocates_ret {A} (a : A) : only_allocates (ret a).
Proof. intros h h' r [= <- _]. exists []. rewrite app_nil_r. reflexivity. Qed.

Lemma only_allocates_raise {A} (e : exn) : only_allocates (A:=A) (raise e).
Proof. intros h h' r [= <- _]. exists []. rewrite app_nil_r. reflexivity. Qed.

Lemma only_allocates_lift {A} (x : result A) : only_allocates (lift x).
Proof. intros h h' r [= <- _]. exists []. rewrite app_nil_r. reflexivity. Qed.

Lemma only_allocates_deref (l : nat) : only_allocates (deref l).
Proof.
  intros h h' r. unfold deref. destruct (h !! l); intros [= <- _];
    exists []; rewrite app_nil_r; reflexivity.
Qed.

Lemma only_allocates_bind {A B} (m : M heap A) (k : A -> M heap B) :
  only_allocates m -> (forall a, only_allocates (k a)) -> only_allocates (Py.bind m k).
Proof.
  intros Hm Hk h h' r. unfold Py.bind.
  destruct (m h) as [h1 [a|e]] eqn:Em.
  - intros Ek. destruct (Hm _ _ _ Em) as [f1 ->]. destruct (Hk a _ _ _ Ek) as [f2 ->].
    exists (f1 ++ f2). rewrite app_assoc. reflexivity.
  - intros [= <- _]. exact (Hm _ _ _ Em).
Qed.

Lemma only_allocates_try_except {A} (m : M heap A) (catches : exn -> bool)
    (handler : exn -> M heap A) :
  only_allocates m -> (forall e, only_allocates (handler e)) ->
  only_allocates (try_except m catches handler).
Proof.
  intros Hm Hk h h' r. unfold try_except.
  destruct (m h) as [h1 [a|e]] eqn:Em.
  - intros [= <- _]. exact (Hm _ _ _ Em).
  - destruct (catches e).
    + intros Ek. destruct (Hm _ _ _ Em) as [f1 ->]. destruct (Hk e _ _ _ Ek) as [f2 ->].
      exists (f1 ++ f2). rewrite app_assoc. reflexivity.
    + intros [= <- _]. exact (Hm _ _ _ Em).
Qed.

Lemma only_allocates_wrap_s (ps : PySeries) : only_allocates (wrap_s ps).
Proof. intros h h' r [= <- _]. exists [ps]. reflexivity. Qed.

Ltac only_allocates_step :=
  first
    [ apply only_allocates_ret | apply only_allocates_raise | apply only_allocates_lift
    | apply only_allocates_deref | apply only_allocates_wrap_s
    | apply only_allocates_try_except; [|intros ?]
    | apply only_allocates_bind; [|intros ?]
    | match goal with
      | |- only_allocates (if ?b then _ else _) => destruct b
      | |- only_allocates (match ?x with _ => _ end) => destruct x
      end ].

Lemma only_allocates_wrap_result (x : result PySeries) : only_allocates (wrap_result x).
Proof. unfold wrap_result. repeat only_allocates_step. Qed.

Lemma only_allocates_is_float (self : Series) : only_allocates (is_float self).
Proof. unfold is_float, dtype. repeat only_allocates_step. Qed.

Lemma only_allocates_is_datelike (self : Series) : only_allocates (is_datelike self).
Proof. unfold is_datelike, dtype. repeat only_allocates_step. Qed.

Lemma only_allocates_cast (self : Series) (dt : DataType) (strict : bool) :
  only_allocates (cast self dt strict).
Proof. unfold cast. repeat first [apply only_allocates_wrap_result | only_allocates_step]. Qed.

Lemma only_allocates_floor (self : Series) : only_allocates (floor self).
Proof. unfold floor. repeat first [apply only_allocates_wrap_result | only_allocates_step]. Qed.

Lemma only_allocates_sequence_to_pyseries
    (new_name : string) (values : list pyobj) (dt : option DataType) (strict : bool) :
  only_allocates (sequence_to_pyseries new_name values dt strict).
Proof.
  unfold sequence_to_pyseries, arrow_to_pyseries, iterate.
  repeat only_allocates_step.
Qed.

Lemma only_allocates_arithmetic (self : Series) (other : pyobj) (op_s op_ffi : string) :
  only_allocates (_arithmetic self other op_s op_ffi).
Proof.
  unfold _arithmetic.
  repeat first [ apply only_allocates_wrap_result | apply only_allocates_is_float
               | apply only_allocates_sequence_to_pyseries | only_allocates_step ].
Qed.

Lemma only_allocates_truediv (depth : nat) (self : Series) (other : pyobj) :
  only_allocates (__truediv__ depth self other).
Proof.
  revert self. induction depth as [|depth IH]; intros self; cbn [__truediv__].
  - apply only_allocates_raise.
  - repeat first [ apply only_allocates_is_float | apply only_allocates_is_datelike
                 | apply only_allocates_arithmetic | apply only_allocates_cast
                 | apply IH | only_allocates_step ].
Qed.

Ltac only_allocates_operator :=
  repeat first [ apply only_allocates_is_float | apply only_allocates_is_datelike
               | apply only_allocates_arithmetic | apply only_allocates_cast
               | apply only_allocates_floor | apply only_allocates_wrap_result
               | apply only_allocates_sequence_to_pyseries
               | only_allocates_step ].

Lemma only_allocates_Series_of_list (items : list pyobj) :
  only_allocates (Series_init (PyStr "") (PyList items) None true false).
Proof.
  intros h h' r. unfold Series_init. cbn [is_None isinstance_str negb andb].
  rewrite bind_ret_l. cbn [snd fst sequence_items]. revert h h' r.
  apply only_allocates_bind;
    [apply only_allocates_sequence_to_pyseries | intros; apply only_allocates_wrap_s].
Qed.

(** X23.  No arithmetic operator writes to a column that exists: after
    [+], [-], [*], [/], [//], [%] and their reflected forms, whether they
    return or raise, the store is the one before with new objects after
    it, for every operand.  The arithmetic kernels return new columns;
    the Python code around them makes no in-place call, so the operands
    are never changed, and what is made on the way (the Float64 cast of
    [/], the one-element column of a float operand) stays allocated. *)
Theorem arithmetic_only_allocates (depth : nat) (self : Series) (other : pyobj) :
  only_allocates (__add__ self other) /\ only_allocates (__sub__ self other)
  /\ only_allocates (__mul__ self other) /\ only_allocates (__mod__ self other)
  /\ only_allocates (__truediv__ depth self other)
  /\ only_allocates (__floordiv__ self other)
  /\ only_allocates (__radd__ self other) /\ only_allocates (__rsub__ self other)
  /\ only_allocates (__rmul__ self other) /\ only_allocates (__rmod__ self other)
  /\ only_allocates (__rtruediv__ self other)
  /\ only_allocates (__rfloordiv__ self other).
Proof.
  repeat split.
  - unfold __add__. destruct (isinstance_str other).
    + apply only_allocates_bind; [|intros; apply only_allocates_arithmetic].
      apply only_allocates_bind; [|intros; apply only_allocates_ret].
      apply only_allocates_Series_of_list.
    + only_allocates_operator.
  - unfold __sub__. only_allocates_operator.
  - unfold __mul__. only_allocates_operator.
  - unfold __mod__. only_allocates_operator.
  - apply only_allocates_truediv.
  - unfold __floordiv__. only_allocates_operator.
  - unfold __radd__. only_allocates_operator.
  - unfold __rsub__. only_allocates_operator.
  - unfold __rmul__. only_allocates_operator.
  - unfold __rmod__. only_allocates_operator.
  - unfold __rtruediv__, __rfloordiv__. only_allocates_operator.
  - unfold __rfloordiv__. only_allocates_operator.
Qed.

(** X24.  On a float column, [//] is [/] followed by [floor]: the two
    operators run the same division, and [//] rounds its result down. *)
Theorem floordiv_is_floored_truediv
    (depth : nat) (self : Series) (other : pyobj) (h : heap) (ps : PySeries) :
  h !! _s self = Some ps ->
  dtype_in (ps_dtype ps) [Float32; Float64] = true ->
  __floordiv__ self other h
  = (res <- __truediv__ (S depth) self other ;; floor res) h.
Proof.
  intros Hself Hfloat.
  assert (Hdate : dtype_in (ps_dtype ps) [Date; Datetime; Duration; Time] = false).
  { destruct (ps_dtype ps); try discriminate Hfloat; reflexivity. }
  unfold __floordiv__. cbn [__truediv__].
  rewrite !bind_assoc.
  rewrite !(bind_ok _ _ _ _ _ (is_datelike_live self h ps Hself)), Hdate.
  rewrite bind_assoc.
  rewrite (bind_ok _ _ _ _ _ (is_float_live self h ps Hself)), Hfloat.
  unfold Py.bind at 1 3.
  destruct (_arithmetic self other "div" "div_<>" h) as [h' [res|e]] eqn:Ediv;
    [|reflexivity].
  destruct (only_allocates_arithmetic _ _ _ _ _ _ _ Ediv) as [fresh ->].
  rewrite (bind_ok _ _ _ _ _
             (is_float_live self (h ++ fresh) ps (lookup_app_l_Some _ _ _ _ Hself))).
  rewrite Hfloat. reflexivity.
Qed.

End OnlyAllocates.

Lemma floordiv_is_floored_truediv_witness :
  __floordiv__ (wrap 0) (PySeriesRef (wrap 1)) two_float_columns
  = (res <- __truediv__ 1 (wrap 0) (PySeriesRef (wrap 1)) ;; floor res) two_float_columns.
Proof.
  exact (@floordiv_is_floored_truediv Ref.backend 0 (wrap 0) (PySeriesRef (wrap 1))
           two_float_columns _ eq_refl eq_refl).
Defined.

(** [Series("f", [1.5, 2.5]) // Series("g", [0.5, 0.5])] is [3.0, 5.0]. *)
Example floordiv_of_floats :
  match __floordiv__ (wrap 0) (PySeriesRef (wrap 1)) two_float_columns with
  | (h, Ok s) => ps_values <$> h !! _s s
  | _ => None
  end = Some [Some (SFloat 3%float); Some (SFloat 5%float)].
Proof. vm_compute. reflexivity. Qed.

(** ** Iterating over a column *)

Section IterationYields.
Context `{PyBackend}.



End IterationYields.


(** ** frame.py: rows of one named column *)

Section FrameTuple.
Context `{Frame.FrameBackend}.

(** X26.  [df[a:b, "name"]] is a frame, not a column.  The column is
    looked up and sliced first, and that result is dropped; what is
    returned is [df[["name"]][a:b]], the slice of the one-column frame.
    So the call needs both the column lookup and the selection to
    succeed, and never returns a Series. *)
Theorem frame_rows_of_named_column_is_a_frame
    (depth : nat) (self d : Frame.PyDataFrame) (r : Frame.pyslice) (c : string)
    (s s' : nat) :
  Frame.df_column self c = Ok s ->
  Frame.Series_getitem s (Frame.ISlice r) = Ok s' ->
  Frame.df_select self [Frame.IStr c] = Ok d ->
  Frame.__getitem__ (S (S depth)) self (Frame.ITuple [Frame.ISlice r; Frame.IStr c])
  = Frame.__getitem__ (S depth) d (Frame.ISlice r)
  /\ forall v : Frame.value,
       Frame.__getitem__ (S depth) d (Frame.ISlice r) = Ok v ->
       exists f : Frame.PyDataFrame, v = Frame.VFrame f.
Proof.
  intros Hcol Hrows Hsel. split.
  - cbn [Frame.__getitem__]. rewrite Hcol. cbn [rmap rbind]. rewrite Hrows.
    cbn [rmap rbind]. rewrite Hsel. reflexivity.
  - intros v. cbn [Frame.__getitem__].
    destruct (Frame.truthy _); [discriminate|].
    destruct (Frame.slice d _ _) as [f|e]; [|discriminate].
    intros [= <-]. exists f. reflexivity.
Qed.

End FrameTuple.

Lemma frame_rows_of_named_column_is_a_frame_witness :
  @Frame.__getitem__ Frame.named_tables 2 Frame.two_columns
    (Frame.ITuple [Frame.ISlice (Frame.mk_slice (Some 1) None None); Frame.IStr "b"])
  = @Frame.__getitem__ Frame.named_tables 1 [("b", [4; 5; 6])]
      (Frame.ISlice (Frame.mk_slice (Some 1) None None))
  /\ forall v : @Frame.value Frame.named_tables,
       @Frame.__getitem__ Frame.named_tables 1 [("b", [4; 5; 6])]
         (Frame.ISlice (Frame.mk_slice (Some 1) None None)) = Ok v ->
       exists f : list (string * list Z), v = @Frame.VFrame Frame.named_tables f.
Proof.
  exact (@frame_rows_of_named_column_is_a_frame Frame.named_tables 0 Frame.two_columns
           [("b", [4; 5; 6])] (Frame.mk_slice (Some 1) None None) "b" 1 1
           eq_refl eq_refl eq_refl).
Defined.

(** [df[1:, "b"]] on the frame of columns a = [1, 2, 3], b = [4, 5, 6]. *)
Example frame_rows_of_b :
  @Frame.__getitem__ Frame.named_tables 2 Frame.two_columns
    (Frame.ITuple [Frame.ISlice (Frame.mk_slice (Some 1) None None); Frame.IStr "b"])
  = Ok (@Frame.VFrame Frame.named_tables [("b", [5; 6])]).
Proof. reflexivity. Qed.
